(** * Quadinator: the Varjo runtime hooks of [dllmain.cpp]

    A shallow embedding of the texture-size hook, the view-description hook
    and the frame-submission hook that the DLL installs into the Varjo
    runtime ([hooked_GetTextureSize], [hooked_GetViewDescription],
    [hooked_EndFrameWithLayers]) and of their helpers ([AlignTo],
    [GetRenderingGaze], [GetFovTangents]), followed by the properties of the
    specification that concern them and by further properties of the hooks.

    Conventions of the embedding.
    - [int32_t]/[uint32_t] values are integers of [Z]; conversions between
      the two and the wrap-around of unsigned arithmetic are written out.
    - [double] is the binary64 type of the kernel ([PrimFloat.float]); the
      real number a double stands for is given by [SF2R], used where a property
      needs a bound on rounding errors.
    - An execution that leaves the defined behaviour of the C++ abstract
      machine (an index past an array, a division by zero, a floating-point
      value that does not fit the integer it is cast to, a signed overflow)
      ends in [Undefined]; the hooks therefore return a [result].
    - The Varjo runtime is a record of functions, [Host]: one field per
      function pointer the DLL resolves, with the answers the runtime gives
      while one hooked call runs.
    - The constants of the Varjo headers, which are not part of the
      repository, are the fields of [VarjoHeaders]. *)

From Stdlib Require Import Reals Lra.
From Stdlib Require Import ZArith Lia List Bool Floats.
Import ListNotations.
Local Open Scope Z_scope.

(** ** Undefined behaviour as a result type *)

Inductive fault : Type :=
| OutOfBounds          (* an array or vector indexed past its end *)
| DivisionByZero       (* integer [%] with a zero divisor *)
| ConversionOutOfRange (* [static_cast<int32_t>] of a double that does not fit *)
| SignedOverflow       (* [int32_t] addition leaving the type *)
| BadLayerCast         (* a header that claims a type its object does not have *)
| LengthError.         (* [std::vector::reserve] with a negative count *)

Inductive result (A : Type) : Type :=
| Done (a : A)
| Undefined (f : fault).
Arguments Done {A} a.
Arguments Undefined {A} f.

Definition bind {A B : Type} (r : result A) (k : A -> result B) : result B :=
  match r with
  | Done a => k a
  | Undefined f => Undefined f
  end.

Notation "x <- r ;; k" := (bind r (fun x => k))
  (at level 61, r at next level, right associativity).
Notation "r ;;; k" := (bind r (fun _ => k))
  (at level 61, right associativity).

(** [for (k = lo; k < hi; k++) body], threading the state [s]. *)
Definition for_range (lo hi : Z) : list Z :=
  map (fun n => lo + Z.of_nat n) (seq 0 (Z.to_nat (hi - lo))).

Fixpoint for_each {S : Type} (body : Z -> S -> result S) (ks : list Z) (s : S)
  : result S :=
  match ks with
  | [] => Done s
  | k :: ks' => s' <- body k s ;; for_each body ks' s'
  end.

Definition for_loop {S : Type} (lo hi : Z) (body : Z -> S -> result S) (s : S)
  : result S :=
  for_each body (for_range lo hi) s.

(** Reading element [i] of the array behind a pointer whose extent is [cells]. *)
Definition load {A : Type} (cells : list A) (i : Z) : result A :=
  if i <? 0 then Undefined OutOfBounds
  else match nth_error cells (Z.to_nat i) with
       | Some a => Done a
       | None => Undefined OutOfBounds
       end.

(** Writing element [i] of an array of extent [cells]. *)
Fixpoint store_nat {A : Type} (cells : list A) (i : nat) (a : A) : option (list A) :=
  match cells, i with
  | [], _ => None
  | _ :: rest, O => Some (a :: rest)
  | c :: rest, S i' => option_map (cons c) (store_nat rest i' a)
  end.

Definition store {A : Type} (cells : list A) (i : Z) (a : A) : result (list A) :=
  if i <? 0 then Undefined OutOfBounds
  else match store_nat cells (Z.to_nat i) a with
       | Some cells' => Done cells'
       | None => Undefined OutOfBounds
       end.

(** ** Machine integers *)

Definition int32_min : Z := - 2 ^ 31.
Definition int32_max : Z := 2 ^ 31 - 1.
Definition uint32_modulus : Z := 2 ^ 32.

Definition in_int32 (n : Z) : bool := (int32_min <=? n) && (n <=? int32_max).

(** Conversion of an [int32_t] to [uint32_t] and back (two's complement). *)
Definition to_uint32 (n : Z) : Z := n mod uint32_modulus.
Definition to_int32 (n : Z) : Z :=
  (n + 2 ^ 31) mod uint32_modulus - 2 ^ 31.

(** [a + b] on [int32_t]. *)
Definition add_int32 (a b : Z) : result Z :=
  if in_int32 (a + b) then Done (a + b) else Undefined SignedOverflow.

(** [a % b] on [int32_t]: the sign of the result is that of the dividend. *)
Definition rem_int32 (a b : Z) : result Z :=
  if b =? 0 then Undefined DivisionByZero else Done (Z.rem a b).

(** [template <uint32_t alignment> uint32_t AlignTo(uint32_t n)]:
    [(n + alignment - 1) & ~(alignment - 1)], computed on [uint32_t]. *)
Definition AlignTo (alignment n : Z) : Z :=
  Z.land (to_uint32 (n + alignment - 1)) (to_uint32 (Z.lnot (alignment - 1))).

(** ** Doubles *)

(** The integer part of a finite double (truncation toward zero). *)
Definition truncate (d : float) : option Z :=
  match Prim2SF d with
  | S754_zero _ => Some 0
  | S754_finite s m e =>
      let magnitude :=
        if 0 <=? e then Z.pos m * 2 ^ e else Z.pos m / 2 ^ (- e) in
      Some (if s then - magnitude else magnitude)
  | S754_infinity _ => None
  | S754_nan => None
  end.

(** [static_cast<int32_t>(d)]: defined only when the truncated value fits. *)
Definition double_to_int32 (d : float) : result Z :=
  match truncate d with
  | Some n => if in_int32 n then Done n else Undefined ConversionOutOfRange
  | None => Undefined ConversionOutOfRange
  end.

(** The implicit conversion of an [int32_t] operand to [double], exact for
    every value of the type. *)
Definition int32_to_double (n : Z) : float :=
  if n <? 0 then (- PrimFloat.of_uint63 (Uint63.of_Z (- n)))%float
  else PrimFloat.of_uint63 (Uint63.of_Z n).

(** A double that is an infinity or a NaN. *)
Definition not_finite (s : spec_float) : Prop :=
  match s with S754_nan | S754_infinity _ => True | _ => False end.

(** A double that is finite and not a zero. *)
Definition finite_nonzero (d : float) : bool :=
  match Prim2SF d with
  | S754_finite _ _ _ => true
  | _ => false
  end.

(** Powers of two as reals, and the canonical exponent of binary64. *)
Definition bpow (e : Z) : R := powerRZ 2 e.

Abbreviation fexp64 := (fexp prec emax).

(** The real number a floating-point datum stands for (0 for the specials). *)
Definition SF2R (x : spec_float) : R :=
  match x with
  | S754_finite s m e =>
      if s then (- (IZR (Z.pos m) * bpow e))%R else (IZR (Z.pos m) * bpow e)%R
  | _ => 0%R
  end.

(** A zero or a finite number. *)
Definition is_real (x : spec_float) : Prop :=
  match x with
  | S754_zero _ => True
  | S754_finite _ _ _ => True
  | _ => False
  end.

(** The relative error of one rounding of a normal number, and the absolute
    error of one rounding near zero. *)
Definition eps : R := bpow (-52).
Definition eta : R := bpow (-1074).

(** A double within a relative error of [eps] of a real number. *)
Definition near (d : float) (r : R) : Prop :=
  is_real (Prim2SF d) ->
  (Rabs (SF2R (Prim2SF d) - r) <= eps * Rabs r)%R.

(** ** Data model (the structs of the Varjo headers that the hooks touch) *)

(** [struct varjo_FovTangents]: signed tangents of the four half-angles. *)
Record varjo_FovTangents : Type := Build_FovTangents {
  top : float;
  bottom : float;
  left : float;
  right : float
}.

(** [struct varjo_AlignedView]: what the runtime reads back from a
    projection matrix. *)
Record varjo_AlignedView : Type := Build_AlignedView {
  projectionTop : float;
  projectionBottom : float;
  projectionLeft : float;
  projectionRight : float
}.

(** [struct varjo_Matrix { double value[16]; }]. *)
Record varjo_Matrix : Type := Build_Matrix { value : list float }.

(** [struct varjo_Ray { double origin[3]; double forward[3]; }]. *)
Record varjo_Ray : Type := Build_Ray {
  origin : list float;
  forward : list float
}.

Record varjo_Gaze : Type := Build_Gaze {
  leftEye : varjo_Ray;
  rightEye : varjo_Ray;
  gaze : varjo_Ray;
  focusDistance : float;
  stability : float;
  captureTime : Z;
  leftStatus : Z;
  rightStatus : Z;
  status : Z;
  frameNumber : Z;
  leftPupilSize : float;
  rightPupilSize : float
}.

(** [struct varjo_FoveatedFovTangents_Hints], only ever passed zeroed. *)
Inductive varjo_FoveatedFovTangents_Hints : Type := zeroed_hints.

(** [struct varjo_Session*] and [struct varjo_SwapChain*] are opaque
    addresses. *)
Definition varjo_Session := Z.
Definition varjo_SwapChain := Z.

Record varjo_SwapChainViewport : Type := Build_Viewport {
  swapChain : varjo_SwapChain;
  x : Z;
  y : Z;
  width : Z;
  height : Z;
  arrayIndex : Z
}.

Record varjo_LayerMultiProjView : Type := Build_View {
  extension : Z;
  projection : varjo_Matrix;
  view : varjo_Matrix;
  viewport : varjo_SwapChainViewport
}.

Record varjo_LayerHeader : Type := Build_Header {
  type : Z;
  flags : Z
}.

(** A [varjo_LayerMultiProjView*]: either a pointer to an array outside the
    hook's own vectors, known by its cells, or [viewsAllocator[n].data()]. *)
Inductive views_ptr : Type :=
| Cells (cells : list varjo_LayerMultiProjView)
| InViewsAllocator (n : nat).

Record varjo_LayerMultiProj : Type := Build_MultiProj {
  header : varjo_LayerHeader;
  space : Z;
  viewCount : Z;
  views : views_ptr
}.

(** The object behind a [varjo_LayerHeader*]. *)
Inductive layer_object : Type :=
| MultiProjObject (proj : varjo_LayerMultiProj)
| OtherObject (hdr : varjo_LayerHeader).

Definition header_of (l : layer_object) : varjo_LayerHeader :=
  match l with
  | MultiProjObject proj => header proj
  | OtherObject hdr => hdr
  end.

(** [struct varjo_SubmitInfoLayers]; [layers] is the array behind the
    [varjo_LayerHeader**], one object per pointer. *)
Record varjo_SubmitInfoLayers : Type := Build_SubmitInfo {
  submitFrameNumber : Z;
  layerCount : Z;
  layers : list layer_object
}.

(** Field updates. *)
Definition with_viewport (v : varjo_LayerMultiProjView)
    (vp : varjo_SwapChainViewport) : varjo_LayerMultiProjView :=
  Build_View (extension v) (projection v) (view v) vp.
Definition with_projection (v : varjo_LayerMultiProjView)
    (m : varjo_Matrix) : varjo_LayerMultiProjView :=
  Build_View (extension v) m (view v) (viewport v).
Definition with_views (p : varjo_LayerMultiProj) (vs : views_ptr)
  : varjo_LayerMultiProj :=
  Build_MultiProj (header p) (space p) (viewCount p) vs.
Definition with_flags (p : varjo_LayerMultiProj) (f : Z) : varjo_LayerMultiProj :=
  Build_MultiProj (Build_Header (type (header p)) f) (space p) (viewCount p) (views p).

(** The constants of [Varjo.h] and [Varjo_layers.h] that the code names. *)
Record VarjoHeaders : Type := Build_VarjoHeaders {
  varjo_TextureSize_Type_Stereo : Z;
  varjo_TextureSize_Type_Quad : Z;
  varjo_TextureSize_Type_DynamicFoveation : Z;
  varjo_LayerMultiProjType : Z;
  varjo_LayerFlag_Foveated : Z
}.

(** The two [#define]s at the top of the file. *)
Record BuildConfig : Type := Build_Config {
  USE_FOVEATED_TANGENTS : bool;
  USE_FOVEATED_GAZE : bool
}.

(** The configuration the repository is built with. *)
Definition shipped_config : BuildConfig :=
  {| USE_FOVEATED_TANGENTS := true; USE_FOVEATED_GAZE := false |}.

(** The runtime entry points the DLL calls. [original_GetTextureSize] has two
    out-parameters: it is given their previous contents and returns the new
    ones. *)
Record Host : Type := Build_Host {
  original_GetAlignedView : varjo_Matrix -> varjo_AlignedView;
  original_GetFovTangents : varjo_Session -> Z -> varjo_FovTangents;
  original_GetFoveatedFovTangents :
    varjo_Session -> Z -> varjo_Gaze -> varjo_FoveatedFovTangents_Hints ->
    varjo_FovTangents;
  original_GetRenderingGaze : varjo_Session -> varjo_Gaze -> bool * varjo_Gaze;
  varjo_GetProjectionMatrix : varjo_FovTangents -> varjo_Matrix;
  original_GetTextureSize : varjo_Session -> Z -> Z -> Z * Z -> Z * Z
}.

(** ** The gaze provider and the tangent resolver *)

Definition zero_ray : varjo_Ray :=
  {| origin := [0; 0; 0]%float; forward := [0; 0; 0]%float |}.

(** [varjo_Gaze gaze{}] and [*gaze = {}]. *)
Definition zero_gaze : varjo_Gaze :=
  {| leftEye := zero_ray; rightEye := zero_ray; gaze := zero_ray;
     focusDistance := 0%float; stability := 0%float; captureTime := 0;
     leftStatus := 0; rightStatus := 0; status := 0; frameNumber := 0;
     leftPupilSize := 0%float; rightPupilSize := 0%float |}.

(** [ray.forward[2] = d] on the three-element array. *)
Definition set_forward2 (r : varjo_Ray) (d : float) : varjo_Ray :=
  {| origin := origin r;
     forward := match forward r with
                | [f0; f1; _] => [f0; f1; d]
                | other => other
                end |}.

Section Hooks.

Variable sdk : VarjoHeaders.
Variable cfg : BuildConfig.
Variable host : Host.

(** [GetRenderingGaze]: with [USE_FOVEATED_GAZE] the runtime's gaze; without,
    the zeroed structure with [forward[2]], the eye statuses, [stability] and
    [status] assigned. The result pairs the returned [varjo_Bool] with the
    contents of [*gaze]. *)
Definition GetRenderingGaze (session : varjo_Session) (g : varjo_Gaze)
  : bool * varjo_Gaze :=
  if USE_FOVEATED_GAZE cfg then original_GetRenderingGaze host session g
  else
    let g0 := zero_gaze in
    let g1 :=
      {| leftEye := set_forward2 (leftEye g0) 1%float;
         rightEye := set_forward2 (rightEye g0) 1%float;
         gaze := set_forward2 (gaze g0) 1%float;
         focusDistance := focusDistance g0;
         stability := 1%float;
         captureTime := captureTime g0;
         leftStatus := 3;
         rightStatus := 3;
         status := 2;
         frameNumber := frameNumber g0;
         leftPupilSize := leftPupilSize g0;
         rightPupilSize := rightPupilSize g0 |} in
    (true, g1).

(** [GetFovTangents]: the foveated tangents when [USE_FOVEATED_TANGENTS] is
    set and the gaze query succeeds, the static ones otherwise. *)
Definition GetFovTangents (session : varjo_Session) (viewIndex : Z)
  : varjo_FovTangents :=
  let g := zero_gaze in
  if USE_FOVEATED_TANGENTS cfg then
    let '(ok, g') := GetRenderingGaze session g in
    if ok then
      original_GetFoveatedFovTangents host session viewIndex g' zeroed_hints
    else original_GetFovTangents host session viewIndex
  else original_GetFovTangents host session viewIndex.

(** ** The texture-size negotiator *)

(** [hooked_GetTextureSize]: [out] is what [*width] and [*height] hold on
    entry, the result what they hold on return. *)
Definition hooked_GetTextureSize (session : varjo_Session) (ty : Z)
    (viewIndex : Z) (out : Z * Z) : result (Z * Z) :=
  if ty =? varjo_TextureSize_Type_Stereo sdk then
    focusIndex <- add_int32 2 viewIndex ;;
    let '(w0, h0) :=
      original_GetTextureSize host session
        (if USE_FOVEATED_TANGENTS cfg
         then varjo_TextureSize_Type_DynamicFoveation sdk
         else varjo_TextureSize_Type_Quad sdk)
        focusIndex out in
    let fullFovTangents := GetFovTangents session viewIndex in
    let focusFovTangents := GetFovTangents session focusIndex in
    let horizontalMultiplier :=
      (abs (right fullFovTangents - left fullFovTangents) /
       abs (right focusFovTangents - left focusFovTangents))%float in
    let verticalMultiplier :=
      (abs (top fullFovTangents - bottom fullFovTangents) /
       abs (top focusFovTangents - bottom focusFovTangents))%float in
    w <- double_to_int32 (int32_to_double w0 * horizontalMultiplier)%float ;;
    let w1 := to_int32 (AlignTo 2 (to_uint32 w)) in
    h <- double_to_int32 (int32_to_double h0 * verticalMultiplier)%float ;;
    let h1 := to_int32 (AlignTo 2 (to_uint32 h)) in
    Done (w1, h1)
  else Done (original_GetTextureSize host session ty viewIndex out).

(** ** The submission-layer patcher *)

(** The local vectors of [hooked_EndFrameWithLayers]. An entry [n] of
    [newLayersPtr] is the pointer [&projAllocator[n]]; an element of
    [viewsAllocator] is one [std::array<varjo_LayerMultiProjView, 4>]. *)
Record frame_locals : Type := Build_Locals {
  newLayersPtr : list nat;
  projAllocator : list varjo_LayerMultiProj;
  viewsAllocator : list (list varjo_LayerMultiProjView)
}.

(** [v.back()] and an assignment through it. *)
Definition back {A : Type} (v : list A) : result A :=
  match rev v with
  | a :: _ => Done a
  | [] => Undefined OutOfBounds
  end.

Definition set_back {A : Type} (v : list A) (a : A) : result (list A) :=
  match rev v with
  | _ :: before => Done (rev before ++ [a])
  | [] => Undefined OutOfBounds
  end.

(** [p[j]] for a view pointer [p]. *)
Definition view_at (st : frame_locals) (p : views_ptr) (j : Z)
  : result varjo_LayerMultiProjView :=
  match p with
  | Cells cells => load cells j
  | InViewsAllocator n =>
      arr <- load (viewsAllocator st) (Z.of_nat n) ;; load arr j
  end.

Definition set_swapChain (v : varjo_LayerMultiProjView) (sc : varjo_SwapChain) :=
  with_viewport v
    (Build_Viewport sc (x (viewport v)) (y (viewport v)) (width (viewport v))
       (height (viewport v)) (arrayIndex (viewport v))).
Definition set_arrayIndex (v : varjo_LayerMultiProjView) (a : Z) :=
  with_viewport v
    (Build_Viewport (swapChain (viewport v)) (x (viewport v)) (y (viewport v))
       (width (viewport v)) (height (viewport v)) a).
Definition set_x (v : varjo_LayerMultiProjView) (n : Z) :=
  with_viewport v
    (Build_Viewport (swapChain (viewport v)) n (y (viewport v))
       (width (viewport v)) (height (viewport v)) (arrayIndex (viewport v))).
Definition set_y (v : varjo_LayerMultiProjView) (n : Z) :=
  with_viewport v
    (Build_Viewport (swapChain (viewport v)) (x (viewport v)) n
       (width (viewport v)) (height (viewport v)) (arrayIndex (viewport v))).
Definition set_width (v : varjo_LayerMultiProjView) (n : Z) :=
  with_viewport v
    (Build_Viewport (swapChain (viewport v)) (x (viewport v)) (y (viewport v))
       n (height (viewport v)) (arrayIndex (viewport v))).
Definition set_height (v : varjo_LayerMultiProjView) (n : Z) :=
  with_viewport v
    (Build_Viewport (swapChain (viewport v)) (x (viewport v)) (y (viewport v))
       (width (viewport v)) n (arrayIndex (viewport v))).

(** The body of [if (focusView.viewport.width == 1 && ...height == 1)]:
    the assignments to [focusView], in the order of the source. *)
Definition carve_focus_view (session : varjo_Session) (k : Z)
    (focusView referenceView : varjo_LayerMultiProjView)
  : result varjo_LayerMultiProjView :=
  let fullFovTangents := original_GetAlignedView host (projection referenceView) in
  let focusFovTangents := GetFovTangents session k in
  let focusView := set_swapChain focusView (swapChain (viewport referenceView)) in
  let focusView := set_arrayIndex focusView (arrayIndex (viewport referenceView)) in
  let horizontalFov :=
    (projectionRight fullFovTangents + projectionLeft fullFovTangents)%float in
  let leftOffset :=
    ((left focusFovTangents + projectionLeft fullFovTangents) / horizontalFov)%float in
  dx <- double_to_int32
          (leftOffset * int32_to_double (width (viewport referenceView)))%float ;;
  x' <- add_int32 (x (viewport focusView)) dx ;;
  let focusView := set_x focusView x' in
  w <- double_to_int32
         ((abs (right focusFovTangents - left focusFovTangents) / horizontalFov) *
          int32_to_double (width (viewport referenceView)))%float ;;
  let focusView := set_width focusView (to_int32 (AlignTo 2 (to_uint32 w))) in
  let verticalFov :=
    (projectionTop fullFovTangents + projectionBottom fullFovTangents)%float in
  let topOffset :=
    ((projectionTop fullFovTangents - top focusFovTangents) / verticalFov)%float in
  dy <- double_to_int32
          (topOffset * int32_to_double (height (viewport referenceView)))%float ;;
  y' <- add_int32 (y (viewport focusView)) dy ;;
  let focusView := set_y focusView y' in
  h <- double_to_int32
         ((abs (top focusFovTangents - bottom focusFovTangents) / verticalFov) *
          int32_to_double (height (viewport referenceView)))%float ;;
  let focusView := set_height focusView (to_int32 (AlignTo 2 (to_uint32 h))) in
  Done (with_projection focusView (varjo_GetProjectionMatrix host focusFovTangents)).

(** One iteration of [for (int32_t k = 2; k < proj->viewCount; k++)]:
    [views] is [viewsAllocator.back()], and the flag goes to
    [projAllocator.back()]. *)
Definition patch_focus_view (session : varjo_Session) (k : Z) (st : frame_locals)
  : result frame_locals :=
  arr <- back (viewsAllocator st) ;;
  focusView <- load arr k ;;
  r <- rem_int32 k 2 ;;
  referenceView <- load arr r ;;
  if (width (viewport focusView) =? 1) && (height (viewport focusView) =? 1) then
    focusView' <- carve_focus_view session k focusView referenceView ;;
    arr' <- store arr k focusView' ;;
    va <- set_back (viewsAllocator st) arr' ;;
    pa <- (if USE_FOVEATED_TANGENTS cfg then
             p <- back (projAllocator st) ;;
             set_back (projAllocator st)
               (with_flags p (Z.lor (flags (header p)) (varjo_LayerFlag_Foveated sdk)))
           else Done (projAllocator st)) ;;
    Done (Build_Locals (newLayersPtr st) pa va)
  else Done st.

(** The body of [if (submitInfo->layers[i]->type == varjo_LayerMultiProjType)]. *)
Definition copy_and_patch (session : varjo_Session) (proj : varjo_LayerMultiProj)
    (st : frame_locals) : result frame_locals :=
  (* the tracing loop reads every [proj->views[j]] for [GetAlignedView] *)
  for_loop 0 (viewCount proj)
    (fun j (u : unit) => view_at st (views proj) j ;;; Done u) tt ;;;
  (* deep copy the projection and view *)
  let pa := projAllocator st ++ [proj] in
  v0 <- view_at st (views proj) 0 ;;
  v1 <- view_at st (views proj) 1 ;;
  i2 <- rem_int32 2 (viewCount proj) ;;
  v2 <- view_at st (views proj) i2 ;;
  i3 <- rem_int32 3 (viewCount proj) ;;
  v3 <- view_at st (views proj) i3 ;;
  let va := viewsAllocator st ++ [[v0; v1; v2; v3]] in
  p <- back pa ;;
  pa <- set_back pa (with_views p (InViewsAllocator (length va - 1))) ;;
  let nl := newLayersPtr st ++ [(length pa - 1)%nat] in
  (* patch the focus views *)
  for_loop 2 (viewCount proj) (patch_focus_view session) (Build_Locals nl pa va).

(** The body of [for (int32_t i = 0; i < submitInfo->layerCount; i++)], for
    the object [l] that [submitInfo->layers[i]] points to. *)
Definition layer_body (session : varjo_Session) (l : layer_object)
    (st : frame_locals) : result frame_locals :=
  if type (header_of l) =? varjo_LayerMultiProjType sdk then
    match l with
    | MultiProjObject proj => copy_and_patch session proj st
    | OtherObject _ => Undefined BadLayerCast
    end
  else Done st.

Definition visit_layer (session : varjo_Session) (submitInfo : varjo_SubmitInfoLayers)
    (i : Z) (st : frame_locals) : result frame_locals :=
  l <- load (layers submitInfo) i ;; layer_body session l st.

(** The object a pointer of [newLayersPtr] designates when the runtime is
    called: the copied layer, with its view array read through. *)
Definition pointee (st : frame_locals) (n : nat) : result layer_object :=
  p <- load (projAllocator st) (Z.of_nat n) ;;
  match views p with
  | Cells cells => Done (MultiProjObject p)
  | InViewsAllocator m =>
      arr <- load (viewsAllocator st) (Z.of_nat m) ;;
      Done (MultiProjObject (with_views p (Cells arr)))
  end.

Fixpoint pointees (st : frame_locals) (ptrs : list nat) : result (list layer_object) :=
  match ptrs with
  | [] => Done []
  | n :: rest =>
      l <- pointee st n ;; ls <- pointees st rest ;; Done (l :: ls)
  end.

(** [hooked_EndFrameWithLayers]: the result is the [newSubmitInfo] that
    [original_EndFrameWithLayers] is called with; its [layers] are the
    objects behind [newLayersPtr.data()], as many as the vector holds. *)
Definition hooked_EndFrameWithLayers (session : varjo_Session)
    (submitInfo : varjo_SubmitInfoLayers) : result varjo_SubmitInfoLayers :=
  if layerCount submitInfo <? 0 then Undefined LengthError
  else
    st <- for_loop 0 (layerCount submitInfo) (visit_layer session submitInfo)
            (Build_Locals [] [] []) ;;
    ls <- pointees st (newLayersPtr st) ;;
    Done (Build_SubmitInfo (submitFrameNumber submitInfo) (layerCount submitInfo) ls).

End Hooks.


(** ** The specification's formulas, as the specification words them *)

(** Rounding to the nearest integer (ties away from zero), the reading of
    the specification's [round]. *)
Definition spec_round (d : float) : option Z :=
  match Prim2SF d with
  | S754_zero _ => Some 0
  | S754_finite s m e =>
      let magnitude :=
        if 0 <=? e then Z.pos m * 2 ^ e
        else (2 * Z.pos m + 2 ^ (- e)) / (2 * 2 ^ (- e)) in
      Some (if s then - magnitude else magnitude)
  | S754_infinity _ => None
  | S754_nan => None
  end.

(** [width = AlignUp(round(baseWidth * horizontalMultiplier), 2)], [height]
    analogously, with the multipliers of the specification. *)
Definition spec_NegotiateTextureSize (base : Z * Z)
    (full focus : varjo_FovTangents) : option (Z * Z) :=
  let horizontalMultiplier :=
    (abs (right full - left full) / abs (right focus - left focus))%float in
  let verticalMultiplier :=
    (abs (top full - bottom full) / abs (top focus - bottom focus))%float in
  match spec_round (int32_to_double (fst base) * horizontalMultiplier)%float,
        spec_round (int32_to_double (snd base) * verticalMultiplier)%float with
  | Some w, Some h => Some (AlignTo 2 w, AlignTo 2 h)
  | _, _ => None
  end.

(** The patched viewport of a sentinel focus view, as the specification
    words it: [new x = reference.x + round(leftOffsetFraction *
    reference.width)], [new width = AlignUp(round(|focusFov.right -
    focusFov.left| / horizontalFov * reference.width), 2)], and vertically
    the same with the offset measured from the top. *)
Definition spec_PatchViewport (refTangents : varjo_AlignedView)
    (focusFov : varjo_FovTangents) (reference : varjo_SwapChainViewport)
  : option varjo_SwapChainViewport :=
  let horizontalFov :=
    (projectionRight refTangents + projectionLeft refTangents)%float in
  let leftOffsetFraction :=
    ((left focusFov + projectionLeft refTangents) / horizontalFov)%float in
  let verticalFov :=
    (projectionTop refTangents + projectionBottom refTangents)%float in
  let topOffsetFraction :=
    ((projectionTop refTangents - top focusFov) / verticalFov)%float in
  match spec_round (leftOffsetFraction * int32_to_double (width reference))%float,
        spec_round (abs (right focusFov - left focusFov) / horizontalFov *
                    int32_to_double (width reference))%float,
        spec_round (topOffsetFraction * int32_to_double (height reference))%float,
        spec_round (abs (top focusFov - bottom focusFov) / verticalFov *
                    int32_to_double (height reference))%float with
  | Some dx, Some w, Some dy, Some h =>
      Some {| swapChain := swapChain reference;
              x := x reference + dx;
              y := y reference + dy;
              width := AlignTo 2 w;
              height := AlignTo 2 h;
              arrayIndex := arrayIndex reference |}
  | _, _, _, _ => None
  end.

(** ** Concrete runtimes and submissions *)

(** Values for the header constants, as used by the scenarios below. *)
Definition scenario_headers : VarjoHeaders :=
  {| varjo_TextureSize_Type_Stereo := 2;
     varjo_TextureSize_Type_Quad := 1;
     varjo_TextureSize_Type_DynamicFoveation := 3;
     varjo_LayerMultiProjType := 1;
     varjo_LayerFlag_Foveated := 32 |}.

(** A runtime that reads [aligned] back from every projection, answers
    [full] for the views 0 and 1 and [focus] for the others, and reports
    [base] for every texture size. *)
Definition scenario_host (aligned : varjo_AlignedView)
    (full focus : varjo_FovTangents) (base : Z * Z) : Host :=
  {| original_GetAlignedView := fun _ => aligned;
     original_GetFovTangents := fun _ i => if i <? 2 then full else focus;
     original_GetFoveatedFovTangents :=
       fun _ i _ _ => if i <? 2 then full else focus;
     original_GetRenderingGaze := fun _ g => (false, g);
     varjo_GetProjectionMatrix :=
       fun t => Build_Matrix [left t; right t; top t; bottom t];
     original_GetTextureSize := fun _ _ _ _ => base |}.

Definition unit_aligned : varjo_AlignedView :=
  {| projectionTop := 1; projectionBottom := 1;
     projectionLeft := 1; projectionRight := 1 |}.

(** Signed tangents of a symmetric frustum of half-extent [t]. *)
Definition symmetric_tangents (t : float) : varjo_FovTangents :=
  {| top := t; bottom := (- t)%float; left := (- t)%float; right := t |}.

(** The tangents of the specification's scenario: all four equal to [t]. *)
Definition unsigned_tangents (t : float) : varjo_FovTangents :=
  {| top := t; bottom := t; left := t; right := t |}.

Definition scenario_view (sc vx vy vw vh : Z) : varjo_LayerMultiProjView :=
  {| extension := 0;
     projection := Build_Matrix [];
     view := Build_Matrix [];
     viewport := {| swapChain := sc; x := vx; y := vy; width := vw;
                    height := vh; arrayIndex := 0 |} |}.

Definition scenario_layer (vs : list varjo_LayerMultiProjView) : layer_object :=
  MultiProjObject
    {| header := {| type := 1; flags := 0 |};
       space := 0;
       viewCount := Z.of_nat (length vs);
       views := Cells vs |}.

(** One eye of a quad-view frame: the full view and its 1x1 focus view. *)
Definition quad_layer (refWidth refHeight : Z) : layer_object :=
  scenario_layer
    [scenario_view 7 0 0 refWidth refHeight;
     scenario_view 8 0 0 refWidth refHeight;
     scenario_view 9 0 0 1 1;
     scenario_view 9 0 0 1 1].

Definition one_layer_frame (l : layer_object) : varjo_SubmitInfoLayers :=
  {| submitFrameNumber := 1; layerCount := 1; layers := [l] |}.

(** The viewport of view [k] of the first forwarded layer. *)
Definition forwarded_viewport (r : result varjo_SubmitInfoLayers) (k : nat)
  : option varjo_SwapChainViewport :=
  match r with
  | Done info =>
      match layers info with
      | MultiProjObject p :: _ =>
          match views p with
          | Cells cells => option_map viewport (nth_error cells k)
          | InViewsAllocator _ => None
          end
      | _ => None
      end
  | Undefined _ => None
  end.

(** A frame whose left focus view the caller has placed itself, and whose
    right focus view is the 1x1 sentinel. *)
Definition half_placed_frame : varjo_SubmitInfoLayers :=
  one_layer_frame
    (scenario_layer
       [scenario_view 7 0 0 1000 1000;
        scenario_view 8 0 0 1000 1000;
        scenario_view 7 10 20 300 200;
        scenario_view 9 0 0 1 1]).

(** Both eyes in one swapchain, side by side: the right full view starts at
    x = 1000, and each focus view is a 1x1 sentinel submitted at the origin
    of its full view. *)
Definition side_by_side_frame : varjo_SubmitInfoLayers :=
  one_layer_frame
    (scenario_layer
       [scenario_view 7 0 0 1000 1000;
        scenario_view 7 1000 0 1000 1000;
        scenario_view 9 0 0 1 1;
        scenario_view 9 1000 0 1 1]).

(** ** Invariants and postconditions of the patcher's loops *)

(** The 1x1 viewport that asks for automatic placement. *)
Definition sentinel (v : varjo_LayerMultiProjView) : bool :=
  (width (viewport v) =? 1) && (height (viewport v) =? 1).

(** The layers of a submission that the hook treats as multi-projection
    layers. *)
Definition is_multi_proj (sdk : VarjoHeaders) (l : layer_object) : bool :=
  type (header_of l) =? varjo_LayerMultiProjType sdk.

(** A submission as a caller hands it over: [layerCount] pointers, and every
    view pointer designates an array of the caller. *)
Definition caller_owned (l : layer_object) : Prop :=
  match l with
  | MultiProjObject proj => exists cells, views proj = Cells cells
  | OtherObject _ => True
  end.

Definition well_formed_submission (info : varjo_SubmitInfoLayers) : Prop :=
  layerCount info = Z.of_nat (length (layers info)) /\
  Forall caller_owned (layers info).

(** The three vectors once the copies [copies] (a layer header and its view
    array each) have been pushed: pointer [n] designates [projAllocator[n]],
    whose [views] field designates [viewsAllocator[n]]. *)
Fixpoint laid_out_projs (n : nat)
    (copies : list (varjo_LayerMultiProj * list varjo_LayerMultiProjView))
  : list varjo_LayerMultiProj :=
  match copies with
  | [] => []
  | (p, _) :: rest =>
      with_views p (InViewsAllocator n) :: laid_out_projs (S n) rest
  end.

Definition locals_after
    (copies : list (varjo_LayerMultiProj * list varjo_LayerMultiProjView))
  : frame_locals :=
  Build_Locals (seq 0 (length copies)) (laid_out_projs 0 copies) (map snd copies).

(** The object the runtime sees behind the pointer to a copy. *)
Definition resolved (c : varjo_LayerMultiProj * list varjo_LayerMultiProjView)
  : layer_object :=
  MultiProjObject (with_views (fst c) (Cells (snd c))).

(** Postcondition of [for (k = 2; k < viewCount; k++)] run over the indices
    [ks] on the array [arr], giving [arr']: the views outside [ks] are
    untouched; a view of [ks] that is not the sentinel is untouched; a
    sentinel view is replaced by what [carve_focus_view] computes from the
    view itself and the reference view [k % 2], both as they were in [arr]. *)
Definition focus_views_patched (cfg : BuildConfig) (host : Host)
    (session : varjo_Session) (ks : list Z)
    (arr arr' : list varjo_LayerMultiProjView) : Prop :=
  length arr' = length arr /\
  (forall j, ~ In j ks -> load arr' j = load arr j) /\
  (forall k, In k ks ->
     exists focusView referenceView,
       load arr k = Done focusView /\
       load arr (Z.rem k 2) = Done referenceView /\
       if sentinel focusView then
         exists focusView',
           carve_focus_view cfg host session k focusView referenceView
             = Done focusView' /\
           load arr' k = Done focusView'
       else load arr' k = Done focusView).

(** Postcondition of [copy_and_patch] on the layer [proj] whose view array
    is [cells]: [arr'] is the four-element copy after the focus loop. *)
Definition layer_patched (cfg : BuildConfig) (host : Host)
    (session : varjo_Session) (proj : varjo_LayerMultiProj)
    (cells arr' : list varjo_LayerMultiProjView) : Prop :=
  exists v0 v1 v2 v3,
    load cells 0 = Done v0 /\
    load cells 1 = Done v1 /\
    load cells (Z.rem 2 (viewCount proj)) = Done v2 /\
    load cells (Z.rem 3 (viewCount proj)) = Done v3 /\
    focus_views_patched cfg host session (for_range 2 (viewCount proj))
      [v0; v1; v2; v3] arr'.

(** What the runtime receives for the submitted layer [l]: a copy of the
    header, possibly flagged, whose view array is the patched copy. *)
Definition forwarded_copy (cfg : BuildConfig) (host : Host)
    (session : varjo_Session) (l l' : layer_object) : Prop :=
  exists proj cells newFlags arr',
    l = MultiProjObject proj /\
    views proj = Cells cells /\
    l' = MultiProjObject (with_views (with_flags proj newFlags) (Cells arr')) /\
    layer_patched cfg host session proj cells arr'.

(** A layer the patcher gets through: a multi-projection layer whose view
    array has [viewCount] elements, two to four of them, and whose sentinel
    focus views have placements that fit [int32_t]; or a layer of another
    type. *)
Definition patchable (sdk : VarjoHeaders) (cfg : BuildConfig) (host : Host)
    (session : varjo_Session) (l : layer_object) : Prop :=
  match l with
  | MultiProjObject proj =>
      exists cells,
        views proj = Cells cells /\
        viewCount proj = Z.of_nat (length cells) /\
        2 <= viewCount proj <= 4 /\
        forall k focusView referenceView,
          2 <= k < viewCount proj ->
          load cells k = Done focusView ->
          load cells (k mod 2) = Done referenceView ->
          sentinel focusView = true ->
          exists focusView',
            carve_focus_view cfg host session k focusView referenceView
              = Done focusView'
  | OtherObject hdr => type hdr <> varjo_LayerMultiProjType sdk
  end.

(** ** The assertion of [AlignTo] *)

(** [static_assert((alignment & (alignment - 1)) == 0)], on [uint32_t]: the
    condition under which an instance of the template compiles. *)
Definition AlignTo_static_assert (alignment : Z) : bool :=
  Z.land alignment (to_uint32 (alignment - 1)) =? 0.

(** ** The view-description hook *)

(** [struct varjo_ViewDescription] of [Varjo_types.h]: the default size of a
    view, the display and the eye it belongs to. *)
Module ViewDescription.
Record t : Type := Build {
  width : Z;
  height : Z;
  display : Z;
  eye : Z
}.
End ViewDescription.

(** [hooked_GetViewDescription]: the runtime's description, whose [width] and
    [height] are handed to [hooked_GetTextureSize] as out-parameters for the
    views 0 and 1. [original_GetViewDescription] is the detoured entry
    point. *)
Definition hooked_GetViewDescription (sdk : VarjoHeaders) (cfg : BuildConfig)
    (host : Host)
    (original_GetViewDescription : varjo_Session -> Z -> ViewDescription.t)
    (session : varjo_Session) (viewIndex : Z) : result ViewDescription.t :=
  let result := original_GetViewDescription session viewIndex in
  if (viewIndex =? 0) || (viewIndex =? 1) then
    size <- hooked_GetTextureSize sdk cfg host session
              (varjo_TextureSize_Type_Stereo sdk) viewIndex
              (ViewDescription.width result, ViewDescription.height result) ;;
    Done {| ViewDescription.width := fst size;
            ViewDescription.height := snd size;
            ViewDescription.display := ViewDescription.display result;
            ViewDescription.eye := ViewDescription.eye result |}
  else Done result.

(** ** More on what the patcher's loops establish *)

(** Whether the focus loop over the indices [ks] meets a sentinel in [arr]. *)
Definition has_sentinel (arr : list varjo_LayerMultiProjView) (ks : list Z) : bool :=
  existsb
    (fun k => match load arr k with
              | Done v => sentinel v
              | Undefined _ => false
              end) ks.

(** The flags of a copied layer after the focus loop: [|=
    varjo_LayerFlag_Foveated] has run if a sentinel was met and
    [USE_FOVEATED_TANGENTS] is set. *)
Definition patched_flags (sdk : VarjoHeaders) (cfg : BuildConfig) (f : Z)
    (met : bool) : Z :=
  if USE_FOVEATED_TANGENTS cfg && met
  then Z.lor f (varjo_LayerFlag_Foveated sdk) else f.

(** What the runtime receives for the submitted layer [l], in full: the
    layer is a multi-projection object with a usable view count, and the
    copy has the patched views and flags. *)
Definition forwarded_layer (sdk : VarjoHeaders) (cfg : BuildConfig) (host : Host)
    (session : varjo_Session) (l l' : layer_object) : Prop :=
  exists proj cells arr',
    l = MultiProjObject proj /\
    views proj = Cells cells /\
    viewCount proj <> 0 /\
    viewCount proj <= 4 /\
    viewCount proj <= Z.of_nat (length cells) /\
    2 <= Z.of_nat (length cells) /\
    l' = MultiProjObject
           (with_views
              (with_flags proj
                 (patched_flags sdk cfg (flags (header proj))
                    (has_sentinel cells (for_range 2 (viewCount proj)))))
              (Cells arr')) /\
    layer_patched cfg host session proj cells arr'.

(** ** More concrete runtimes and submissions *)

(** A frame of one layer of another type followed by a multi-projection
    layer of two views. *)
Definition mixed_frame : varjo_SubmitInfoLayers :=
  {| submitFrameNumber := 1; layerCount := 2;
     layers := [OtherObject {| type := 2; flags := 0 |};
                scenario_layer [scenario_view 7 0 0 64 64;
                                scenario_view 8 0 0 64 64]] |}.

(** A frame of one multi-projection layer with the two full views only. *)
Definition two_view_frame : varjo_SubmitInfoLayers :=
  one_layer_frame
    (scenario_layer [scenario_view 7 0 0 64 64; scenario_view 8 0 0 64 64]).

(** A runtime like [scenario_host], except that its gaze query succeeds and
    its static tangents are other ones. *)
Definition tracking_host (aligned : varjo_AlignedView)
    (full focus : varjo_FovTangents) (base : Z * Z) : Host :=
  {| original_GetAlignedView := fun _ => aligned;
     original_GetFovTangents := fun _ _ => symmetric_tangents 2;
     original_GetFoveatedFovTangents :=
       fun _ i _ _ => if i <? 2 then full else focus;
     original_GetRenderingGaze := fun _ g => (true, g);
     varjo_GetProjectionMatrix :=
       fun t => Build_Matrix [left t; right t; top t; bottom t];
     original_GetTextureSize := fun _ _ _ _ => base |}.
(** * Properties *)

(** ** The result type and the loops *)

Lemma bind_done_inv {A B : Type} (r : result A) (k : A -> result B) (b : B) :
  bind r k = Done b -> exists a, r = Done a /\ k a = Done b.
Proof.
  destruct r as [a | f]; simpl; intros H; [exists a; auto | discriminate].
Qed.

Lemma for_range_In (lo hi k : Z) : In k (for_range lo hi) <-> lo <= k < hi.
Proof.
  unfold for_range; rewrite in_map_iff; split.
  - intros [n [<- Hn]]; apply in_seq in Hn; lia.
  - intros Hk; exists (Z.to_nat (k - lo)); split; [lia | apply in_seq; lia].
Qed.

Lemma for_range_NoDup (lo hi : Z) : NoDup (for_range lo hi).
Proof.
  unfold for_range.
  generalize (Z.to_nat (hi - lo)) as n; intros n.
  generalize 0%nat as s; induction n as [| n IH]; intros s; simpl.
  - constructor.
  - constructor; [| apply IH].
    rewrite in_map_iff; intros [m [Hm Hin]]; apply in_seq in Hin; lia.
Qed.

Lemma for_range_of_length (n : nat) :
  for_range 0 (Z.of_nat n) = map Z.of_nat (seq 0 n).
Proof.
  unfold for_range; rewrite Z.sub_0_r, Nat2Z.id; reflexivity.
Qed.

(** ** Arrays *)

Lemma load_done {A : Type} (cells : list A) (i : Z) (a : A) :
  load cells i = Done a <-> 0 <= i /\ nth_error cells (Z.to_nat i) = Some a.
Proof.
  unfold load; destruct (Z.ltb_spec i 0).
  - split; [discriminate | lia].
  - destruct (nth_error cells (Z.to_nat i)) as [a' |]; split.
    + intros [= ->]; auto.
    + intros [_ [= ->]]; reflexivity.
    + discriminate.
    + intros [_ ?]; discriminate.
Qed.

Lemma load_in_range {A : Type} (cells : list A) (i : Z) :
  0 <= i < Z.of_nat (length cells) -> exists a, load cells i = Done a.
Proof.
  intros Hi.
  destruct (nth_error cells (Z.to_nat i)) as [a |] eqn:E.
  - exists a; apply load_done; split; [lia | assumption].
  - apply nth_error_None in E; lia.
Qed.

Lemma store_nat_spec {A : Type} (cells : list A) (i : nat) (a : A) (cells' : list A) :
  store_nat cells i a = Some cells' ->
  length cells' = length cells /\
  nth_error cells' i = Some a /\
  forall j, j <> i -> nth_error cells' j = nth_error cells j.
Proof.
  revert i cells'; induction cells as [| c rest IH]; intros i cells'; simpl.
  - discriminate.
  - destruct i as [| i'].
    + intros [= <-]; repeat split; intros [| j] Hj; simpl; congruence.
    + destruct (store_nat rest i' a) as [rest' |] eqn:E; simpl; [| discriminate].
      intros [= <-]; destruct (IH _ _ E) as [Hlen [Hget Hother]].
      simpl; repeat split; [congruence | assumption |].
      intros [| j] Hj; simpl; [reflexivity | apply Hother; congruence].
Qed.

Lemma store_nat_in_range {A : Type} (cells : list A) (i : nat) (a : A) :
  (i < length cells)%nat -> exists cells', store_nat cells i a = Some cells'.
Proof.
  revert i; induction cells as [| c rest IH]; intros i Hi; simpl in *; [lia |].
  destruct i as [| i']; [eauto |].
  destruct (IH i') as [rest' E]; [lia |]; rewrite E; simpl; eauto.
Qed.

Lemma store_done {A : Type} (cells : list A) (i : Z) (a : A) (cells' : list A) :
  store cells i a = Done cells' ->
  length cells' = length cells /\
  load cells' i = Done a /\
  forall j, j <> i -> load cells' j = load cells j.
Proof.
  unfold store; destruct (Z.ltb_spec i 0); [discriminate |].
  destruct (store_nat cells (Z.to_nat i) a) as [c |] eqn:E; [| discriminate].
  intros [= <-]; destruct (store_nat_spec _ _ _ _ E) as [Hlen [Hget Hother]].
  repeat split; [assumption | apply load_done; auto |].
  intros j Hj; unfold load; destruct (Z.ltb_spec j 0); [reflexivity |].
  rewrite Hother by lia; reflexivity.
Qed.

Lemma store_after_load {A : Type} (cells : list A) (i : Z) (a b : A) :
  load cells i = Done a -> exists cells', store cells i b = Done cells'.
Proof.
  intros H; apply load_done in H; destruct H as [Hi Hn].
  assert (Hlt : (Z.to_nat i < length cells)%nat)
    by (apply nth_error_Some; congruence).
  destruct (store_nat_in_range cells _ b Hlt) as [cells' E].
  exists cells'; unfold store.
  destruct (Z.ltb_spec i 0); [lia |]; rewrite E; reflexivity.
Qed.

Lemma back_snoc {A : Type} (v : list A) (a : A) : back (v ++ [a]) = Done a.
Proof. unfold back; rewrite rev_unit; reflexivity. Qed.

Lemma set_back_snoc {A : Type} (v : list A) (a b : A) :
  set_back (v ++ [a]) b = Done (v ++ [b]).
Proof. unfold set_back; rewrite rev_unit, rev_involutive; reflexivity. Qed.

(** ** [AlignTo<2>] *)

Lemma not_one_uint32 : to_uint32 (Z.lnot (2 - 1)) = Z.ldiff (Z.ones 32) (Z.ones 1).
Proof. reflexivity. Qed.

(** The mask clears bit 0 and keeps the 31 bits above it. *)
Lemma AlignTo_2_eq (n : Z) : AlignTo 2 n = 2 * (to_uint32 (n + 1) / 2).
Proof.
  unfold AlignTo; rewrite not_one_uint32.
  replace (n + 2 - 1) with (n + 1) by lia.
  unfold to_uint32, uint32_modulus.
  set (m := (n + 1) mod 2 ^ 32).
  apply Z.bits_inj'; intros i Hi.
  rewrite Z.land_spec, Z.ldiff_spec.
  rewrite !Z.testbit_ones_nonneg by lia.
  replace (2 * (m / 2)) with (Z.shiftl (Z.shiftr m 1) 1)
    by (rewrite Z.shiftl_mul_pow2, Z.shiftr_div_pow2 by lia;
        change (2 ^ 1) with 2; lia).
  rewrite Z.shiftl_spec by lia.
  destruct (Z.ltb_spec i 1) as [H1 | H1].
  - rewrite andb_false_r, andb_false_r.
    symmetry; apply Z.testbit_neg_r; lia.
  - rewrite Z.shiftr_spec by lia.
    replace (i - 1 + 1) with i by lia.
    destruct (Z.ltb_spec i 32) as [H32 | H32]; simpl.
    + apply andb_true_r.
    + rewrite andb_false_r; symmetry.
      apply Z.mod_pow2_bits_high; lia.
Qed.

Lemma to_uint32_range (n : Z) : 0 <= to_uint32 n < 2 ^ 32.
Proof. apply Z.mod_pos_bound; reflexivity. Qed.

Lemma to_uint32_small (n : Z) : 0 <= n < 2 ^ 32 -> to_uint32 n = n.
Proof. intros H; apply Z.mod_small; exact H. Qed.

Lemma AlignTo_2_range (n : Z) : 0 <= AlignTo 2 n <= 2 ^ 32 - 2.
Proof.
  rewrite AlignTo_2_eq.
  pose proof (to_uint32_range (n + 1)) as Hm.
  pose proof (Z.div_mod (to_uint32 (n + 1)) 2 ltac:(lia)) as E.
  pose proof (Z.mod_pos_bound (to_uint32 (n + 1)) 2 ltac:(lia)) as Hr.
  lia.
Qed.

Lemma AlignTo_2_below (n : Z) :
  0 <= n < 2 ^ 32 - 1 -> n <= AlignTo 2 n <= n + 1.
Proof.
  intros Hn; rewrite AlignTo_2_eq, to_uint32_small by lia.
  pose proof (Z.div_mod (n + 1) 2 ltac:(lia)) as E.
  pose proof (Z.mod_pos_bound (n + 1) 2 ltac:(lia)) as Hr.
  lia.
Qed.

Lemma AlignTo_2_even (n : Z) : Z.even (AlignTo 2 n) = true.
Proof. rewrite AlignTo_2_eq, Z.even_mul; reflexivity. Qed.

Lemma AlignTo_2_of_even (n : Z) :
  0 <= n <= 2 ^ 32 - 2 -> Z.even n = true -> AlignTo 2 n = n.
Proof.
  intros Hn He; rewrite AlignTo_2_eq, to_uint32_small by lia.
  apply Zeven_bool_iff, Zeven_ex_iff in He; destruct He as [q ->].
  replace (2 * q + 1) with (1 + q * 2) by lia.
  rewrite Z.div_add by lia; change (1 / 2) with 0; lia.
Qed.

(** ** Doubles: the facts of binary64 arithmetic the properties rest on *)

Lemma SFdiv_zero_r (x : spec_float) (sy : bool) :
  not_finite (SFdiv prec emax x (S754_zero sy)).
Proof. destruct x; simpl; exact I. Qed.

Lemma SFmul_not_finite_r (x y : spec_float) :
  not_finite y -> not_finite (SFmul prec emax x y).
Proof. destruct x, y; simpl; intros H; try exact I; try contradiction. Qed.

Lemma is_zero_spec (x : float) :
  is_zero x = true -> exists s, Prim2SF x = S754_zero s.
Proof.
  unfold is_zero; rewrite eqb_spec.
  change (Prim2SF zero) with (S754_zero false).
  destruct (Prim2SF x) as [s | s | | s m e]; simpl; try discriminate; eauto.
  - destruct s; discriminate.
  - destruct s; discriminate.
Qed.

Lemma Prim2SF_one : Prim2SF 1 = S754_finite false 4503599627370496 (-52).
Proof. reflexivity. Qed.

Lemma digits2_pos_shift (p : positive) (n : positive) :
  digits2_pos (Pos.iter xO p n) = (digits2_pos p + n)%positive.
Proof.
  revert p; induction n using Pos.peano_ind; intros p.
  - simpl. lia.
  - rewrite Pos.iter_succ. simpl. rewrite IHn. lia.
Qed.

Lemma iter_pos_shr_1 (n : positive) (p : positive) :
  iter_pos shr_1 n (Build_shr_record (Zpos (Pos.iter xO p n)) false false)
  = Build_shr_record (Zpos p) false false.
Proof.
  assert (E : forall (A : Type) (f : A -> A) (k : positive) (a : A),
             iter_pos f k a = Pos.iter f a k).
  { intros A f k; induction k as [k IH | k IH |]; intros a; simpl.
    - rewrite !IH, !Pos.iter_swap; reflexivity.
    - rewrite !IH; reflexivity.
    - reflexivity. }
  rewrite E; clear E.
  induction n using Pos.peano_ind.
  - reflexivity.
  - rewrite Pos.iter_succ_r, Pos.iter_succ; simpl; exact IHn.
Qed.

Lemma iter_xO_mul (p n : positive) : Pos.iter xO p n = (p * 2 ^ n)%positive.
Proof.
  induction n using Pos.peano_ind.
  - simpl. lia.
  - rewrite Pos.iter_succ, IHn, Pos.pow_succ_r. lia.
Qed.

(** Multiplying by one is exact. *)
Lemma SFmul_one_r (s : bool) (m : positive) (e : Z) :
  valid_binary (S754_finite s m e) = true ->
  SFmul prec emax (S754_finite s m e) (Prim2SF 1) = S754_finite s m e.
Proof.
  rewrite Prim2SF_one; simpl.
  unfold bounded, canonical_mantissa; intros H.
  apply andb_prop in H; destruct H as [Hc Hb].
  apply Z.eqb_eq in Hc; apply Z.leb_le in Hb.
  rewrite xorb_false_r.
  unfold binary_round_aux.
  replace (m * 4503599627370496)%positive with (Pos.iter xO m 52)
    by (rewrite iter_xO_mul; reflexivity).
  unfold shr_fexp at 1. unfold Zdigits2.
  rewrite digits2_pos_shift.
  replace (Z.pos (digits2_pos m + 52) + (e + -52)) with (Z.pos (digits2_pos m) + e) by lia.
  rewrite Hc.
  replace (e - (e + -52)) with 52 by lia.
  unfold shr, shr_record_of_loc.
  rewrite iter_pos_shr_1.
  cbn [shr_m loc_of_shr_record round_nearest_even].
  replace (e + -52 + 52) with e by lia.
  unfold shr_fexp, Zdigits2. rewrite Hc, Z.sub_diag.
  cbn [shr shr_m shr_record_of_loc].
  apply Z.leb_le in Hb. rewrite Hb. reflexivity.
Qed.

Lemma mul_one_r (x : float) : (x * 1)%float = x.
Proof.
  apply Prim2SF_inj; rewrite mul_spec.
  pose proof (Prim2SF_valid x) as V.
  destruct (Prim2SF x) as [s | s | | s m e] eqn:E.
  - rewrite Prim2SF_one; simpl; rewrite xorb_false_r; reflexivity.
  - rewrite Prim2SF_one; simpl; rewrite xorb_false_r; reflexivity.
  - reflexivity.
  - apply SFmul_one_r; exact V.
Qed.

Lemma SFdiv_core_self (m : positive) (e : Z) :
  SFdiv_core_binary prec emax (Zpos m) e (Zpos m) e = (2 ^ 53, -53, loc_Exact).
Proof.
  unfold SFdiv_core_binary.
  replace (Zdigits2 (Z.pos m) + e - (Zdigits2 (Z.pos m) + e)) with 0 by lia.
  rewrite Z.sub_diag.
  change (Z.min (fexp prec emax 0) 0) with (-53).
  change (0 - -53) with 53.
  cbv iota beta zeta.
  rewrite Z.shiftl_mul_pow2 by lia.
  pose proof (Z.div_eucl_eq (Z.pos m * 2 ^ 53) (Z.pos m) ltac:(lia)) as E.
  pose proof (Z.mod_pos_bound (Z.pos m * 2 ^ 53) (Z.pos m) ltac:(lia)) as B.
  unfold Z.modulo in B.
  destruct (Z.div_eucl (Z.pos m * 2 ^ 53) (Z.pos m)) as [q r].
  assert (Hr : r = 0).
  { assert (Z.pos m * (2 ^ 53 - q) = r) by lia.
    destruct (Z.eq_dec (2 ^ 53 - q) 0) as [Hz | Hz]; [rewrite Hz in H; lia |].
    assert (Z.pos m <= Z.abs r).
    { rewrite <- H, Z.abs_mul. 
      assert (1 <= Z.abs (2 ^ 53 - q)) by lia. nia. }
    lia. }
  subst r.
  assert (Hq : q = 2 ^ 53) by nia.
  subst q.
  unfold new_location, new_location_even, new_location_odd.
  destruct (Z.even (Z.pos m)); reflexivity.
Qed.

Lemma SFdiv_self (s s' : bool) (m : positive) (e : Z) :
  SFdiv prec emax (S754_finite s m e) (S754_finite s' m e)
  = S754_finite (xorb s s') 4503599627370496 (-52).
Proof.
  unfold SFdiv. rewrite SFdiv_core_self. reflexivity.
Qed.

Lemma div_abs_self (x : float) (s : bool) (m : positive) (e : Z) :
  Prim2SF x = S754_finite s m e -> (abs x / abs x)%float = 1%float.
Proof.
  intros E; apply Prim2SF_inj.
  rewrite div_spec, abs_spec, E; simpl SFabs.
  unfold SF64div; rewrite SFdiv_self; reflexivity.
Qed.

Lemma digits2_pos_size (p : positive) : digits2_pos p = Pos.size p.
Proof. induction p; simpl; congruence. Qed.

Lemma digits2_pos_int32 (p : positive) :
  Z.pos p <= 2 ^ 31 -> Z.pos (digits2_pos p) <= 32.
Proof.
  intros H; rewrite digits2_pos_size.
  pose proof (Pos.size_le p) as L.
  destruct (Z_le_gt_dec (Z.pos (Pos.size p)) 32) as [| G]; [assumption | exfalso].
  assert (2 ^ 33 <= 2 ^ Z.pos (Pos.size p)) by (apply Z.pow_le_mono_r; lia).
  assert (Z.pos (2 ^ Pos.size p) <= Z.pos p~0) by exact L.
  rewrite Pos2Z.inj_pow in H1. lia.
Qed.

(** An integer of at most 32 bits is a double: the mantissa is the integer
    shifted left to 53 bits. *)
Lemma binary_normalize_int32 (p : positive) (s : bool) :
  Z.pos p <= 2 ^ 31 ->
  exists k : positive,
    binary_round prec emax s p 0 = S754_finite s (Pos.iter xO p k) (Z.neg k).
Proof.
  intros H; pose proof (digits2_pos_int32 p H) as D.
  set (d := digits2_pos p) in *.
  assert (K : exists k : positive, Z.pos d - 53 = Z.neg k /\ Z.pos k <= 52).
  { exists (Z.to_pos (53 - Z.pos d)).
    rewrite <- Pos2Z.opp_pos, Z2Pos.id by lia. lia. }
  destruct K as [k [K K52]]; exists k.
  unfold binary_round.
  replace (fexp prec emax (Z.pos (digits2_pos p) + 0)) with (Z.neg k)
    by (unfold fexp, SpecFloat.emin, prec, emax; fold d; lia).
  unfold shl_align. change (Z.neg k - 0) with (Z.neg k). cbv iota beta.
  unfold binary_round_aux.
  assert (F : fexp prec emax (Zdigits2 (Z.pos (Pos.iter xO p k)) + Z.neg k) - Z.neg k = 0).
  { unfold Zdigits2; rewrite digits2_pos_shift; fold d.
    unfold fexp, SpecFloat.emin, prec, emax. lia. }
  unfold shr_fexp at 1. rewrite F.
  cbn [shr shr_record_of_loc shr_m loc_of_shr_record round_nearest_even].
  unfold shr_fexp. rewrite F.
  cbn [shr shr_record_of_loc shr_m].
  replace (Z.neg k <=? emax - prec) with true
    by (symmetry; apply Z.leb_le; unfold emax, prec; lia).
  reflexivity.
Qed.

Lemma Zpos_iter_xO_div (p k : positive) :
  Z.pos (Pos.iter xO p k) / 2 ^ Z.pos k = Z.pos p.
Proof.
  rewrite iter_xO_mul, Pos2Z.inj_mul, Pos2Z.inj_pow.
  apply Z.div_mul. apply Z.pow_nonzero; lia.
Qed.

Lemma truncate_int32_to_double (n : Z) :
  in_int32 n = true -> truncate (int32_to_double n) = Some n.
Proof.
  unfold in_int32, int32_min, int32_max; intros H.
  apply andb_prop in H; destruct H as [Hlo Hhi].
  apply Z.leb_le in Hlo; apply Z.leb_le in Hhi.
  assert (W : forall z, 0 <= z <= 2 ^ 31 ->
              Uint63Axioms.to_Z (Uint63.of_Z z) = z).
  { intros z Hz; rewrite Uint63.of_Z_spec; apply Z.mod_small.
    change Uint63Axioms.wB with (2 ^ 63); lia. }
  unfold int32_to_double, truncate.
  destruct n as [| p | p].
  - reflexivity.
  - change (Z.pos p <? 0) with false; cbv iota.
    rewrite of_uint63_spec, W by lia; simpl binary_normalize.
    destruct (binary_normalize_int32 p false ltac:(lia)) as [k ->].
    simpl Z.leb; cbv iota.
    change (- Z.neg k) with (Z.pos k); rewrite Zpos_iter_xO_div; reflexivity.
  - change (Z.neg p <? 0) with true; cbv iota.
    rewrite opp_spec, of_uint63_spec.
    change (- Z.neg p) with (Z.pos p); rewrite W by lia; simpl binary_normalize.
    destruct (binary_normalize_int32 p false ltac:(lia)) as [k ->].
    simpl SFopp; simpl Z.leb; cbv iota.
    change (- Z.neg k) with (Z.pos k); rewrite Zpos_iter_xO_div; reflexivity.
Qed.

Lemma double_to_int32_of_int32 (n : Z) :
  in_int32 n = true -> double_to_int32 (int32_to_double n) = Done n.
Proof.
  intros H; unfold double_to_int32.
  rewrite truncate_int32_to_double, H by assumption; reflexivity.
Qed.

Lemma double_to_int32_not_finite (d : float) :
  not_finite (Prim2SF d) -> double_to_int32 d = Undefined ConversionOutOfRange.
Proof.
  unfold double_to_int32, truncate.
  destruct (Prim2SF d); simpl; intros H; try contradiction; reflexivity.
Qed.

(** What [static_cast<int32_t>] returns lies in the type. *)
Lemma double_to_int32_range (d : float) (n : Z) :
  double_to_int32 d = Done n -> int32_min <= n <= int32_max.
Proof.
  unfold double_to_int32.
  destruct (truncate d) as [z |]; [| discriminate].
  destruct (in_int32 z) eqn:E; [| discriminate].
  intros [= <-]; unfold in_int32 in E.
  apply andb_prop in E; destruct E as [Hlo Hhi].
  apply Z.leb_le in Hlo; apply Z.leb_le in Hhi; lia.
Qed.

(** ** Doubles as real numbers: bounds on the rounding errors *)

(** *** Powers of two and right shifts *)

Lemma bpow_add (a b : Z) : bpow (a + b) = (bpow a * bpow b)%R.
Proof. unfold bpow; apply powerRZ_add; lra. Qed.

Lemma bpow_pos (e : Z) : (0 < bpow e)%R.
Proof. unfold bpow; apply powerRZ_lt; lra. Qed.

Lemma bpow_IZR (n : Z) : 0 <= n -> bpow n = IZR (2 ^ n).
Proof.
  intros Hn; unfold bpow.
  rewrite <- (Z2Nat.id n Hn) at 1.
  rewrite <- pow_powerRZ, pow_IZR, Z2Nat.id by assumption; reflexivity.
Qed.

Lemma bpow_ge_1 (n : Z) : 0 <= n -> (1 <= bpow n)%R.
Proof.
  intros Hn; rewrite bpow_IZR by assumption.
  apply IZR_le; pose proof (Z.pow_pos_nonneg 2 n ltac:(lia) Hn); lia.
Qed.

Lemma bpow_le (a b : Z) : a <= b -> (bpow a <= bpow b)%R.
Proof.
  intros H; replace b with (a + (b - a)) by lia; rewrite bpow_add.
  pose proof (bpow_pos a); pose proof (bpow_ge_1 (b - a) ltac:(lia)); nra.
Qed.

Lemma bpow_opp (e : Z) : (bpow (- e) * bpow e = 1)%R.
Proof.
  rewrite <- bpow_add; replace (- e + e) with 0 by lia; reflexivity.
Qed.

(** The digits of a positive integer. *)
Lemma digits2_bounds (p : positive) :
  2 ^ (Z.pos (digits2_pos p) - 1) <= Z.pos p < 2 ^ Z.pos (digits2_pos p).
Proof.
  rewrite digits2_pos_size.
  pose proof (Pos.size_le p) as L; pose proof (Pos.size_gt p) as G.
  assert (L' : Z.pos (2 ^ Pos.size p) <= Z.pos p~0) by exact L.
  assert (G' : Z.pos p < Z.pos (2 ^ Pos.size p)) by exact G.
  rewrite Pos2Z.inj_pow in L', G'.
  replace (Z.pos (Pos.size p)) with (Z.pos (Pos.size p) - 1 + 1) in L' by lia.
  rewrite Z.pow_add_r in L' by lia.
  change (2 ^ 1) with 2 in L'. lia.
Qed.

(** Shifting right divides the mantissa. *)
Lemma shr_1_m (mrs : shr_record) :
  0 <= shr_m mrs -> shr_m (shr_1 mrs) = shr_m mrs / 2.
Proof.
  destruct mrs as [m r s]; cbn [shr_m]; intros Hm.
  destruct m as [| p | p]; [reflexivity | | lia].
  destruct p as [p | p |]; cbn [shr_1 shr_m].
  - rewrite Pos2Z.inj_xI; apply Z.div_unique with 1; lia.
  - rewrite Pos2Z.inj_xO; apply Z.div_unique with 0; lia.
  - reflexivity.
Qed.

Lemma iter_pos_iter {A : Type} (f : A -> A) (k : positive) (a : A) :
  SpecFloat.iter_pos f k a = Pos.iter f a k.
Proof.
  revert a; induction k as [k IH | k IH |]; intros a; simpl.
  - rewrite !IH, !Pos.iter_swap; reflexivity.
  - rewrite !IH; reflexivity.
  - reflexivity.
Qed.

Lemma shr_iter_m (n : positive) (mrs : shr_record) :
  0 <= shr_m mrs ->
  shr_m (SpecFloat.iter_pos shr_1 n mrs) = shr_m mrs / 2 ^ Z.pos n.
Proof.
  intros Hm; rewrite iter_pos_iter.
  induction n using Pos.peano_ind.
  - simpl Pos.iter. rewrite shr_1_m by assumption. reflexivity.
  - rewrite Pos.iter_succ, shr_1_m.
    + rewrite IHn, Pos2Z.inj_succ, Z.pow_succ_r by lia.
      rewrite Z.div_div by lia. f_equal; lia.
    + rewrite IHn. apply Z.div_pos; [assumption | lia].
Qed.

(** *** Rounding to the format *)

Lemma fexp64_eq (z : Z) : fexp64 z = Z.max (z - 53) (-1074).
Proof. reflexivity. Qed.

Lemma shr_record_of_loc_m (m : Z) (l : location) :
  shr_m (shr_record_of_loc m l) = m.
Proof. destruct l as [| []]; reflexivity. Qed.

(** [shr_fexp]: the mantissa is divided by [2 ^ n] when the canonical
    exponent lies [n > 0] above the current one. *)
Lemma shr_fexp_spec (m e : Z) (l : location) :
  0 <= m ->
  let n := fexp64 (Zdigits2 m + e) - e in
  shr_m (fst (shr_fexp prec emax m e l)) = (if 0 <? n then m / 2 ^ n else m) /\
  snd (shr_fexp prec emax m e l) = (if 0 <? n then e + n else e).
Proof.
  intros Hm n; unfold shr_fexp; fold n.
  destruct n as [| p | p]; cbn [shr fst snd Z.ltb Z.compare].
  - rewrite shr_record_of_loc_m; auto.
  - rewrite shr_iter_m by (rewrite shr_record_of_loc_m; assumption).
    rewrite shr_record_of_loc_m; auto.
  - rewrite shr_record_of_loc_m; auto.
Qed.

Lemma shr_fexp_exact_id (m e : Z) :
  fexp64 (Zdigits2 m + e) - e <= 0 ->
  shr_fexp prec emax m e loc_Exact = (Build_shr_record m false false, e).
Proof.
  intros Hn; unfold shr_fexp.
  destruct (fexp64 (Zdigits2 m + e) - e) as [| p | p]; try reflexivity; lia.
Qed.

Lemma round_nearest_even_bounds (m : Z) (l : location) :
  m <= round_nearest_even m l <= m + 1.
Proof.
  destruct l as [| []]; cbn [round_nearest_even]; try lia.
  destruct (Z.even m); lia.
Qed.


Lemma div_pow2_mul_le (a k : Z) :
  0 <= a -> 0 <= k -> (IZR (a / 2 ^ k) * bpow k <= IZR a)%R.
Proof.
  intros Ha Hk; rewrite bpow_IZR, <- mult_IZR by assumption.
  apply IZR_le; rewrite Z.mul_comm; apply Z.mul_div_le.
  apply Z.pow_pos_nonneg; lia.
Qed.

Lemma div_pow2_mul_gt (a k : Z) :
  0 <= a -> 0 <= k -> (IZR a < IZR (a / 2 ^ k) * bpow k + bpow k)%R.
Proof.
  intros Ha Hk; rewrite bpow_IZR, <- mult_IZR, <- plus_IZR by assumption.
  apply IZR_lt.
  pose proof (Z.pow_pos_nonneg 2 k ltac:(lia) Hk) as Hp.
  pose proof (Z.div_mod a (2 ^ k) ltac:(lia)) as E.
  pose proof (Z.mod_pos_bound a (2 ^ k) Hp) as B.
  lia.
Qed.

(** Rounding never goes more than one unit of the canonical exponent above
    the value it starts from. *)
Lemma binary_round_aux_upper (s : bool) (mx ex : Z) (lx : location) :
  0 <= mx ->
  0 <= fexp64 (Zdigits2 mx + ex) - ex ->
  match binary_round_aux prec emax s mx ex lx with
  | S754_finite s' m e =>
      s' = s /\
      (IZR (Z.pos m) * bpow e
       <= IZR mx * bpow ex + bpow (fexp64 (Zdigits2 mx + ex)))%R
  | S754_zero s' => s' = s
  | S754_infinity s' => s' = s
  | S754_nan => False
  end.
Proof.
  intros Hm Hn; unfold binary_round_aux.
  pose proof (shr_fexp_spec mx ex lx Hm) as [Hm1 He1]; cbv zeta in Hm1, He1.
  destruct (shr_fexp prec emax mx ex lx) as [mrs1 e1]; cbn [fst snd] in Hm1, He1.
  set (n1 := fexp64 (Zdigits2 mx + ex) - ex) in *.
  assert (Hm1' : shr_m mrs1 = mx / 2 ^ n1).
  { rewrite Hm1; destruct (Z.ltb_spec 0 n1); [reflexivity |].
    replace n1 with 0 by lia; rewrite Z.div_1_r; reflexivity. }
  assert (He1' : e1 = ex + n1)
    by (rewrite He1; destruct (Z.ltb_spec 0 n1); lia).
  clear Hm1 He1.
  pose proof (round_nearest_even_bounds (shr_m mrs1) (loc_of_shr_record mrs1))
    as Hm2.
  set (m2 := round_nearest_even (shr_m mrs1) (loc_of_shr_record mrs1)) in *.
  assert (H1 : 0 <= shr_m mrs1)
    by (rewrite Hm1'; apply Z.div_pos; [lia | apply Z.pow_pos_nonneg; lia]).
  pose proof (shr_fexp_spec m2 e1 loc_Exact ltac:(lia)) as [Hm3 He3];
    cbv zeta in Hm3, He3.
  destruct (shr_fexp prec emax m2 e1 loc_Exact) as [mrs2 e2];
    cbn [fst snd] in Hm3, He3.
  set (n2 := fexp64 (Zdigits2 m2 + e1) - e1) in *.
  set (k := Z.max n2 0).
  assert (Hm3' : shr_m mrs2 = m2 / 2 ^ k).
  { rewrite Hm3; unfold k; destruct (Z.ltb_spec 0 n2).
    - rewrite Z.max_l by lia; reflexivity.
    - rewrite Z.max_r by lia; rewrite Z.div_1_r; reflexivity. }
  assert (He3' : e2 = e1 + k)
    by (rewrite He3; unfold k; destruct (Z.ltb_spec 0 n2); lia).
  clear Hm3 He3.
  destruct (shr_m mrs2) as [| m | m] eqn:E3.
  - reflexivity.
  - destruct (e2 <=? emax - prec); [| reflexivity].
    split; [reflexivity |].
    rewrite Hm3', He3', He1', !bpow_add.
    replace (fexp64 (Zdigits2 mx + ex)) with (ex + n1) by (unfold n1; lia).
    rewrite bpow_add.
    pose proof (div_pow2_mul_le m2 k ltac:(lia) ltac:(unfold k; lia)) as U1.
    pose proof (div_pow2_mul_le mx n1 Hm Hn) as U2.
    assert (U3 : (IZR m2 <= IZR (mx / 2 ^ n1) + 1)%R)
      by (rewrite <- Hm1', <- plus_IZR; apply IZR_le; lia).
    pose proof (bpow_pos ex); pose proof (bpow_pos n1); pose proof (bpow_pos k).
    assert (0 <= IZR (m2 / 2 ^ k))%R
      by (apply IZR_le, Z.div_pos; [lia | apply Z.pow_pos_nonneg; unfold k; lia]).
    assert (0 <= IZR (mx / 2 ^ n1))%R
      by (apply IZR_le, Z.div_pos; [lia | apply Z.pow_pos_nonneg; lia]).
    assert (P0 : (0 < bpow ex * bpow n1)%R) by (apply Rmult_lt_0_compat; assumption).
    assert (P1 : (IZR (m2 / 2 ^ k) * bpow k * (bpow ex * bpow n1)
                  <= (IZR (mx / 2 ^ n1) + 1) * (bpow ex * bpow n1))%R)
      by (apply Rmult_le_compat_r; lra).
    assert (P2 : (IZR (mx / 2 ^ n1) * bpow n1 * bpow ex <= IZR mx * bpow ex)%R)
      by (apply Rmult_le_compat_r; lra).
    lra.
  - exfalso.
    assert (0 <= m2 / 2 ^ k)
      by (apply Z.div_pos; [lia | apply Z.pow_pos_nonneg; unfold k; lia]).
    lia.
Qed.

(** With an exact location and nothing to shift, rounding is the identity. *)
Lemma binary_round_aux_exact (s : bool) (mx : positive) (ex : Z) :
  fexp64 (Z.pos (digits2_pos mx) + ex) - ex <= 0 ->
  binary_round_aux prec emax s (Z.pos mx) ex loc_Exact
  = if ex <=? emax - prec then S754_finite s mx ex else S754_infinity s.
Proof.
  intros Hn; unfold binary_round_aux.
  rewrite (shr_fexp_exact_id (Z.pos mx) ex Hn).
  cbn [shr_m loc_of_shr_record round_nearest_even].
  rewrite (shr_fexp_exact_id (Z.pos mx) ex Hn); reflexivity.
Qed.

Lemma Zdigits2_pos (p : positive) : Zdigits2 (Z.pos p) = Z.pos (digits2_pos p).
Proof. reflexivity. Qed.

(** An exact value at or above the smallest exponent is rounded with a
    relative error of at most [2 ^ -52]. *)
Lemma binary_round_aux_near (s : bool) (mx : positive) (ex : Z) :
  -1074 <= ex ->
  match binary_round_aux prec emax s (Z.pos mx) ex loc_Exact with
  | S754_finite s' m e =>
      s' = s /\
      (Rabs (IZR (Z.pos m) * bpow e - IZR (Z.pos mx) * bpow ex)
       <= bpow (-52) * (IZR (Z.pos mx) * bpow ex))%R
  | S754_infinity s' => s' = s
  | S754_zero _ => False
  | S754_nan => False
  end.
Proof.
  intros Hex.
  pose proof (bpow_pos ex) as Pex; pose proof (bpow_pos (-52)) as P52.
  assert (Pmx : (0 < IZR (Z.pos mx))%R) by (apply IZR_lt; lia).
  destruct (Z_le_gt_dec (fexp64 (Z.pos (digits2_pos mx) + ex) - ex) 0) as [Hn | Hn].
  { rewrite binary_round_aux_exact by assumption.
    destruct (ex <=? emax - prec); [| reflexivity].
    split; [reflexivity |].
    rewrite Rminus_diag, Rabs_R0.
    apply Rmult_le_pos; [lra | apply Rmult_le_pos; lra]. }
  (* a shift by [d - 53] bits *)
  set (d := Z.pos (digits2_pos mx)) in *.
  pose proof (digits2_bounds mx) as Hd; fold d in Hd.
  rewrite fexp64_eq in Hn.
  assert (Hd53 : 53 < d) by lia.
  assert (Hf : fexp64 (Zdigits2 (Z.pos mx) + ex) = d + ex - 53)
    by (rewrite Zdigits2_pos, fexp64_eq; fold d; lia).
  unfold binary_round_aux.
  pose proof (shr_fexp_spec (Z.pos mx) ex loc_Exact ltac:(lia)) as [Hm1 He1];
    cbv zeta in Hm1, He1; rewrite Hf in Hm1, He1.
  replace (d + ex - 53 - ex) with (d - 53) in Hm1, He1 by lia.
  destruct (Z.ltb_spec 0 (d - 53)) as [_ | ]; [| lia].
  destruct (shr_fexp prec emax (Z.pos mx) ex loc_Exact) as [mrs1 e1];
    cbn [fst snd] in Hm1, He1.
  pose proof (round_nearest_even_bounds (shr_m mrs1) (loc_of_shr_record mrs1))
    as Hm2.
  set (m2 := round_nearest_even (shr_m mrs1) (loc_of_shr_record mrs1)) in *.
  set (n1 := d - 53) in *.
  assert (Hp : 0 < 2 ^ n1) by (apply Z.pow_pos_nonneg; lia).
  assert (Hsplit : 2 ^ d = 2 ^ 53 * 2 ^ n1)
    by (rewrite <- Z.pow_add_r by lia; f_equal; unfold n1; lia).
  assert (Hsplit' : 2 ^ (d - 1) = 2 ^ 52 * 2 ^ n1)
    by (rewrite <- Z.pow_add_r by lia; f_equal; unfold n1; lia).
  assert (Hm1lo : 2 ^ 52 <= shr_m mrs1)
    by (rewrite Hm1; apply Z.div_le_lower_bound; lia).
  assert (Hm1hi : shr_m mrs1 < 2 ^ 53)
    by (rewrite Hm1; apply Z.div_lt_upper_bound; lia).
  (* the value after the first shift and the rounding *)
  assert (Hval : (Rabs (IZR m2 * bpow e1 - IZR (Z.pos mx) * bpow ex)
                  <= bpow (-52) * (IZR (Z.pos mx) * bpow ex))%R).
  { rewrite He1, bpow_add.
    pose proof (div_pow2_mul_le (Z.pos mx) n1 ltac:(lia) ltac:(lia)) as U.
    pose proof (div_pow2_mul_gt (Z.pos mx) n1 ltac:(lia) ltac:(lia)) as L.
    rewrite <- Hm1 in U, L.
    pose proof (bpow_pos n1) as Pn1.
    assert (B2lo : (IZR (shr_m mrs1) <= IZR m2)%R) by (apply IZR_le; lia).
    assert (B2hi : (IZR m2 <= IZR (shr_m mrs1) + 1)%R)
      by (rewrite <- plus_IZR; apply IZR_le; lia).
    assert (Hulp : (bpow ex * bpow n1 <= bpow (-52) * (IZR (Z.pos mx) * bpow ex))%R).
    { assert (Hmx : (bpow (d - 1) <= IZR (Z.pos mx))%R)
        by (rewrite bpow_IZR by lia; apply IZR_le; lia).
      replace (d - 1) with (52 + n1) in Hmx by (unfold n1; lia).
      rewrite bpow_add in Hmx.
      assert (O52 : (bpow (-52) * bpow 52 = 1)%R) by exact (bpow_opp 52).
      pose proof (bpow_pos 52).
      assert ((bpow (-52) * (bpow 52 * bpow n1) * bpow ex
               <= bpow (-52) * IZR (Z.pos mx) * bpow ex)%R).
      { apply Rmult_le_compat_r; [lra |].
        apply Rmult_le_compat_l; lra. }
      replace (bpow (-52) * (bpow 52 * bpow n1) * bpow ex)%R
        with ((bpow (-52) * bpow 52) * (bpow ex * bpow n1))%R in H0 by ring.
      rewrite O52 in H0. lra. }
    assert (Q1 : (IZR m2 * (bpow ex * bpow n1)
                  <= (IZR (shr_m mrs1) + 1) * (bpow ex * bpow n1))%R)
      by (apply Rmult_le_compat_r; [nra | lra]).
    assert (Q2 : (IZR (shr_m mrs1) * (bpow ex * bpow n1)
                  <= IZR m2 * (bpow ex * bpow n1))%R)
      by (apply Rmult_le_compat_r; [nra | lra]).
    assert (Q3 : (IZR (shr_m mrs1) * bpow n1 * bpow ex
                  <= IZR (Z.pos mx) * bpow ex)%R)
      by (apply Rmult_le_compat_r; lra).
    assert (Q4 : (IZR (Z.pos mx) * bpow ex
                  <= (IZR (shr_m mrs1) * bpow n1 + bpow n1) * bpow ex)%R)
      by (apply Rmult_le_compat_r; lra).
    apply Rabs_le; lra. }
  (* the second shift is exact *)
  assert (Hm2pos : 0 < m2) by lia.
  destruct m2 as [| q | q] eqn:Em2; try lia.
  pose proof (digits2_bounds q) as Hq.
  set (dq := Z.pos (digits2_pos q)) in *.
  assert (Hdq : dq = 53 \/ dq = 54).
  { assert (dq - 1 < 54).
    { apply (Z.pow_lt_mono_r_iff 2); [lia | lia |].
      change (2 ^ 54) with (2 * 2 ^ 53); lia. }
    assert (52 < dq).
    { apply (Z.pow_lt_mono_r_iff 2); [lia | unfold dq; lia |]. lia. }
    lia. }
  assert (He1lo : -1074 < e1) by lia.
  destruct Hdq as [Hdq | Hdq].
  - assert (Hn2 : fexp64 (Zdigits2 (Z.pos q) + e1) - e1 <= 0)
      by (rewrite Zdigits2_pos, fexp64_eq; fold dq; lia).
    rewrite (shr_fexp_exact_id _ _ Hn2); cbn [shr_m].
    destruct (e1 <=? emax - prec); [| reflexivity].
    split; [reflexivity | exact Hval].
  - assert (Hq53 : Z.pos q = 2 ^ 53).
    { rewrite Hdq in Hq; change (54 - 1) with 53 in Hq; lia. }
    injection Hq53 as ->.
    assert (Hshift : shr_fexp prec emax (2 ^ 53) e1 loc_Exact
                     = (Build_shr_record (2 ^ 52) false false, e1 + 1)).
    { unfold shr_fexp.
      replace (fexp64 (Zdigits2 (2 ^ 53) + e1) - e1) with 1
        by (rewrite fexp64_eq; change (Zdigits2 (2 ^ 53)) with 54; lia).
      reflexivity. }
    change (Z.pos 9007199254740992) with (2 ^ 53).
    rewrite Hshift; cbn [shr_m].
    change (2 ^ 52) with (Z.pos 4503599627370496).
    destruct (e1 + 1 <=? emax - prec); [| reflexivity].
    split; [reflexivity |].
    rewrite bpow_add.
    replace (IZR (Z.pos 4503599627370496) * (bpow e1 * bpow 1))%R
      with (IZR (Z.pos 9007199254740992) * bpow e1)%R; [exact Hval |].
    replace (bpow 1) with 2%R by (unfold bpow; simpl; lra).
    change (Z.pos 9007199254740992) with (2 * Z.pos 4503599627370496).
    rewrite mult_IZR; ring.
Qed.

(** *** Values of the results of the operations *)

Lemma eps_pos : (0 < eps)%R.
Proof. apply bpow_pos. Qed.

Lemma eta_pos : (0 < eta)%R.
Proof. apply bpow_pos. Qed.

Lemma valid_exponent (s : bool) (m : positive) (e : Z) :
  valid_binary (S754_finite s m e) = true -> -1074 <= e.
Proof.
  cbn [SpecFloat.valid_binary]; unfold bounded, canonical_mantissa.
  intros H; apply andb_prop in H; destruct H as [H _].
  apply Z.eqb_eq in H; rewrite fexp64_eq in H; lia.
Qed.

Lemma Zpos_iter_xO (p k : positive) :
  Z.pos (Pos.iter xO p k) = Z.pos p * 2 ^ Z.pos k.
Proof. rewrite iter_xO_mul, Pos2Z.inj_mul, Pos2Z.inj_pow; reflexivity. Qed.

(** [shl_align] keeps the value and reaches the lower exponent. *)
Lemma shl_align_value (m : positive) (e e' : Z) :
  e' <= e ->
  snd (shl_align m e e') = e' /\
  (IZR (Z.pos (fst (shl_align m e e'))) * bpow e' = IZR (Z.pos m) * bpow e)%R.
Proof.
  intros H; unfold shl_align.
  destruct (e' - e) as [| d | d] eqn:E; cbn [fst snd]; try lia.
  - assert (e' = e) by lia; subst; auto.
  - rewrite Zpos_iter_xO, mult_IZR, <- bpow_IZR by lia.
    split; [reflexivity |].
    replace e with (Z.pos d + e') by lia.
    rewrite bpow_add; ring.
Qed.

Lemma shl_align_id (m : positive) (e e' : Z) :
  e <= e' -> shl_align m e e' = (m, e).
Proof.
  intros H; unfold shl_align.
  destruct (e' - e) as [| d | d] eqn:E; try reflexivity; lia.
Qed.

Lemma digits2_pos_iter_xO (p k : positive) :
  Z.pos (digits2_pos (Pos.iter xO p k)) = Z.pos (digits2_pos p) + Z.pos k.
Proof. rewrite digits2_pos_shift; lia. Qed.

(** [binary_round] of an integer at or above the smallest exponent. *)
Lemma binary_round_near (s : bool) (m : positive) (e : Z) :
  -1074 <= e ->
  match binary_round prec emax s m e with
  | S754_finite s' m' e' =>
      s' = s /\
      (Rabs (IZR (Z.pos m') * bpow e' - IZR (Z.pos m) * bpow e)
       <= eps * (IZR (Z.pos m) * bpow e))%R
  | S754_infinity s' => s' = s
  | S754_zero _ => False
  | S754_nan => False
  end.
Proof.
  intros He; unfold binary_round.
  set (f := fexp64 (Z.pos (digits2_pos m) + e)).
  assert (Hf : -1074 <= f) by (unfold f; rewrite fexp64_eq; lia).
  destruct (Z_le_gt_dec e f) as [Hle | Hgt].
  - rewrite shl_align_id by assumption.
    apply binary_round_aux_near; assumption.
  - destruct (shl_align_value m e f ltac:(lia)) as [Hs Hv].
    destruct (shl_align m e f) as [mz ez]; cbn [fst snd] in Hs, Hv; subst ez.
    rewrite <- Hv.
    apply binary_round_aux_near; assumption.
Qed.

(** [binary_normalize] of a signed integer. *)
Lemma binary_normalize_near (z e : Z) :
  -1074 <= e ->
  match binary_normalize prec emax z e false with
  | S754_nan => False
  | S754_infinity _ => True
  | r => (Rabs (SF2R r - IZR z * bpow e) <= eps * Rabs (IZR z * bpow e))%R
  end.
Proof.
  intros He; pose proof (bpow_pos e) as Pe; pose proof eps_pos as Pp.
  destruct z as [| p | p]; cbn [binary_normalize].
  - cbn [SF2R]; rewrite Rmult_0_l, Rminus_diag, Rabs_R0; lra.
  - pose proof (binary_round_near false p e He) as H.
    destruct (binary_round prec emax false p e) as [| | | s' m' e']; auto; try contradiction.
    destruct H as [-> H]; cbn [SF2R].
    assert (0 < IZR (Z.pos p) * bpow e)%R
      by (apply Rmult_lt_0_compat; [apply IZR_lt; lia | assumption]).
    rewrite (Rabs_pos_eq (IZR (Z.pos p) * bpow e)) by lra; exact H.
  - pose proof (binary_round_near true p e He) as H.
    destruct (binary_round prec emax true p e) as [| | | s' m' e']; auto; try contradiction.
    destruct H as [-> H]; cbn [SF2R].
    assert (P : (0 < IZR (Z.pos p) * bpow e)%R)
      by (apply Rmult_lt_0_compat; [apply IZR_lt; lia | assumption]).
    change (Z.neg p) with (- Z.pos p); rewrite opp_IZR.
    replace (- (IZR (Z.pos m') * bpow e') - - IZR (Z.pos p) * bpow e)%R
      with (- (IZR (Z.pos m') * bpow e' - IZR (Z.pos p) * bpow e))%R by ring.
    rewrite Rabs_Ropp.
    replace (- IZR (Z.pos p) * bpow e)%R with (- (IZR (Z.pos p) * bpow e))%R by ring.
    rewrite Rabs_Ropp, (Rabs_pos_eq (IZR (Z.pos p) * bpow e)) by lra; exact H.
Qed.

Lemma cond_Zopp_value (s : bool) (m : positive) (e : Z) :
  (IZR (cond_Zopp s (Z.pos m)) * bpow e)%R = SF2R (S754_finite s m e).
Proof.
  destruct s; cbn [cond_Zopp SF2R]; [| reflexivity].
  change (- Z.pos m) with (Z.opp (Z.pos m)); rewrite opp_IZR; ring.
Qed.

Lemma aligned_value (s : bool) (m : positive) (e ez : Z) :
  ez <= e ->
  (IZR (cond_Zopp s (Z.pos (fst (shl_align m e ez)))) * bpow ez)%R
  = SF2R (S754_finite s m e).
Proof.
  intros H; destruct (shl_align_value m e ez H) as [_ Hv].
  rewrite <- cond_Zopp_value.
  destruct s; cbn [cond_Zopp].
  - change (- Z.pos ?p) with (Z.opp (Z.pos p)); rewrite !opp_IZR.
    rewrite !Ropp_mult_distr_l_reverse; f_equal; exact Hv.
  - exact Hv.
Qed.

Lemma near_exact (x : R) : (Rabs (x - x) <= eps * Rabs x)%R.
Proof.
  rewrite Rminus_diag, Rabs_R0.
  apply Rmult_le_pos; [apply Rlt_le, eps_pos | apply Rabs_pos].
Qed.

(** Addition of two valid reals is correct to a relative error of [eps]. *)
Lemma SFadd_near (x y : spec_float) :
  valid_binary x = true -> valid_binary y = true ->
  is_real x -> is_real y ->
  is_real (SFadd prec emax x y) ->
  (Rabs (SF2R (SFadd prec emax x y) - (SF2R x + SF2R y)) <= eps * Rabs (SF2R x + SF2R y))%R.
Proof.
  intros Vx Vy Rx Ry.
  destruct x as [sx | sx | | sx mx ex]; try contradiction;
    destruct y as [sy | sy | | sy my ey]; try contradiction.
  - intros _; destruct sx, sy; cbn [SFadd Bool.eqb SF2R];
      rewrite Rplus_0_l; apply near_exact.
  - intros _; cbn [SFadd]; cbn [SF2R]; rewrite Rplus_0_l; apply near_exact.
  - intros _; cbn [SFadd]; cbn [SF2R]; rewrite Rplus_0_r; apply near_exact.
  - cbn [SFadd]; cbv zeta.
    pose proof (valid_exponent _ _ _ Vx) as Ex.
    pose proof (valid_exponent _ _ _ Vy) as Ey.
    set (ez := Z.min ex ey).
    pose proof (aligned_value sx mx ex ez ltac:(lia)) as Ax.
    pose proof (aligned_value sy my ey ez ltac:(lia)) as Ay.
    set (z := cond_Zopp sx (Z.pos (fst (shl_align mx ex ez)))
              + cond_Zopp sy (Z.pos (fst (shl_align my ey ez)))).
    assert (Hz : (IZR z * bpow ez = SF2R (S754_finite sx mx ex) + SF2R (S754_finite sy my ey))%R).
    { unfold z; rewrite plus_IZR, Rmult_plus_distr_r, Ax, Ay; reflexivity. }
    pose proof (binary_normalize_near z ez ltac:(lia)) as N.
    rewrite <- Hz.
    destruct (binary_normalize prec emax z ez false); try contradiction; auto.
Qed.

Lemma SFadd_real_inv (x y : spec_float) :
  is_real (SFadd prec emax x y) -> is_real x /\ is_real y.
Proof.
  destruct x as [sx | sx | | sx mx ex]; destruct y as [sy | sy | | sy my ey];
    cbn [SFadd is_real]; try tauto; destruct sx, sy; cbn [Bool.eqb is_real]; tauto.
Qed.

Lemma SFopp_value (x : spec_float) : SF2R (SFopp x) = (- SF2R x)%R.
Proof. destruct x as [s | s | | [] m e]; cbn [SFopp SF2R negb]; lra. Qed.

Lemma SFopp_real (x : spec_float) : is_real (SFopp x) <-> is_real x.
Proof. destruct x; cbn [SFopp is_real]; tauto. Qed.

Lemma SFopp_valid (x : spec_float) :
  valid_binary x = true -> valid_binary (SFopp x) = true.
Proof. destruct x; cbn [SFopp valid_binary]; auto. Qed.

Lemma SFsub_as_add (x y : spec_float) :
  is_real x -> is_real y -> is_real (SFsub prec emax x y) ->
  is_real (SFadd prec emax x (SFopp y)) /\ SF2R (SFsub prec emax x y) = SF2R (SFadd prec emax x (SFopp y)).
Proof.
  destruct x as [sx | sx | | sx mx ex]; try contradiction;
    destruct y as [sy | sy | | sy my ey]; try contradiction; intros _ _.
  - cbn [SFsub SFadd SFopp]. destruct sx, sy; cbn; auto.
  - cbn [SFsub SFadd SFopp]; auto.
  - cbn [SFsub SFadd SFopp]; auto.
  - cbn [SFsub SFadd SFopp]; cbv zeta.
    assert (E : forall z, cond_Zopp (negb sy) z = - cond_Zopp sy z)
      by (intros z; destruct sy; cbn [cond_Zopp negb]; lia).
    rewrite E. unfold Z.sub. auto.
Qed.

Lemma SFsub_real_inv (x y : spec_float) :
  is_real (SFsub prec emax x y) -> is_real x /\ is_real y.
Proof.
  destruct x as [sx | sx | | sx mx ex]; destruct y as [sy | sy | | sy my ey];
    cbn [SFsub is_real]; try tauto;
    destruct sx, sy; cbn [Bool.eqb negb is_real]; tauto.
Qed.

(** Subtraction of two valid reals is correct to a relative error of [eps]. *)
Lemma SFsub_near (x y : spec_float) :
  valid_binary x = true -> valid_binary y = true ->
  is_real (SFsub prec emax x y) ->
  (Rabs (SF2R (SFsub prec emax x y) - (SF2R x - SF2R y)) <= eps * Rabs (SF2R x - SF2R y))%R.
Proof.
  intros Vx Vy Rr.
  destruct (SFsub_real_inv _ _ Rr) as [Rx Ry].
  destruct (SFsub_as_add x y Rx Ry Rr) as [Ra ->].
  pose proof (SFadd_near x (SFopp y) Vx (SFopp_valid _ Vy) Rx
                (proj2 (SFopp_real y) Ry) Ra) as H.
  rewrite SFopp_value in H. exact H.
Qed.

Lemma SFabs_value (x : spec_float) : SF2R (SFabs x) = Rabs (SF2R x).
Proof.
  destruct x as [s | s | | s m e]; cbn [SFabs SF2R]; try (rewrite Rabs_R0; reflexivity).
  assert (0 < IZR (Z.pos m) * bpow e)%R
    by (apply Rmult_lt_0_compat; [apply IZR_lt; lia | apply bpow_pos]).
  destruct s; [rewrite Rabs_Ropp |]; rewrite Rabs_pos_eq; lra.
Qed.

Lemma SFabs_real (x : spec_float) : is_real (SFabs x) <-> is_real x.
Proof. destruct x; cbn [SFabs is_real]; tauto. Qed.

Lemma eta_le_eps : (eta <= eps)%R.
Proof. apply bpow_le; lia. Qed.

Lemma finite_value_pos (m : positive) (e : Z) : (0 < IZR (Z.pos m) * bpow e)%R.
Proof. apply Rmult_lt_0_compat; [apply IZR_lt; lia | apply bpow_pos]. Qed.

Lemma value_nonneg_sign (s : bool) (m : positive) (e : Z) :
  (0 <= SF2R (S754_finite s m e))%R -> s = false.
Proof.
  destruct s; [| reflexivity]; cbn [SF2R]; intros H.
  pose proof (finite_value_pos m e); lra.
Qed.

(** One unit in the last place of a number is at most [eps] times the
    number, or the smallest positive double. *)
Lemma ulp_bound (p : positive) (e : Z) :
  (bpow (fexp64 (Z.pos (digits2_pos p) + e))
   <= eps * (IZR (Z.pos p) * bpow e) + eta)%R.
Proof.
  pose proof eps_pos as Pe; pose proof eta_pos as Pt.
  pose proof (finite_value_pos p e) as Pv.
  rewrite fexp64_eq.
  destruct (Z.max_spec (Z.pos (digits2_pos p) + e - 53) (-1074)) as [[_ ->] | [_ ->]].
  - assert (0 <= eps * (IZR (Z.pos p) * bpow e))%R by (apply Rmult_le_pos; lra).
    unfold eta; lra.
  - replace (Z.pos (digits2_pos p) + e - 53)
      with (-52 + ((Z.pos (digits2_pos p) - 1) + e)) by lia.
    rewrite !bpow_add; fold eps.
    assert ((bpow (Z.pos (digits2_pos p) - 1) <= IZR (Z.pos p))%R).
    { rewrite bpow_IZR by lia. apply IZR_le. apply digits2_bounds. }
    assert (bpow (Z.pos (digits2_pos p) - 1) * bpow e <= IZR (Z.pos p) * bpow e)%R.
    { apply Rmult_le_compat_r; [apply Rlt_le, bpow_pos | assumption]. }
    assert (eps * (bpow (Z.pos (digits2_pos p) - 1) * bpow e)
            <= eps * (IZR (Z.pos p) * bpow e))%R.
    { apply Rmult_le_compat_l; lra. }
    lra.
Qed.

(** Rounding a nonnegative integer that has to be shifted right. *)
Lemma binary_round_aux_le (s : bool) (mx ex : Z) (lx : location) :
  0 <= mx ->
  0 <= fexp64 (Zdigits2 mx + ex) - ex ->
  match binary_round_aux prec emax s mx ex lx with
  | S754_finite s' m e =>
      s' = s /\
      (IZR (Z.pos m) * bpow e <= (1 + eps) * (IZR mx * bpow ex) + eta)%R
  | S754_zero s' => s' = s
  | S754_infinity s' => s' = s
  | S754_nan => False
  end.
Proof.
  intros Hm Hn.
  pose proof (binary_round_aux_upper s mx ex lx Hm Hn) as H.
  destruct (binary_round_aux prec emax s mx ex lx) as [| | | s' m e]; auto.
  destruct H as [-> H]; split; [reflexivity |].
  destruct mx as [| p | p]; [| | lia].
  - cbn [Zdigits2] in H, Hn. rewrite fexp64_eq in H, Hn.
    assert (E : Z.max (0 + ex - 53) (-1074) = -1074) by lia.
    rewrite E in H. fold eta in H. lra.
  - pose proof (ulp_bound p ex). rewrite Zdigits2_pos in H. lra.
Qed.

(** Multiplication of two nonnegative reals rounds up by a relative error of
    at most [eps], plus [eta] near zero. *)
Lemma SFmul_upper (x y : spec_float) :
  is_real x -> is_real y ->
  (0 <= SF2R x)%R -> (0 <= SF2R y)%R ->
  is_real (SFmul prec emax x y) ->
  (0 <= SF2R (SFmul prec emax x y)
   <= (1 + eps) * (SF2R x * SF2R y) + eta)%R /\
  (forall s m e, SFmul prec emax x y = S754_finite s m e -> s = false).
Proof.
  pose proof eps_pos as Pe; pose proof eta_pos as Pt.
  intros Rx Ry Px Py.
  destruct x as [sx | sx | | sx mx ex]; try contradiction;
    destruct y as [sy | sy | | sy my ey]; try contradiction;
    cbn [SFmul]; intros Rr;
    try (split; [cbn [SF2R]; rewrite ?Rmult_0_l, ?Rmult_0_r; lra | discriminate]).
  rewrite (value_nonneg_sign _ _ _ Px), (value_nonneg_sign _ _ _ Py) in *.
  cbn [xorb SF2R] in *.
  assert (Ev : (IZR (Z.pos (mx * my)) * bpow (ex + ey)
                = IZR (Z.pos mx) * bpow ex * (IZR (Z.pos my) * bpow ey))%R).
  { rewrite Pos2Z.inj_mul, mult_IZR, bpow_add; ring. }
  pose proof (finite_value_pos (mx * my) (ex + ey)) as Pv.
  destruct (Z_le_gt_dec (fexp64 (Z.pos (digits2_pos (mx * my)) + (ex + ey)) - (ex + ey)) 0)
    as [Hn | Hn].
  - rewrite binary_round_aux_exact in * by assumption.
    destruct (ex + ey <=? emax - prec); [| contradiction].
    split; [| intros s m e E; injection E; auto].
    cbn [SF2R]. rewrite Ev in *.
    assert (0 <= eps * (IZR (Z.pos mx) * bpow ex * (IZR (Z.pos my) * bpow ey)))%R
      by (apply Rmult_le_pos; lra).
    lra.
  - pose proof (binary_round_aux_le false (Z.pos (mx * my)) (ex + ey) loc_Exact
                  ltac:(lia) ltac:(rewrite Zdigits2_pos; lia)) as H.
    destruct (binary_round_aux prec emax false (Z.pos (mx * my)) (ex + ey) loc_Exact)
      as [| | | s' m e]; try contradiction.
    + split; [| discriminate]. cbn [SF2R]. rewrite <- Ev.
      assert (0 <= (1 + eps) * (IZR (Z.pos (mx * my)) * bpow (ex + ey)))%R
        by (apply Rmult_le_pos; lra).
      lra.
    + destruct H as [-> H].
      split; [| intros s m0 e0 E; injection E; auto].
      cbn [SF2R]. rewrite <- Ev.
      pose proof (finite_value_pos m e). lra.
Qed.

Lemma Zdigits2_succ (q : Z) : 0 <= q -> q + 1 <= 2 ^ Zdigits2 q.
Proof.
  destruct q as [| p | p]; intros H; [cbn; lia | | lia].
  rewrite Zdigits2_pos. pose proof (digits2_bounds p). lia.
Qed.

Lemma Zdigits2_nonneg (q : Z) : 0 <= Zdigits2 q.
Proof. destruct q; cbn [Zdigits2]; lia. Qed.

(** The quotient computed by the division core: nonnegative, not above the
    exact quotient, and with enough digits to be rounded by a right shift. *)
Lemma SFdiv_core_binary_spec (mx my : positive) (ex ey : Z) :
  let '(q, e', l) := SFdiv_core_binary prec emax (Z.pos mx) ex (Z.pos my) ey in
  0 <= q /\
  (IZR q * bpow e' * (IZR (Z.pos my) * bpow ey) <= IZR (Z.pos mx) * bpow ex)%R /\
  0 <= fexp64 (Zdigits2 q + e') - e'.
Proof.
  unfold SFdiv_core_binary.
  rewrite !Zdigits2_pos.
  set (d1 := Z.pos (digits2_pos mx)); set (d2 := Z.pos (digits2_pos my)).
  set (e' := Z.min (fexp prec emax (d1 + ex - (d2 + ey))) (ex - ey)).
  set (s := ex - ey - e').
  assert (Hs : 0 <= s) by (unfold s, e'; lia).
  set (m' := match s with Z.pos _ => Z.shiftl (Z.pos mx) s | 0 => Z.pos mx | Z.neg _ => 0 end).
  assert (Hm' : m' = Z.pos mx * 2 ^ s).
  { unfold m'; destruct s as [| p | p]; [lia | | lia].
    rewrite Z.shiftl_mul_pow2 by lia; reflexivity. }
  pose proof (Z_div_mod m' (Z.pos my) ltac:(lia)) as D.
  destruct (Z.div_eucl m' (Z.pos my)) as [q r]. destruct D as [D Hr].
  pose proof (digits2_bounds mx) as Bx; fold d1 in Bx.
  pose proof (digits2_bounds my) as By; fold d2 in By.
  pose proof (Z.pow_pos_nonneg 2 s ltac:(lia) Hs) as P2s.
  assert (Hq : 0 <= q) by nia.
  split; [exact Hq |]; split.
  - assert (Hle : (IZR q * IZR (Z.pos my) <= IZR (Z.pos mx) * bpow s)%R).
    { rewrite bpow_IZR, <- !mult_IZR by assumption. apply IZR_le. nia. }
    replace (bpow ex) with (bpow (s + (e' + ey))) by (f_equal; unfold s; lia).
    rewrite !bpow_add.
    pose proof (bpow_pos e') as Pe'; pose proof (bpow_pos ey) as Pey.
    assert (0 <= bpow e' * bpow ey)%R by (apply Rmult_le_pos; lra).
    pose proof (Rmult_le_compat_r _ _ _ H Hle). lra.
  - pose proof (Zdigits2_succ q Hq) as Sq.
    pose proof (Zdigits2_nonneg q) as Nq.
    assert (Hd : d1 + s - 1 < d2 + Zdigits2 q).
    { apply (Z.pow_lt_mono_r_iff 2); [lia | lia |].
      rewrite (Z.pow_add_r 2 d2) by (unfold d2; lia).
      assert (2 ^ (d1 + s - 1) = 2 ^ (d1 - 1) * 2 ^ s).
      { rewrite <- Z.pow_add_r by (unfold d1; lia). f_equal; lia. }
      nia. }
    assert (e' <= fexp64 (d1 + ex - (d2 + ey))) by (unfold e'; lia).
    rewrite fexp64_eq in *. unfold s in Hd. lia.
Qed.

(** Division of a nonnegative real by a positive one rounds up by a relative
    error of at most [eps], plus [eta] near zero. *)
Lemma SFdiv_upper (x : spec_float) (my : positive) (ey : Z) :
  is_real x -> (0 <= SF2R x)%R ->
  let y := S754_finite false my ey in
  is_real (SFdiv prec emax x y) ->
  (0 <= SF2R (SFdiv prec emax x y)
   <= (1 + eps) * (SF2R x / SF2R y) + eta)%R.
Proof.
  pose proof eps_pos as Pe; pose proof eta_pos as Pt.
  intros Rx Px y; subst y; pose proof (finite_value_pos my ey) as Py.
  destruct x as [sx | sx | | sx mx ex]; try contradiction; cbn [SFdiv]; intros Rr.
  - cbn [SF2R]. unfold Rdiv. rewrite Rmult_0_l, Rmult_0_r. lra.
  - rewrite (value_nonneg_sign _ _ _ Px) in *. cbn [xorb SF2R] in *.
    pose proof (SFdiv_core_binary_spec mx my ex ey) as C.
    destruct (SFdiv_core_binary prec emax (Z.pos mx) ex (Z.pos my) ey) as [[q e'] l].
    destruct C as [Hq [Hle Hn]].
    pose proof (binary_round_aux_le false q e' l Hq Hn) as H.
    assert (Hx : (IZR q * bpow e' <= IZR (Z.pos mx) * bpow ex / (IZR (Z.pos my) * bpow ey))%R).
    { apply (Rmult_le_reg_r (IZR (Z.pos my) * bpow ey)); [exact Py |].
      replace (IZR (Z.pos mx) * bpow ex / (IZR (Z.pos my) * bpow ey) *
               (IZR (Z.pos my) * bpow ey))%R
        with (IZR (Z.pos mx) * bpow ex)%R
        by (pose proof (bpow_pos ey); assert (0 < IZR (Z.pos my))%R by (apply IZR_lt; lia);
            field; repeat split; lra).
      exact Hle. }
    assert (Hq' : (0 <= IZR q * bpow e')%R).
    { apply Rmult_le_pos; [apply IZR_le; lia | apply Rlt_le, bpow_pos]. }
    assert ((1 + eps) * (IZR q * bpow e')
            <= (1 + eps) * (IZR (Z.pos mx) * bpow ex / (IZR (Z.pos my) * bpow ey)))%R
      by (apply Rmult_le_compat_l; lra).
    assert (0 <= (1 + eps) * (IZR q * bpow e'))%R by (apply Rmult_le_pos; lra).
    destruct (binary_round_aux prec emax false q e' l) as [| | | s' m e]; try contradiction.
    + cbn [SF2R]. lra.
    + destruct H as [-> H]. cbn [SF2R]. pose proof (finite_value_pos m e). lra.
Qed.

(** *** Conversions and comparisons *)

(** The conversion of a nonnegative [int32_t] to [double] is exact. *)
Lemma int32_to_double_value (n : Z) :
  0 <= n <= int32_max ->
  is_real (Prim2SF (int32_to_double n)) /\
  SF2R (Prim2SF (int32_to_double n)) = IZR n.
Proof.
  unfold int32_max; intros H.
  assert (W : forall z, 0 <= z <= 2 ^ 31 ->
              Uint63Axioms.to_Z (Uint63.of_Z z) = z).
  { intros z Hz; rewrite Uint63.of_Z_spec; apply Z.mod_small.
    change Uint63Axioms.wB with (2 ^ 63); lia. }
  unfold int32_to_double.
  destruct n as [| p | p]; [| | lia].
  - split; [exact I | reflexivity].
  - change (Z.pos p <? 0) with false; cbv iota.
    rewrite of_uint63_spec, W by lia; simpl binary_normalize.
    destruct (binary_normalize_int32 p false ltac:(lia)) as [k ->].
    split; [exact I |]. cbn [SF2R].
    rewrite Zpos_iter_xO, mult_IZR, <- bpow_IZR by lia.
    rewrite Rmult_assoc. change (Z.neg k) with (- Z.pos k).
    rewrite Rmult_comm with (r1 := bpow (Z.pos k)), bpow_opp. ring.
Qed.

(** [static_cast<int32_t>] of a nonnegative double does not exceed it. *)
Lemma double_to_int32_floor (d : float) (n : Z) :
  double_to_int32 d = Done n ->
  is_real (Prim2SF d) /\
  ((0 <= SF2R (Prim2SF d))%R -> 0 <= n /\ (IZR n <= SF2R (Prim2SF d))%R).
Proof.
  unfold double_to_int32, truncate.
  destruct (Prim2SF d) as [s | s | | s m e]; try discriminate.
  - simpl. intros [= <-]. split; [exact I |]. cbn [SF2R]. intros _; split; [lia | lra].
  - cbv zeta.
    set (magnitude := if 0 <=? e then Z.pos m * 2 ^ e else Z.pos m / 2 ^ (- e)).
    destruct (in_int32 (if s then - magnitude else magnitude)); [| discriminate].
    intros [= <-]. split; [exact I |]. intros Hv.
    rewrite (value_nonneg_sign _ _ _ Hv). cbn [SF2R].
    unfold magnitude. destruct (Z.leb_spec 0 e) as [He | He].
    + split; [apply Z.mul_nonneg_nonneg; [lia | apply Z.pow_nonneg; lia] |].
      rewrite mult_IZR, <- bpow_IZR by assumption. lra.
    + split; [apply Z.div_pos; [lia | apply Z.pow_pos_nonneg; lia] |].
      pose proof (div_pow2_mul_le (Z.pos m) (- e) ltac:(lia) ltac:(lia)) as L.
      pose proof (bpow_pos e) as Pe.
      pose proof (Rmult_le_compat_r (bpow e) _ _ (Rlt_le _ _ Pe) L) as L'.
      rewrite Rmult_assoc in L'.
      replace (bpow (- e) * bpow e)%R with 1%R in L'
        by (rewrite <- bpow_add; replace (- e + e) with 0 by lia; reflexivity).
      lra.
Qed.

Lemma canonical_digits (m : positive) (e : Z) :
  valid_binary (S754_finite false m e) = true ->
  e = Z.max (Z.pos (digits2_pos m) + e - 53) (-1074).
Proof.
  cbn [SpecFloat.valid_binary]; unfold bounded, canonical_mantissa.
  intros H; apply andb_prop in H; destruct H as [H _].
  apply Z.eqb_eq in H; rewrite fexp64_eq in H; lia.
Qed.

(** Among canonical doubles, a smaller exponent means a smaller number. *)
Lemma canonical_lt (m1 m2 : positive) (e1 e2 : Z) :
  valid_binary (S754_finite false m1 e1) = true ->
  valid_binary (S754_finite false m2 e2) = true ->
  e1 < e2 ->
  (IZR (Z.pos m1) * bpow e1 < IZR (Z.pos m2) * bpow e2)%R.
Proof.
  intros V1 V2 He.
  pose proof (canonical_digits _ _ V1) as C1.
  pose proof (canonical_digits _ _ V2) as C2.
  pose proof (digits2_bounds m1) as B1; pose proof (digits2_bounds m2) as B2.
  assert (D1 : Z.pos (digits2_pos m1) <= 53) by lia.
  assert (D2 : Z.pos (digits2_pos m2) = 53) by lia.
  rewrite D2 in B2.
  assert (L1 : (IZR (Z.pos m1) < bpow 53)%R).
  { rewrite bpow_IZR by lia. apply IZR_lt.
    assert (2 ^ Z.pos (digits2_pos m1) <= 2 ^ 53) by (apply Z.pow_le_mono_r; lia).
    lia. }
  assert (L2 : (bpow 52 <= IZR (Z.pos m2))%R).
  { rewrite bpow_IZR by lia. apply IZR_le. exact (proj1 B2). }
  pose proof (bpow_pos e1) as P1; pose proof (bpow_pos e2) as P2.
  assert (IZR (Z.pos m1) * bpow e1 < bpow 53 * bpow e1)%R
    by (apply Rmult_lt_compat_r; assumption).
  assert (bpow 52 * bpow e2 <= IZR (Z.pos m2) * bpow e2)%R
    by (apply Rmult_le_compat_r; lra).
  assert (bpow (53 + e1) <= bpow (52 + e2))%R by (apply bpow_le; lia).
  rewrite !bpow_add in *. lra.
Qed.

Lemma valid_binary_sign (s s' : bool) (m : positive) (e : Z) :
  valid_binary (S754_finite s m e) = valid_binary (S754_finite s' m e).
Proof. reflexivity. Qed.

(** The comparison [<=] of doubles agrees with the order of the reals they
    stand for. *)
Lemma SFleb_value (x y : spec_float) :
  valid_binary x = true -> valid_binary y = true ->
  is_real x -> is_real y ->
  SFleb x y = true -> (SF2R x <= SF2R y)%R.
Proof.
  intros Vx Vy Rx Ry.
  destruct x as [sx | sx | | sx mx ex]; try contradiction;
    destruct y as [sy | sy | | sy my ey]; try contradiction;
    unfold SFleb; cbn [SFcompare SF2R].
  - intros _; lra.
  - pose proof (finite_value_pos my ey).
    destruct sy; [discriminate | intros _; lra].
  - pose proof (finite_value_pos mx ex).
    destruct sx; [intros _; lra | discriminate].
  - pose proof (finite_value_pos mx ex) as Px.
    pose proof (finite_value_pos my ey) as Py.
    destruct sx, sy; try discriminate; try (intros _; lra).
    + destruct (Z.compare_spec ex ey) as [E | L | G]; try discriminate.
      * subst ey. intros H.
        assert (Z.pos my <= Z.pos mx).
        { change (Pos.compare_cont Eq mx my) with (Pos.compare mx my) in H.
          destruct (Pos.compare_spec mx my); cbn [CompOpp] in H; try discriminate; lia. }
        assert (IZR (Z.pos my) * bpow ex <= IZR (Z.pos mx) * bpow ex)%R.
        { apply Rmult_le_compat_r; [apply Rlt_le, bpow_pos | apply IZR_le; assumption]. }
        lra.
      * intros _.
        pose proof (canonical_lt my mx ey ex Vy Vx ltac:(lia)). lra.
    + destruct (Z.compare_spec ex ey) as [E | L | G]; try discriminate.
      * subst ey. intros H.
        assert (Z.pos mx <= Z.pos my).
        { change (Pos.compare_cont Eq mx my) with (Pos.compare mx my) in H.
          destruct (Pos.compare_spec mx my); try discriminate; lia. }
        apply Rmult_le_compat_r; [apply Rlt_le, bpow_pos | apply IZR_le; assumption].
      * intros _.
        pose proof (canonical_lt mx my ex ey Vx Vy L). lra.
Qed.

(** *** The placement arithmetic *)

Lemma eps_value : (eps * 4503599627370496 = 1)%R.
Proof.
  unfold eps. change 4503599627370496%R with (IZR (2 ^ 52)).
  rewrite <- bpow_IZR by lia. exact (bpow_opp 52).
Qed.

(** The accumulated rounding errors stay below one pixel. *)
Lemma rounding_fits (W u v a b p q : R) :
  (0 <= W <= 2147483647)%R ->
  (0 <= u)%R -> (0 <= v)%R -> (u + v <= 1 + 3 * eps)%R ->
  (0 <= a <= (1 + eps) * u + eta)%R ->
  (0 <= b <= (1 + eps) * v + eta)%R ->
  (p <= (1 + eps) * (a * W) + eta)%R ->
  (q <= (1 + eps) * (b * W) + eta)%R ->
  (p + q < W + 1)%R.
Proof.
  pose proof eps_value as Ev; pose proof eps_pos as Pe.
  pose proof eta_pos as Pt; pose proof eta_le_eps as Lt.
  intros HW Hu Hv Huv Ha Hb Hp Hq.
  assert (Hs : (a + b <= 1 + 7 * eps)%R).
  { assert ((1 + eps) * (u + v) <= (1 + eps) * (1 + 3 * eps))%R
      by (apply Rmult_le_compat_l; lra).
    assert (eps * eps <= eps / 3)%R.
    { unfold Rdiv. rewrite (Rmult_comm eps (/ 3)). apply Rmult_le_compat_r; lra. }
    lra. }
  assert (Hs' : ((1 + eps) * (a + b) <= 1 + 9 * eps)%R).
  { assert ((1 + eps) * (a + b) <= (1 + eps) * (1 + 7 * eps))%R
      by (apply Rmult_le_compat_l; lra).
    assert (eps * eps <= eps / 7)%R.
    { unfold Rdiv. rewrite (Rmult_comm eps (/ 7)). apply Rmult_le_compat_r; lra. }
    lra. }
  assert (Hw : ((1 + eps) * (a + b) * W <= (1 + 9 * eps) * W)%R)
    by (apply Rmult_le_compat_r; lra).
  assert (Hew : (eps * W <= eps * 2147483647)%R) by (apply Rmult_le_compat_l; lra).
  lra.
Qed.

Lemma SFmul_real_inv (x y : spec_float) :
  is_real (SFmul prec emax x y) -> is_real x /\ is_real y.
Proof.
  destruct x as [sx | sx | | sx mx ex]; destruct y as [sy | sy | | sy my ey];
    cbn [SFmul is_real]; tauto.
Qed.

Lemma SFdiv_real_inv (x y : spec_float) :
  is_real (SFdiv prec emax x y) ->
  is_real x /\
  ((exists s m e, y = S754_finite s m e) \/
   (exists s, y = S754_infinity s) /\ SF2R (SFdiv prec emax x y) = 0%R).
Proof.
  destruct x as [sx | sx | | sx mx ex]; destruct y as [sy | sy | | sy my ey];
    cbn [SFdiv is_real]; try tauto; intros _; (split; [exact I |]); eauto.
Qed.

Lemma eps_lt_1 : (eps < 1)%R.
Proof. pose proof eps_value; pose proof eps_pos; lra. Qed.

Lemma Rabs_le_between (x b : R) : (Rabs x <= b)%R -> (- b <= x <= b)%R.
Proof.
  intros H; pose proof (Rle_abs x) as H1; pose proof (Rle_abs (- x)) as H2.
  rewrite Rabs_Ropp in H2. lra.
Qed.

Lemma near_nonneg (d : float) (r : R) :
  near d r -> is_real (Prim2SF d) -> (0 <= r)%R ->
  ((1 - eps) * r <= SF2R (Prim2SF d) <= (1 + eps) * r)%R.
Proof.
  intros N Rd Hr; specialize (N Rd).
  rewrite (Rabs_pos_eq r) in N by assumption.
  apply Rabs_le_between in N. lra.
Qed.

(** One scaled term [N / H * W] converted to [int32_t], for a positive
    finite [H]. *)
Lemma scaled_term_finite (N H : float) (W n : Z) (mh : positive) (eh : Z) :
  0 <= W <= int32_max ->
  Prim2SF H = S754_finite false mh eh ->
  is_real (Prim2SF N) -> (0 <= SF2R (Prim2SF N))%R ->
  double_to_int32 (N / H * int32_to_double W)%float = Done n ->
  0 <= n /\
  exists a : R,
    (0 <= a <= (1 + eps) * (SF2R (Prim2SF N) / SF2R (Prim2SF H)) + eta)%R /\
    (IZR n <= (1 + eps) * (a * IZR W) + eta)%R.
Proof.
  intros HW EH RN PN Hn.
  destruct (int32_to_double_value W HW) as [RW VW].
  destruct (double_to_int32_floor _ _ Hn) as [Rp Fl].
  rewrite mul_spec, div_spec in Rp, Fl. unfold SF64mul, SF64div in Rp, Fl.
  destruct (SFmul_real_inv _ _ Rp) as [Ra _].
  rewrite EH in *.
  pose proof (SFdiv_upper (Prim2SF N) mh eh RN PN Ra) as Ua.
  destruct (SFmul_upper _ _ Ra RW (proj1 Ua) ltac:(rewrite VW; apply IZR_le; lia) Rp)
    as [Up _].
  destruct (Fl (proj1 Up)) as [N0 Nle].
  split; [exact N0 |].
  exists (SF2R (SFdiv prec emax (Prim2SF N) (S754_finite false mh eh))).
  split; [exact Ua |]. rewrite VW in Up. lra.
Qed.

(** One scaled term for an infinite [H]: the quotient is a zero. *)
Lemma scaled_term_infinite (N H : float) (W n : Z) (s : bool) :
  0 <= W <= int32_max ->
  Prim2SF H = S754_infinity s ->
  double_to_int32 (N / H * int32_to_double W)%float = Done n ->
  n = 0.
Proof.
  intros HW EH Hn.
  destruct (int32_to_double_value W HW) as [RW VW].
  destruct (double_to_int32_floor _ _ Hn) as [Rp Fl].
  rewrite mul_spec, div_spec in Rp, Fl. unfold SF64mul, SF64div in Rp, Fl.
  destruct (SFmul_real_inv _ _ Rp) as [Ra _].
  rewrite EH in *.
  assert (Va : SF2R (SFdiv prec emax (Prim2SF N) (S754_infinity s)) = 0%R).
  { destruct (SFdiv_real_inv _ _ Ra) as [_ [[s' [m [e E]]] | [_ V]]];
      [discriminate | exact V]. }
  destruct (SFmul_upper _ _ Ra RW ltac:(rewrite Va; lra)
              ltac:(rewrite VW; apply IZR_le; lia) Rp) as [Up _].
  destruct (Fl (proj1 Up)) as [N0 Nle].
  rewrite Va, Rmult_0_l, Rmult_0_r, Rplus_0_l in Up.
  assert (IZR n < 1)%R.
  { pose proof eta_le_eps; pose proof eps_lt_1; lra. }
  apply lt_IZR in H0. lia.
Qed.

(** What a successful conversion of [N / H * W] tells about [N] and [H]. *)
Lemma scaled_term_real (N H : float) (W n : Z) :
  double_to_int32 (N / H * int32_to_double W)%float = Done n ->
  is_real (Prim2SF N) /\
  ((exists s m e, Prim2SF H = S754_finite s m e) \/
   (exists s, Prim2SF H = S754_infinity s)).
Proof.
  intros Hn.
  destruct (double_to_int32_floor _ _ Hn) as [Rp _].
  rewrite mul_spec, div_spec in Rp. unfold SF64mul, SF64div in Rp.
  destruct (SFmul_real_inv _ _ Rp) as [Ra _].
  destruct (SFdiv_real_inv _ _ Ra) as [RN [F | [I _]]]; auto.
Qed.

(** The offset and the extent of a carved viewport together fit the
    reference extent, when the exact offset and extent do. *)
Lemma offset_and_extent_fit (A E H : float) (SA SE SH : R) (W dx w : Z) :
  near A SA -> near E SE -> near H SH ->
  (is_real (Prim2SF A) -> is_real (Prim2SF E) -> is_real (Prim2SF H) ->
   (0 <= SA /\ 0 <= SE /\ SA + SE <= SH)%R) ->
  0 <= W <= int32_max ->
  double_to_int32 (A / H * int32_to_double W)%float = Done dx ->
  double_to_int32 (abs E / H * int32_to_double W)%float = Done w ->
  0 <= dx /\ 0 <= w /\ dx + w <= W.
Proof.
  intros NA NE NH HS HW Hdx Hw.
  pose proof eps_pos as Pe; pose proof eps_lt_1 as Le; pose proof eps_value as Ev.
  destruct (scaled_term_real _ _ _ _ Hdx) as [RA HH].
  destruct (scaled_term_real _ _ _ _ Hw) as [RE' _].
  rewrite abs_spec in RE'. apply (proj1 (SFabs_real _)) in RE'.
  destruct HH as [[s [mh [eh EH]]] | [s EH]].
  2:{ rewrite (scaled_term_infinite _ _ _ _ _ HW EH Hdx).
      rewrite (scaled_term_infinite _ _ _ _ _ HW EH Hw). lia. }
  assert (RH : is_real (Prim2SF H)) by (rewrite EH; exact I).
  destruct (HS RA RE' RH) as [PA [PE PS]].
  pose proof (near_nonneg _ _ NA RA PA) as BA.
  pose proof (near_nonneg _ _ NH RH ltac:(lra)) as BH.
  specialize (NE RE'). rewrite (Rabs_pos_eq SE) in NE by assumption.
  apply Rabs_le_between in NE.
  assert (BE : (0 <= SF2R (Prim2SF (abs E)) <= (1 + eps) * SE)%R).
  { rewrite abs_spec, SFabs_value. split; [apply Rabs_pos |].
    apply Rabs_le. lra. }
  assert (PH : (0 <= SF2R (Prim2SF H))%R).
  { assert (0 <= (1 - eps) * SH)%R by (apply Rmult_le_pos; lra). lra. }
  rewrite EH in PH. pose proof (value_nonneg_sign _ _ _ PH) as ->. clear PH.
  assert (PH : (0 < SF2R (Prim2SF H))%R) by (rewrite EH; apply finite_value_pos).
  assert (RE : is_real (Prim2SF (abs E))) by (rewrite abs_spec; apply SFabs_real; exact RE').
  assert (PA' : (0 <= SF2R (Prim2SF A))%R).
  { assert (0 <= (1 - eps) * SA)%R by (apply Rmult_le_pos; lra). lra. }
  destruct (scaled_term_finite _ _ _ _ _ _ HW EH RA PA' Hdx) as [Dx0 [a [Ba Bp]]].
  destruct (scaled_term_finite _ _ _ _ _ _ HW EH RE (proj1 BE) Hw) as [W0 [b [Bb Bq]]].
  split; [exact Dx0 |]; split; [exact W0 |].
  set (vA := SF2R (Prim2SF A)) in *; set (vE := SF2R (Prim2SF (abs E))) in *.
  set (vH := SF2R (Prim2SF H)) in *.
  assert (Huv : (vA / vH + vE / vH <= 1 + 3 * eps)%R).
  { replace (vA / vH + vE / vH)%R with ((vA + vE) / vH)%R by (field; lra).
    apply (Rmult_le_reg_r vH); [exact PH |].
    replace ((vA + vE) / vH * vH)%R with (vA + vE)%R by (field; lra).
    apply (Rmult_le_reg_l (1 - eps)); [lra |].
    assert (((1 + eps) * (1 - eps)) * SH <= (1 + eps) * vH)%R.
    { rewrite Rmult_assoc. apply Rmult_le_compat_l; lra. }
    assert ((1 - eps) * ((1 + eps) * (SA + SE)) <= (1 - eps) * ((1 + eps) * SH))%R.
    { apply Rmult_le_compat_l; [lra |]. apply Rmult_le_compat_l; lra. }
    assert ((1 - eps) * (vA + vE) <= (1 - eps) * ((1 + eps) * (SA + SE)))%R.
    { apply Rmult_le_compat_l; lra. }
    assert (eps * eps * vH <= eps / 3 * vH)%R.
    { apply Rmult_le_compat_r; [lra |].
      unfold Rdiv. rewrite (Rmult_comm eps (/ 3)). apply Rmult_le_compat_r; lra. }
    lra. }
  assert (Hu : (0 <= vA / vH)%R).
  { unfold Rdiv. apply Rmult_le_pos; [exact PA' |]. apply Rlt_le, Rinv_0_lt_compat, PH. }
  assert (Hv : (0 <= vE / vH)%R).
  { unfold Rdiv. apply Rmult_le_pos; [exact (proj1 BE) |]. apply Rlt_le, Rinv_0_lt_compat, PH. }
  assert (HWr : (0 <= IZR W <= 2147483647)%R).
  { unfold int32_max in HW. split; apply IZR_le; lia. }
  pose proof (rounding_fits (IZR W) _ _ a b (IZR dx) (IZR w) HWr Hu Hv Huv Ba Bb Bp Bq) as F.
  rewrite <- plus_IZR in F. change 1%R with (IZR 1) in F. rewrite <- plus_IZR in F.
  apply lt_IZR in F. lia.
Qed.

Lemma leb_value (x y : float) :
  (x <=? y)%float = true ->
  is_real (Prim2SF x) -> is_real (Prim2SF y) ->
  (SF2R (Prim2SF x) <= SF2R (Prim2SF y))%R.
Proof.
  rewrite leb_spec; intros L Rx Ry.
  apply SFleb_value; auto using Prim2SF_valid.
Qed.

Lemma near_add (x y : float) :
  near (x + y) (SF2R (Prim2SF x) + SF2R (Prim2SF y)).
Proof.
  unfold near; rewrite add_spec; unfold SF64add; intros Rr.
  destruct (SFadd_real_inv _ _ Rr) as [Rx Ry].
  apply SFadd_near; auto using Prim2SF_valid.
Qed.

Lemma near_sub (x y : float) :
  near (x - y) (SF2R (Prim2SF x) - SF2R (Prim2SF y)).
Proof.
  unfold near; rewrite sub_spec; unfold SF64sub; intros Rr.
  apply SFsub_near; auto using Prim2SF_valid.
Qed.

Lemma add_real_inv (x y : float) :
  is_real (Prim2SF (x + y)) -> is_real (Prim2SF x) /\ is_real (Prim2SF y).
Proof. rewrite add_spec; apply SFadd_real_inv. Qed.

Lemma sub_real_inv (x y : float) :
  is_real (Prim2SF (x - y)) -> is_real (Prim2SF x) /\ is_real (Prim2SF y).
Proof. rewrite sub_spec; apply SFsub_real_inv. Qed.

Lemma opp_leb_value (x y : float) :
  (- x <=? y)%float = true ->
  is_real (Prim2SF x) -> is_real (Prim2SF y) ->
  (- SF2R (Prim2SF x) <= SF2R (Prim2SF y))%R.
Proof.
  intros L Rx Ry. rewrite <- SFopp_value, <- opp_spec.
  apply leb_value; [exact L | | exact Ry].
  rewrite opp_spec; apply SFopp_real; exact Rx.
Qed.

(** Horizontally: a focus range inside the reference range is carved inside
    the reference width. *)
Lemma horizontal_fit (refLeft refRight focusLeft focusRight : float) (W dx w : Z) :
  (- refLeft <=? focusLeft)%float = true ->
  (focusLeft <=? focusRight)%float = true ->
  (focusRight <=? refRight)%float = true ->
  0 <= W <= int32_max ->
  double_to_int32
    ((focusLeft + refLeft) / (refRight + refLeft) * int32_to_double W)%float = Done dx ->
  double_to_int32
    (abs (focusRight - focusLeft) / (refRight + refLeft) * int32_to_double W)%float
    = Done w ->
  0 <= dx /\ 0 <= w /\ dx + w <= W.
Proof.
  intros L1 L2 L3 HW Hdx Hw.
  apply (offset_and_extent_fit _ _ _ _ _ _ W dx w
           (near_add focusLeft refLeft) (near_sub focusRight focusLeft)
           (near_add refRight refLeft)); try assumption.
  intros RA RE RH.
  destruct (add_real_inv _ _ RA) as [Rfl Rrl].
  destruct (sub_real_inv _ _ RE) as [Rfr _].
  destruct (add_real_inv _ _ RH) as [Rrr _].
  pose proof (opp_leb_value _ _ L1 Rrl Rfl).
  pose proof (leb_value _ _ L2 Rfl Rfr).
  pose proof (leb_value _ _ L3 Rfr Rrr).
  lra.
Qed.

(** Vertically, with the offset measured from the top. *)
Lemma vertical_fit (refTop refBottom focusTop focusBottom : float) (W dy h : Z) :
  (- refBottom <=? focusBottom)%float = true ->
  (focusBottom <=? focusTop)%float = true ->
  (focusTop <=? refTop)%float = true ->
  0 <= W <= int32_max ->
  double_to_int32
    ((refTop - focusTop) / (refTop + refBottom) * int32_to_double W)%float = Done dy ->
  double_to_int32
    (abs (focusTop - focusBottom) / (refTop + refBottom) * int32_to_double W)%float
    = Done h ->
  0 <= dy /\ 0 <= h /\ dy + h <= W.
Proof.
  intros L1 L2 L3 HW Hdy Hh.
  apply (offset_and_extent_fit _ _ _ _ _ _ W dy h
           (near_sub refTop focusTop) (near_sub focusTop focusBottom)
           (near_add refTop refBottom)); try assumption.
  intros RA RE RH.
  destruct (sub_real_inv _ _ RA) as [Rrt Rft].
  destruct (sub_real_inv _ _ RE) as [_ Rfb].
  destruct (add_real_inv _ _ RH) as [_ Rrb].
  pose proof (opp_leb_value _ _ L1 Rrb Rfb).
  pose proof (leb_value _ _ L2 Rfb Rft).
  pose proof (leb_value _ _ L3 Rft Rrt).
  lra.
Qed.

(** ** Geometry utilities: the contract of [AlignTo<2>] *)

(** C7, counterexample. On [uint32_t] the sum [n + alignment - 1] wraps at
    the largest value: [AlignTo<2>(0xFFFFFFFF)] is 0, which is not [>= n]. *)
Lemma AlignTo_2_wraps_at_uint32_max :
  0 <= 4294967295 /\ AlignTo 2 4294967295 = 0 /\ ~ (4294967295 <= AlignTo 2 4294967295).
Proof.
  assert (E : AlignTo 2 4294967295 = 0) by (vm_compute; reflexivity).
  rewrite E; lia.
Qed.

(** C7, amended. For every [uint32_t] value [n], [AlignTo<2>] is idempotent,
    its result is even and [AlignTo<2>(n) - n < 2]; the result is [>= n] for
    every [n] below the largest [uint32_t] value. *)
Theorem AlignTo_2_contract (n : Z) :
  0 <= n < 2 ^ 32 ->
  AlignTo 2 (AlignTo 2 n) = AlignTo 2 n /\
  Z.even (AlignTo 2 n) = true /\
  AlignTo 2 n - n < 2 /\
  (n < 2 ^ 32 - 1 -> n <= AlignTo 2 n).
Proof.
  intros Hn; repeat split.
  - apply AlignTo_2_of_even; [apply AlignTo_2_range | apply AlignTo_2_even].
  - apply AlignTo_2_even.
  - destruct (Z.eq_dec n (2 ^ 32 - 1)) as [-> | Hne].
    + vm_compute; reflexivity.
    + pose proof (AlignTo_2_below n ltac:(lia)); lia.
  - intros Hlt; apply AlignTo_2_below; lia.
Qed.

Lemma AlignTo_2_contract_witness :
  0 <= 1001 < 2 ^ 32 /\
  AlignTo 2 (AlignTo 2 1001) = AlignTo 2 1001 /\
  Z.even (AlignTo 2 1001) = true /\
  AlignTo 2 1001 - 1001 < 2 /\
  (1001 < 2 ^ 32 - 1 -> 1001 <= AlignTo 2 1001).
Proof.
  split; [lia | apply (AlignTo_2_contract 1001); lia].
Defined.

(** ** The gaze provider *)

(** C9. With [USE_FOVEATED_GAZE] off, [GetRenderingGaze] returns [true] and
    writes a gaze whose three forward vectors are (0, 0, 1), whose per-eye
    statuses are both 3 (the tracked, fully valid state) and whose stability
    is 1.0; the gaze written is the same for every session, whatever the
    caller's structure held before, and whatever the runtime would say. *)
Theorem GetRenderingGaze_disabled (cfg : BuildConfig) (host : Host)
    (session : varjo_Session) (g : varjo_Gaze) :
  USE_FOVEATED_GAZE cfg = false ->
  fst (GetRenderingGaze cfg host session g) = true /\
  forward (leftEye (snd (GetRenderingGaze cfg host session g))) = [0; 0; 1]%float /\
  forward (rightEye (snd (GetRenderingGaze cfg host session g))) = [0; 0; 1]%float /\
  forward (gaze (snd (GetRenderingGaze cfg host session g))) = [0; 0; 1]%float /\
  leftStatus (snd (GetRenderingGaze cfg host session g)) = 3 /\
  rightStatus (snd (GetRenderingGaze cfg host session g)) = 3 /\
  stability (snd (GetRenderingGaze cfg host session g)) = 1%float /\
  forall (host' : Host) (session' : varjo_Session) (g' : varjo_Gaze),
    GetRenderingGaze cfg host' session' g' = GetRenderingGaze cfg host session g.
Proof.
  intros Hoff; unfold GetRenderingGaze; rewrite Hoff.
  repeat split; reflexivity.
Qed.

Lemma GetRenderingGaze_disabled_witness :
  USE_FOVEATED_GAZE shipped_config = false /\
  fst (GetRenderingGaze shipped_config
         (scenario_host unit_aligned (symmetric_tangents 1) (symmetric_tangents 1) (0, 0))
         0 zero_gaze) = true.
Proof.
  split; [reflexivity |].
  apply (GetRenderingGaze_disabled shipped_config
           (scenario_host unit_aligned (symmetric_tangents 1) (symmetric_tangents 1) (0, 0))
           0 zero_gaze); reflexivity.
Defined.

(** ** The texture-size negotiator *)

Section TextureSize.

Variable sdk : VarjoHeaders.
Variable cfg : BuildConfig.
Variable host : Host.

(** C10. A query whose size kind is not the stereo one is answered by the
    runtime's own function, called with the same session, kind, view index
    and out-parameters; nothing is rescaled or aligned. *)
Theorem hooked_GetTextureSize_not_stereo (session : varjo_Session) (ty : Z)
    (viewIndex : Z) (out : Z * Z) :
  ty <> varjo_TextureSize_Type_Stereo sdk ->
  hooked_GetTextureSize sdk cfg host session ty viewIndex out
  = Done (original_GetTextureSize host session ty viewIndex out).
Proof.
  intros Hty; unfold hooked_GetTextureSize.
  destruct (Z.eqb_spec ty (varjo_TextureSize_Type_Stereo sdk)); [contradiction |].
  reflexivity.
Qed.

Lemma double_to_int32_cases (d : float) :
  (exists n, double_to_int32 d = Done n) \/
  double_to_int32 d = Undefined ConversionOutOfRange.
Proof.
  unfold double_to_int32; destruct (truncate d) as [z |]; [| right; reflexivity].
  destruct (in_int32 z); [left; eauto | right; reflexivity].
Qed.

Lemma scaled_by_zero_extent (n : Z) (num den : float) :
  is_zero den = true ->
  double_to_int32 (int32_to_double n * (abs num / abs den))%float
  = Undefined ConversionOutOfRange.
Proof.
  intros Hz; apply double_to_int32_not_finite.
  destruct (is_zero_spec den Hz) as [s Es].
  rewrite mul_spec; apply SFmul_not_finite_r.
  rewrite div_spec, (abs_spec den), Es; simpl SFabs.
  apply SFdiv_zero_r.
Qed.

Lemma add_int32_small (viewIndex : Z) :
  viewIndex = 0 \/ viewIndex = 1 -> add_int32 2 viewIndex = Done (2 + viewIndex).
Proof. intros [-> | ->]; reflexivity. Qed.

(** C4, amended. For a stereo query with view index 0 or 1, the base
    resolution is the runtime's answer for index [2 + viewIndex], and the
    negotiated size is, per axis, [AlignTo<2>] of the base dimension times
    the multiplier converted to [int32_t], that is truncated toward zero
    (not rounded to nearest); the multipliers are
    [|full.right - full.left| / |focus.right - focus.left|] and
    [|full.top - full.bottom| / |focus.top - focus.bottom|]. In particular,
    when the full and focus tangents are equal, with finite non-zero extents,
    the result is the aligned base resolution. *)
Theorem hooked_GetTextureSize_stereo (session : varjo_Session) (viewIndex : Z)
    (out : Z * Z) :
  viewIndex = 0 \/ viewIndex = 1 ->
  let base :=
    original_GetTextureSize host session
      (if USE_FOVEATED_TANGENTS cfg
       then varjo_TextureSize_Type_DynamicFoveation sdk
       else varjo_TextureSize_Type_Quad sdk)
      (2 + viewIndex) out in
  let full := GetFovTangents cfg host session viewIndex in
  let focus := GetFovTangents cfg host session (2 + viewIndex) in
  let horizontalMultiplier :=
    (abs (right full - left full) / abs (right focus - left focus))%float in
  let verticalMultiplier :=
    (abs (top full - bottom full) / abs (top focus - bottom focus))%float in
  (forall w h : Z,
     double_to_int32 (int32_to_double (fst base) * horizontalMultiplier)%float
       = Done w ->
     double_to_int32 (int32_to_double (snd base) * verticalMultiplier)%float
       = Done h ->
     hooked_GetTextureSize sdk cfg host session
       (varjo_TextureSize_Type_Stereo sdk) viewIndex out
     = Done (to_int32 (AlignTo 2 (to_uint32 w)),
             to_int32 (AlignTo 2 (to_uint32 h)))) /\
  (full = focus ->
   finite_nonzero (right full - left full) = true ->
   finite_nonzero (top full - bottom full) = true ->
   in_int32 (fst base) = true ->
   in_int32 (snd base) = true ->
   hooked_GetTextureSize sdk cfg host session
     (varjo_TextureSize_Type_Stereo sdk) viewIndex out
   = Done (to_int32 (AlignTo 2 (to_uint32 (fst base))),
           to_int32 (AlignTo 2 (to_uint32 (snd base))))).
Proof.
  intros Hview base full focus horizontalMultiplier verticalMultiplier.
  assert (General : forall w h : Z,
     double_to_int32 (int32_to_double (fst base) * horizontalMultiplier)%float
       = Done w ->
     double_to_int32 (int32_to_double (snd base) * verticalMultiplier)%float
       = Done h ->
     hooked_GetTextureSize sdk cfg host session
       (varjo_TextureSize_Type_Stereo sdk) viewIndex out
     = Done (to_int32 (AlignTo 2 (to_uint32 w)),
             to_int32 (AlignTo 2 (to_uint32 h)))).
  { intros w h Hw Hh; unfold hooked_GetTextureSize.
    rewrite Z.eqb_refl, (add_int32_small viewIndex Hview); cbn [bind].
    subst horizontalMultiplier verticalMultiplier full focus base.
    destruct (original_GetTextureSize host session _ (2 + viewIndex) out)
      as [w0 h0].
    simpl fst in Hw; simpl snd in Hh; cbv beta iota zeta.
    rewrite Hw; cbn [bind]; rewrite Hh; reflexivity. }
  split; [exact General |].
  intros Heq Hfin_h Hfin_v Hw0 Hh0; apply General.
  - subst horizontalMultiplier; rewrite <- Heq.
    unfold finite_nonzero in Hfin_h.
    destruct (Prim2SF (right full - left full)) as [| | | s m e] eqn:E;
      try discriminate.
    rewrite (div_abs_self _ _ _ _ E), mul_one_r.
    apply double_to_int32_of_int32; assumption.
  - subst verticalMultiplier; rewrite <- Heq.
    unfold finite_nonzero in Hfin_v.
    destruct (Prim2SF (top full - bottom full)) as [| | | s m e] eqn:E;
      try discriminate.
    rewrite (div_abs_self _ _ _ _ E), mul_one_r.
    apply double_to_int32_of_int32; assumption.
Qed.

(** C8, amended. The negotiator has no clamp and no fallback: whenever the
    focus tangent extent of an axis is zero, the multiplier of that axis is
    an infinity or a NaN, its product with the base dimension is not a
    finite double, and the conversion to [int32_t] is undefined; no
    dimension is returned. *)
Theorem hooked_GetTextureSize_degenerate (session : varjo_Session)
    (viewIndex : Z) (out : Z * Z) :
  viewIndex = 0 \/ viewIndex = 1 ->
  is_zero (right (GetFovTangents cfg host session (2 + viewIndex)) -
           left (GetFovTangents cfg host session (2 + viewIndex))) = true \/
  is_zero (top (GetFovTangents cfg host session (2 + viewIndex)) -
           bottom (GetFovTangents cfg host session (2 + viewIndex))) = true ->
  hooked_GetTextureSize sdk cfg host session
    (varjo_TextureSize_Type_Stereo sdk) viewIndex out
  = Undefined ConversionOutOfRange.
Proof.
  intros Hview Hzero; unfold hooked_GetTextureSize.
  rewrite Z.eqb_refl, (add_int32_small viewIndex Hview); cbn [bind].
  destruct (original_GetTextureSize host session _ (2 + viewIndex) out) as [w0 h0].
  cbv beta iota zeta.
  destruct Hzero as [Hz | Hz].
  - rewrite (scaled_by_zero_extent w0 _ _ Hz); reflexivity.
  - rewrite (scaled_by_zero_extent h0 _ _ Hz).
    match goal with |- bind ?r _ = _ => destruct r as [w | f] eqn:E end.
    + reflexivity.
    + simpl.
      match type of E with double_to_int32 ?d = _ =>
        destruct (double_to_int32_cases d) as [[n En] | En] end;
        congruence.
Qed.

End TextureSize.

Lemma hooked_GetTextureSize_not_stereo_witness :
  varjo_TextureSize_Type_Quad scenario_headers
    <> varjo_TextureSize_Type_Stereo scenario_headers /\
  hooked_GetTextureSize scenario_headers shipped_config
    (scenario_host unit_aligned (symmetric_tangents 2) (symmetric_tangents 1) (640, 480))
    0 (varjo_TextureSize_Type_Quad scenario_headers) 3 (0, 0)
  = Done (640, 480).
Proof.
  split; [discriminate |].
  apply (hooked_GetTextureSize_not_stereo scenario_headers shipped_config
           (scenario_host unit_aligned (symmetric_tangents 2) (symmetric_tangents 1)
              (640, 480))
           0 (varjo_TextureSize_Type_Quad scenario_headers) 3 (0, 0)).
  discriminate.
Defined.

(** C4, counterexample. Base resolution 573 x 573, full extent 3.5 and focus
    extent 2 on both axes: the multiplier is 1.75 and the product 1002.75.
    The code converts it to 1002, already even; rounding gives 1003, which
    aligns to 1004. *)
Lemma stereo_size_is_truncated_not_rounded :
  hooked_GetTextureSize scenario_headers shipped_config
    (scenario_host unit_aligned (symmetric_tangents 1.75) (symmetric_tangents 1)
       (573, 573))
    0 (varjo_TextureSize_Type_Stereo scenario_headers) 0 (0, 0)
  = Done (1002, 1002) /\
  spec_NegotiateTextureSize (573, 573)
    (symmetric_tangents 1.75) (symmetric_tangents 1)
  = Some (1004, 1004).
Proof. split; vm_compute; reflexivity. Qed.

Lemma hooked_GetTextureSize_stereo_witness :
  hooked_GetTextureSize scenario_headers shipped_config
    (scenario_host unit_aligned (symmetric_tangents 1) (symmetric_tangents 1)
       (1001, 999))
    0 (varjo_TextureSize_Type_Stereo scenario_headers) 1 (0, 0)
  = Done (1002, 1000) /\
  hooked_GetTextureSize scenario_headers shipped_config
    (scenario_host unit_aligned (symmetric_tangents 1.75) (symmetric_tangents 1)
       (573, 573))
    0 (varjo_TextureSize_Type_Stereo scenario_headers) 0 (0, 0)
  = Done (1002, 1002).
Proof.
  split.
  - destruct (hooked_GetTextureSize_stereo scenario_headers shipped_config
                (scenario_host unit_aligned (symmetric_tangents 1)
                   (symmetric_tangents 1) (1001, 999))
                0 1 (0, 0) (or_intror eq_refl)) as [_ Hequal].
    apply Hequal; reflexivity.
  - destruct (hooked_GetTextureSize_stereo scenario_headers shipped_config
                (scenario_host unit_aligned (symmetric_tangents 1.75)
                   (symmetric_tangents 1) (573, 573))
                0 0 (0, 0) (or_introl eq_refl)) as [Hgeneral _].
    apply (Hgeneral 1002 1002); vm_compute; reflexivity.
Defined.

(** C8, counterexample. Focus tangents with [left = right]: the horizontal
    extent is zero, the runtime's own size for the focus view is
    1000 x 1000, and the hook does not return it: the product of 1000 and
    the infinite multiplier does not convert to [int32_t]. *)
Lemma zero_extent_is_not_clamped :
  let host :=
    scenario_host unit_aligned (symmetric_tangents 1) (unsigned_tangents 0.5)
      (1000, 1000) in
  let focus := GetFovTangents shipped_config host 0 2 in
  is_zero (right focus - left focus) = true /\
  original_GetTextureSize host 0
    (varjo_TextureSize_Type_DynamicFoveation scenario_headers) 2 (0, 0)
  = (1000, 1000) /\
  hooked_GetTextureSize scenario_headers shipped_config host
    0 (varjo_TextureSize_Type_Stereo scenario_headers) 0 (0, 0)
  = Undefined ConversionOutOfRange /\
  hooked_GetTextureSize scenario_headers shipped_config host
    0 (varjo_TextureSize_Type_Stereo scenario_headers) 0 (0, 0)
  <> Done (1000, 1000).
Proof.
  cbv zeta; split; [reflexivity |]; split; [reflexivity |].
  split; [vm_compute; reflexivity | vm_compute; discriminate].
Qed.

Lemma hooked_GetTextureSize_degenerate_witness :
  hooked_GetTextureSize scenario_headers shipped_config
    (scenario_host unit_aligned (symmetric_tangents 1)
       {| top := 0.5; bottom := (-0.5); left := 0.25; right := 0.25 |}
       (1000, 1000))
    0 (varjo_TextureSize_Type_Stereo scenario_headers) 1 (0, 0)
  = Undefined ConversionOutOfRange.
Proof.
  apply (hooked_GetTextureSize_degenerate scenario_headers shipped_config
           (scenario_host unit_aligned (symmetric_tangents 1)
              {| top := 0.5; bottom := (-0.5); left := 0.25; right := 0.25 |}
              (1000, 1000))
           0 1 (0, 0)).
  - right; reflexivity.
  - left; reflexivity.
Defined.

(** ** The submission-layer patcher: what the loops establish *)

Section Patcher.

Variable sdk : VarjoHeaders.
Variable cfg : BuildConfig.
Variable host : Host.
Variable session : varjo_Session.

Lemma with_flags_same (p : varjo_LayerMultiProj) :
  with_flags p (flags (header p)) = p.
Proof. destruct p as [[t f] s vc vs]; reflexivity. Qed.

Lemma rem_int32_two (k : Z) : rem_int32 k 2 = Done (Z.rem k 2).
Proof. reflexivity. Qed.

(** One iteration of the focus loop, on the vectors' last elements. *)
Lemma patch_focus_view_snoc (k : Z) (nl : list nat)
    (pa : list varjo_LayerMultiProj) (p : varjo_LayerMultiProj)
    (va : list (list varjo_LayerMultiProjView))
    (arr : list varjo_LayerMultiProjView) (st' : frame_locals) :
  patch_focus_view sdk cfg host session k
    (Build_Locals nl (pa ++ [p]) (va ++ [arr])) = Done st' ->
  exists arr' newFlags,
    st' = Build_Locals nl (pa ++ [with_flags p newFlags]) (va ++ [arr']) /\
    focus_views_patched cfg host session [k] arr arr'.
Proof.
  unfold patch_focus_view; cbn [viewsAllocator projAllocator newLayersPtr].
  rewrite back_snoc; cbn [bind].
  destruct (load arr k) as [focusView | f] eqn:Ek; [| discriminate]; cbn [bind].
  rewrite rem_int32_two; cbn [bind].
  destruct (load arr (Z.rem k 2)) as [referenceView | f] eqn:Er;
    [| discriminate]; cbn [bind].
  fold (sentinel focusView).
  destruct (sentinel focusView) eqn:Es.
  - destruct (carve_focus_view cfg host session k focusView referenceView)
      as [focusView' | f] eqn:Ec; [| discriminate]; cbn [bind].
    destruct (store arr k focusView') as [arr' | f] eqn:Est; [| discriminate].
    cbn [bind]; rewrite set_back_snoc; cbn [bind].
    destruct (store_done _ _ _ _ Est) as [Hlen [Hget Hother]].
    assert (P : focus_views_patched cfg host session [k] arr arr').
    { split; [exact Hlen |]; split.
      - intros j Hj; apply Hother; intros ->; apply Hj; left; reflexivity.
      - intros k' [<- | []]; exists focusView, referenceView.
        rewrite Es; repeat split; try assumption.
        exists focusView'; split; assumption. }
    destruct (USE_FOVEATED_TANGENTS cfg).
    + rewrite back_snoc; cbn [bind]; rewrite set_back_snoc; cbn [bind].
      intros [= <-]; eexists; eexists; split; [reflexivity | exact P].
    + cbn [bind]; intros [= <-].
      exists arr', (flags (header p)); rewrite with_flags_same; split;
        [reflexivity | exact P].
  - intros [= <-]; exists arr, (flags (header p)).
    rewrite with_flags_same; split; [reflexivity |].
    split; [reflexivity |]; split; [reflexivity |].
    intros k' [<- | []]; exists focusView, referenceView.
    rewrite Es; repeat split; assumption.
Qed.

(** The focus loop over a list of distinct indices, all at least 2. *)
Lemma patch_focus_views_snoc (ks : list Z) :
  NoDup ks -> (forall k, In k ks -> 2 <= k) ->
  forall (nl : list nat) (pa : list varjo_LayerMultiProj)
    (p : varjo_LayerMultiProj) (va : list (list varjo_LayerMultiProjView))
    (arr : list varjo_LayerMultiProjView) (st' : frame_locals),
  for_each (patch_focus_view sdk cfg host session) ks
    (Build_Locals nl (pa ++ [p]) (va ++ [arr])) = Done st' ->
  exists arr' newFlags,
    st' = Build_Locals nl (pa ++ [with_flags p newFlags]) (va ++ [arr']) /\
    focus_views_patched cfg host session ks arr arr'.
Proof.
  induction ks as [| k ks IH]; intros Hnd Hge nl pa p va arr st'.
  - simpl; intros [= <-]; exists arr, (flags (header p)).
    rewrite with_flags_same; split; [reflexivity |].
    split; [reflexivity |]; split; [reflexivity |]; intros k [].
  - cbn [for_each]; intros H.
    apply bind_done_inv in H; destruct H as [st1 [Hstep Hrest]].
    apply patch_focus_view_snoc in Hstep.
    destruct Hstep as [arr1 [fl1 [-> [Hlen1 [Hout1 Hin1]]]]].
    inversion Hnd as [| k0 ks0 Hnotin Hnd']; subst.
    apply IH in Hrest; [| assumption | intros; apply Hge; right; assumption].
    destruct Hrest as [arr' [fl' [-> [Hlen' [Hout' Hin']]]]].
    exists arr', fl'; split; [reflexivity |].
    split; [congruence |]; split.
    + intros j Hj; rewrite Hout' by (intros ?; apply Hj; right; assumption).
      apply Hout1; intros [<- | []]; apply Hj; left; reflexivity.
    + intros k' [<- | Hk'].
      * destruct (Hin1 k (or_introl eq_refl)) as [fv [rv [Hf [Hr Hres]]]].
        exists fv, rv; repeat split; try assumption.
        destruct (sentinel fv).
        -- destruct Hres as [fv' [Hc Hl]]; exists fv'; split; [assumption |].
           rewrite Hout' by assumption; assumption.
        -- rewrite Hout' by assumption; assumption.
      * destruct (Hin' k' Hk') as [fv [rv [Hf [Hr Hres]]]].
        assert (Hk2 : 2 <= k') by (apply Hge; right; assumption).
        assert (Hk : 2 <= k) by (apply Hge; left; reflexivity).
        pose proof (Z.rem_bound_pos k' 2 ltac:(lia) ltac:(lia)) as Hrem.
        exists fv, rv; split; [| split].
        -- rewrite <- Hf; symmetry; apply Hout1.
           intros [-> | []]; contradiction.
        -- rewrite <- Hr; symmetry; apply Hout1.
           intros [E | []]; lia.
        -- exact Hres.
Qed.

(** The vectors after one more copy. *)
Lemma laid_out_projs_length (n : nat)
    (copies : list (varjo_LayerMultiProj * list varjo_LayerMultiProjView)) :
  length (laid_out_projs n copies) = length copies.
Proof.
  revert n; induction copies as [| [p arr] rest IH]; intros n; simpl;
    [reflexivity | rewrite IH; reflexivity].
Qed.

Lemma laid_out_projs_app (n : nat)
    (c1 c2 : list (varjo_LayerMultiProj * list varjo_LayerMultiProjView)) :
  laid_out_projs n (c1 ++ c2)
  = laid_out_projs n c1 ++ laid_out_projs (n + length c1) c2.
Proof.
  revert n; induction c1 as [| [p arr] rest IH]; intros n; simpl.
  - rewrite Nat.add_0_r; reflexivity.
  - rewrite IH, Nat.add_succ_r; reflexivity.
Qed.

Lemma laid_out_projs_nth (n i : nat)
    (copies : list (varjo_LayerMultiProj * list varjo_LayerMultiProjView))
    (c : varjo_LayerMultiProj * list varjo_LayerMultiProjView) :
  nth_error copies i = Some c ->
  nth_error (laid_out_projs n copies) i
  = Some (with_views (fst c) (InViewsAllocator (n + i))).
Proof.
  revert n i; induction copies as [| [p arr] rest IH]; intros n i.
  - destruct i; discriminate.
  - destruct i as [| i]; simpl.
    + intros [= <-]; rewrite Nat.add_0_r; reflexivity.
    + intros H; rewrite (IH (S n) i H), Nat.add_succ_r; reflexivity.
Qed.

Lemma locals_after_snoc
    (copies : list (varjo_LayerMultiProj * list varjo_LayerMultiProjView))
    (p : varjo_LayerMultiProj) (arr : list varjo_LayerMultiProjView) :
  Build_Locals
    (newLayersPtr (locals_after copies) ++ [length (projAllocator (locals_after copies))])
    (projAllocator (locals_after copies)
       ++ [with_views p (InViewsAllocator (length (viewsAllocator (locals_after copies))))])
    (viewsAllocator (locals_after copies) ++ [arr])
  = locals_after (copies ++ [(p, arr)]).
Proof.
  unfold locals_after; cbn [newLayersPtr projAllocator viewsAllocator].
  rewrite laid_out_projs_length, length_map, length_app, Nat.add_1_r.
  rewrite seq_S, laid_out_projs_app, map_app; reflexivity.
Qed.

(** The body of the layer loop for a multi-projection layer. *)
Lemma copy_and_patch_post (proj : varjo_LayerMultiProj)
    (cells : list varjo_LayerMultiProjView)
    (copies : list (varjo_LayerMultiProj * list varjo_LayerMultiProjView))
    (st' : frame_locals) :
  views proj = Cells cells ->
  copy_and_patch sdk cfg host session proj (locals_after copies) = Done st' ->
  exists arr' newFlags,
    st' = locals_after (copies ++ [(with_flags proj newFlags, arr')]) /\
    layer_patched cfg host session proj cells arr'.
Proof.
  intros Hcells; unfold copy_and_patch; rewrite Hcells; cbn [view_at].
  intros H.
  apply bind_done_inv in H; destruct H as [[] [_ H]].
  apply bind_done_inv in H; destruct H as [v0 [E0 H]].
  apply bind_done_inv in H; destruct H as [v1 [E1 H]].
  apply bind_done_inv in H; destruct H as [i2 [Ei2 H]].
  apply bind_done_inv in H; destruct H as [v2 [E2 H]].
  apply bind_done_inv in H; destruct H as [i3 [Ei3 H]].
  apply bind_done_inv in H; destruct H as [v3 [E3 H]].
  rewrite back_snoc in H; cbn [bind] in H.
  rewrite set_back_snoc in H; cbn [bind] in H.
  unfold for_loop in H.
  replace (length (projAllocator (locals_after copies) ++
                   [with_views proj (InViewsAllocator
                      (length (viewsAllocator (locals_after copies) ++
                               [[v0; v1; v2; v3]]) - 1))]) - 1)%nat
    with (length (projAllocator (locals_after copies))) in H
    by (rewrite length_app, Nat.add_1_r; simpl; lia).
  replace (length (viewsAllocator (locals_after copies) ++ [[v0; v1; v2; v3]]) - 1)%nat
    with (length (viewsAllocator (locals_after copies))) in H
    by (rewrite length_app, Nat.add_1_r; simpl; lia).
  apply patch_focus_views_snoc in H;
    [| apply for_range_NoDup | intros k Hk; apply for_range_In in Hk; lia].
  destruct H as [arr' [newFlags [-> P]]].
  exists arr', newFlags; split.
  - rewrite <- locals_after_snoc; reflexivity.
  - unfold rem_int32 in Ei2, Ei3.
    destruct (viewCount proj =? 0); [discriminate |].
    injection Ei2 as <-; injection Ei3 as <-.
    exists v0, v1, v2, v3.
    exact (conj E0 (conj E1 (conj E2 (conj E3 P)))).
Qed.

(** The layer loop, started after [before] has been visited. *)
Lemma layer_loop_post (info : varjo_SubmitInfoLayers) (rest : list layer_object) :
  Forall caller_owned rest ->
  forall (before : list layer_object)
    (copies : list (varjo_LayerMultiProj * list varjo_LayerMultiProjView))
    (st' : frame_locals),
  layers info = before ++ rest ->
  for_each (visit_layer sdk cfg host session info)
    (map Z.of_nat (seq (length before) (length rest))) (locals_after copies)
    = Done st' ->
  exists copies',
    st' = locals_after (copies ++ copies') /\
    Forall2 (forwarded_copy cfg host session)
      (filter (is_multi_proj sdk) rest) (map resolved copies').
Proof.
  induction rest as [| l rest IH]; intros Hown before copies st' Hlayers.
  - simpl; intros [= <-]; exists []; rewrite app_nil_r; split;
      [reflexivity | constructor].
  - cbn [length seq map for_each]; intros H.
    apply bind_done_inv in H; destruct H as [st1 [Hvisit Hrest]].
    unfold visit_layer in Hvisit.
    assert (Hload : load (layers info) (Z.of_nat (length before)) = Done l).
    { apply load_done; split; [lia |].
      rewrite Nat2Z.id, Hlayers, nth_error_app2, Nat.sub_diag by lia.
      reflexivity. }
    rewrite Hload in Hvisit; cbn [bind] in Hvisit.
    inversion Hown as [| l0 rest0 Hl Hown']; subst l0 rest0.
    assert (Hlayers' : layers info = (before ++ [l]) ++ rest)
      by (rewrite <- app_assoc; exact Hlayers).
    replace (S (length before)) with (length (before ++ [l])) in Hrest
      by (rewrite length_app, Nat.add_1_r; reflexivity).
    unfold layer_body in Hvisit; cbn [filter]; fold (is_multi_proj sdk l) in *.
    destruct (is_multi_proj sdk l) eqn:Em.
    + destruct l as [proj | hdr]; [| discriminate].
      destruct Hl as [cells Hcells].
      destruct (copy_and_patch_post proj cells copies st1 Hcells Hvisit)
        as [arr' [newFlags [-> Hpatched]]].
      destruct (IH Hown' _ _ _ Hlayers' Hrest) as [copies' [-> Hall]].
      exists ((with_flags proj newFlags, arr') :: copies'); split.
      * rewrite <- app_assoc; reflexivity.
      * cbn [map]; constructor; [| exact Hall].
        exists proj, cells, newFlags, arr'; repeat split; assumption.
    + injection Hvisit as <-.
      exact (IH Hown' _ _ _ Hlayers' Hrest).
Qed.

(** Every pointer of [newLayersPtr] designates its copy. *)
Lemma pointees_laid_out (nl : list nat)
    (rest before : list (varjo_LayerMultiProj * list varjo_LayerMultiProjView)) :
  pointees
    (Build_Locals nl (laid_out_projs 0 (before ++ rest)) (map snd (before ++ rest)))
    (seq (length before) (length rest))
  = Done (map resolved rest).
Proof.
  revert before; induction rest as [| c rest IH]; intros before.
  - reflexivity.
  - cbn [length seq pointees].
    assert (Hc : nth_error (before ++ c :: rest) (length before) = Some c)
      by (rewrite nth_error_app2, Nat.sub_diag by lia; reflexivity).
    unfold pointee; cbn [projAllocator viewsAllocator].
    unfold load at 1.
    destruct (Z.ltb_spec (Z.of_nat (length before)) 0) as [| _]; [lia |].
    rewrite Nat2Z.id, (laid_out_projs_nth 0 _ _ _ Hc); cbn [bind views with_views].
    unfold load at 1.
    destruct (Z.ltb_spec (Z.of_nat (0 + length before)) 0) as [| _]; [lia |].
    rewrite Nat2Z.id, Nat.add_0_l, nth_error_map, Hc; cbn [option_map bind].
    replace (before ++ c :: rest) with ((before ++ [c]) ++ rest)
      by (rewrite <- app_assoc; reflexivity).
    replace (S (length before)) with (length (before ++ [c]))
      by (rewrite length_app, Nat.add_1_r; reflexivity).
    rewrite IH; reflexivity.
Qed.

(** What the runtime is called with, for a submission that the hook gets
    through: the frame number and the layer count of the caller, and one
    patched copy per layer of type [varjo_LayerMultiProjType], in order. *)
Lemma hooked_EndFrameWithLayers_post
    (submitInfo newSubmitInfo : varjo_SubmitInfoLayers) :
  well_formed_submission submitInfo ->
  hooked_EndFrameWithLayers sdk cfg host session submitInfo = Done newSubmitInfo ->
  submitFrameNumber newSubmitInfo = submitFrameNumber submitInfo /\
  layerCount newSubmitInfo = layerCount submitInfo /\
  Forall2 (forwarded_copy cfg host session)
    (filter (is_multi_proj sdk) (layers submitInfo)) (layers newSubmitInfo).
Proof.
  intros [Hcount Hown]; unfold hooked_EndFrameWithLayers.
  destruct (layerCount submitInfo <? 0); [discriminate |].
  intros H; apply bind_done_inv in H; destruct H as [st [Hloop H]].
  apply bind_done_inv in H; destruct H as [ls [Hls H]].
  injection H as <-; cbn [submitFrameNumber layerCount layers].
  split; [reflexivity |]; split; [reflexivity |].
  unfold for_loop in Hloop; rewrite Hcount, for_range_of_length in Hloop.
  destruct (layer_loop_post submitInfo (layers submitInfo) Hown [] [] st
              eq_refl Hloop) as [copies [-> Hall]].
  cbn [app locals_after newLayersPtr] in Hls.
  unfold locals_after in Hls.
  rewrite (pointees_laid_out _ copies []) in Hls.
  injection Hls as <-; exact Hall.
Qed.

(** The copy holds four views: a focus index that the loop gets past is 2 or 3. *)
Lemma load_four {A : Type} (a0 a1 a2 a3 a : A) (k : Z) :
  2 <= k -> load [a0; a1; a2; a3] k = Done a ->
  (k = 2 /\ a = a2) \/ (k = 3 /\ a = a3).
Proof.
  intros Hk H; apply load_done in H; destruct H as [_ H].
  destruct (Z.to_nat k) as [| [| [| [| n]]]] eqn:E; simpl in H.
  - lia.
  - lia.
  - left; split; [lia | congruence].
  - right; split; [lia | congruence].
  - destruct n; discriminate.
Qed.

(** A patched layer, view by view: every focus view [k] is either the
    submitted view (not a sentinel) or what [carve_focus_view] makes of the
    submitted view and the submitted reference view [k % 2]. *)
Lemma layer_patched_focus (proj : varjo_LayerMultiProj)
    (cells arr' : list varjo_LayerMultiProjView) (k : Z) :
  layer_patched cfg host session proj cells arr' ->
  2 <= k < viewCount proj ->
  exists focusView referenceView,
    load cells k = Done focusView /\
    load cells (k mod 2) = Done referenceView /\
    if sentinel focusView then
      exists focusView',
        carve_focus_view cfg host session k focusView referenceView
          = Done focusView' /\
        load arr' k = Done focusView'
    else load arr' k = Done focusView.
Proof.
  intros [v0 [v1 [v2 [v3 [E0 [E1 [E2 [E3 [_ [_ Hin]]]]]]]]]] Hk.
  destruct (Hin k) as [fv [rv [Hf [Hr Hres]]]]; [apply for_range_In; lia |].
  rewrite Z.rem_mod_nonneg in Hr by lia.
  exists fv, rv.
  destruct (load_four _ _ _ _ _ _ (proj1 Hk) Hf) as [[-> ->] | [-> ->]].
  - rewrite Z.rem_small in E2 by lia.
    change (2 mod 2) with 0 in *; change (load [v0; v1; v2; v3] 0) with (Done v0) in Hr.
    injection Hr as <-; repeat split; assumption.
  - rewrite Z.rem_small in E3 by lia.
    change (3 mod 2) with 1 in *; change (load [v0; v1; v2; v3] 1) with (Done v1) in Hr.
    injection Hr as <-; repeat split; assumption.
Qed.

(** The assignments of [carve_focus_view], read off its result. *)
Lemma carve_focus_view_done (k : Z)
    (focusView referenceView focusView' : varjo_LayerMultiProjView) :
  carve_focus_view cfg host session k focusView referenceView = Done focusView' ->
  let full := original_GetAlignedView host (projection referenceView) in
  let focus := GetFovTangents cfg host session k in
  let horizontalFov := (projectionRight full + projectionLeft full)%float in
  let verticalFov := (projectionTop full + projectionBottom full)%float in
  exists dx w dy h : Z,
    double_to_int32
      ((left focus + projectionLeft full) / horizontalFov *
       int32_to_double (width (viewport referenceView)))%float = Done dx /\
    double_to_int32
      (abs (right focus - left focus) / horizontalFov *
       int32_to_double (width (viewport referenceView)))%float = Done w /\
    double_to_int32
      ((projectionTop full - top focus) / verticalFov *
       int32_to_double (height (viewport referenceView)))%float = Done dy /\
    double_to_int32
      (abs (top focus - bottom focus) / verticalFov *
       int32_to_double (height (viewport referenceView)))%float = Done h /\
    in_int32 (x (viewport focusView) + dx) = true /\
    in_int32 (y (viewport focusView) + dy) = true /\
    focusView' =
      {| extension := extension focusView;
         projection := varjo_GetProjectionMatrix host focus;
         view := view focusView;
         viewport :=
           {| swapChain := swapChain (viewport referenceView);
              x := x (viewport focusView) + dx;
              y := y (viewport focusView) + dy;
              width := to_int32 (AlignTo 2 (to_uint32 w));
              height := to_int32 (AlignTo 2 (to_uint32 h));
              arrayIndex := arrayIndex (viewport referenceView) |} |}.
Proof.
  unfold carve_focus_view; intros H; cbv zeta in H |- *.
  apply bind_done_inv in H; destruct H as [dx [Edx H]].
  apply bind_done_inv in H; destruct H as [x' [Ex H]].
  apply bind_done_inv in H; destruct H as [w [Ew H]].
  apply bind_done_inv in H; destruct H as [dy [Edy H]].
  apply bind_done_inv in H; destruct H as [y' [Ey H]].
  apply bind_done_inv in H; destruct H as [h [Eh H]].
  unfold add_int32 in Ex, Ey; cbn in Ex, Ey.
  destruct (in_int32 (x (viewport focusView) + dx)) eqn:Rx; [| discriminate].
  destruct (in_int32 (y (viewport focusView) + dy)) eqn:Ry; [| discriminate].
  injection Ex as <-; injection Ey as <-; injection H as <-.
  exists dx, w, dy, h; repeat split; assumption.
Qed.

(** *** The patcher returns on the layers it is written for *)

Lemma patch_focus_view_returns (k : Z) (nl : list nat)
    (pa : list varjo_LayerMultiProj) (p : varjo_LayerMultiProj)
    (va : list (list varjo_LayerMultiProjView))
    (arr : list varjo_LayerMultiProjView)
    (focusView referenceView : varjo_LayerMultiProjView) :
  load arr k = Done focusView ->
  load arr (Z.rem k 2) = Done referenceView ->
  (sentinel focusView = true ->
   exists focusView',
     carve_focus_view cfg host session k focusView referenceView = Done focusView') ->
  exists st',
    patch_focus_view sdk cfg host session k
      (Build_Locals nl (pa ++ [p]) (va ++ [arr])) = Done st'.
Proof.
  intros Hf Hr Hcarve; unfold patch_focus_view.
  cbn [viewsAllocator projAllocator newLayersPtr].
  rewrite back_snoc; cbn [bind]; rewrite Hf; cbn [bind].
  rewrite rem_int32_two; cbn [bind]; rewrite Hr; cbn [bind].
  fold (sentinel focusView); destruct (sentinel focusView); [| eauto].
  destruct (Hcarve eq_refl) as [focusView' ->]; cbn [bind].
  destruct (store_after_load arr k focusView focusView' Hf) as [arr' ->].
  cbn [bind]; rewrite set_back_snoc; cbn [bind].
  destruct (USE_FOVEATED_TANGENTS cfg); cbn [bind]; [| eauto].
  rewrite back_snoc; cbn [bind]; rewrite set_back_snoc; cbn [bind]; eauto.
Qed.

Lemma patch_focus_views_returns (ks : list Z) :
  NoDup ks -> (forall k, In k ks -> 2 <= k) ->
  forall (nl : list nat) (pa : list varjo_LayerMultiProj)
    (p : varjo_LayerMultiProj) (va : list (list varjo_LayerMultiProjView))
    (arr : list varjo_LayerMultiProjView),
  (forall k, In k ks ->
     exists focusView referenceView,
       load arr k = Done focusView /\
       load arr (Z.rem k 2) = Done referenceView /\
       (sentinel focusView = true ->
        exists focusView',
          carve_focus_view cfg host session k focusView referenceView
            = Done focusView')) ->
  exists st',
    for_each (patch_focus_view sdk cfg host session) ks
      (Build_Locals nl (pa ++ [p]) (va ++ [arr])) = Done st'.
Proof.
  induction ks as [| k ks IH]; intros Hnd Hge nl pa p va arr Hpre.
  - simpl; eauto.
  - destruct (Hpre k (or_introl eq_refl)) as [fv [rv [Hf [Hr Hc]]]].
    destruct (patch_focus_view_returns k nl pa p va arr fv rv Hf Hr Hc)
      as [st1 Hstep].
    cbn [for_each]; rewrite Hstep; cbn [bind].
    destruct (patch_focus_view_snoc _ _ _ _ _ _ _ Hstep)
      as [arr1 [fl1 [-> [_ [Hout _]]]]].
    inversion Hnd as [| k0 ks0 Hnotin Hnd']; subst.
    apply IH; [assumption | intros; apply Hge; right; assumption |].
    intros k' Hk'.
    destruct (Hpre k' (or_intror Hk')) as [fv' [rv' [Hf' [Hr' Hc']]]].
    assert (Hk2 : 2 <= k') by (apply Hge; right; assumption).
    assert (Hk : 2 <= k) by (apply Hge; left; reflexivity).
    pose proof (Z.rem_bound_pos k' 2 ltac:(lia) ltac:(lia)) as Hrem.
    exists fv', rv'; split; [| split; [| exact Hc']].
    + rewrite Hout; [exact Hf' | intros [-> | []]; contradiction].
    + rewrite Hout; [exact Hr' | intros [E | []]; lia].
Qed.

Lemma tracing_loop_returns (st : frame_locals) (ptr : views_ptr) (ks : list Z) :
  (forall j, In j ks -> exists v, view_at st ptr j = Done v) ->
  for_each (fun j (u : unit) => view_at st ptr j ;;; Done u) ks tt = Done tt.
Proof.
  induction ks as [| k ks IH]; intros H; [reflexivity |].
  cbn [for_each]; destruct (H k (or_introl eq_refl)) as [v ->]; cbn [bind].
  apply IH; intros j Hj; apply H; right; assumption.
Qed.

Lemma copy_and_patch_returns (proj : varjo_LayerMultiProj)
    (copies : list (varjo_LayerMultiProj * list varjo_LayerMultiProjView)) :
  patchable sdk cfg host session (MultiProjObject proj) ->
  exists st',
    copy_and_patch sdk cfg host session proj (locals_after copies) = Done st'.
Proof.
  intros [cells [Hcells [Hcount [Hshape Hcarve]]]].
  unfold copy_and_patch, for_loop; rewrite Hcells.
  rewrite tracing_loop_returns
    by (intros j Hj; apply for_range_In in Hj; cbn [view_at];
        apply load_in_range; lia).
  cbn [bind view_at].
  destruct (load_in_range cells 0 ltac:(lia)) as [v0 E0].
  destruct (load_in_range cells 1 ltac:(lia)) as [v1 E1].
  pose proof (Z.rem_bound_pos 2 (viewCount proj) ltac:(lia) ltac:(lia)) as B2.
  pose proof (Z.rem_bound_pos 3 (viewCount proj) ltac:(lia) ltac:(lia)) as B3.
  destruct (load_in_range cells (Z.rem 2 (viewCount proj)) ltac:(lia)) as [v2 E2].
  destruct (load_in_range cells (Z.rem 3 (viewCount proj)) ltac:(lia)) as [v3 E3].
  unfold rem_int32.
  destruct (Z.eqb_spec (viewCount proj) 0) as [| _]; [lia |].
  rewrite E0; cbn [bind]; rewrite E1; cbn [bind].
  rewrite E2; cbn [bind]; rewrite E3; cbn [bind].
  rewrite back_snoc; cbn [bind]; rewrite set_back_snoc; cbn [bind].
  apply patch_focus_views_returns;
    [apply for_range_NoDup | intros k Hk; apply for_range_In in Hk; lia |].
  intros k Hk; apply for_range_In in Hk.
  assert (Hcase : k = 2 \/ k = 3) by lia.
  destruct Hcase as [-> | ->].
  - rewrite Z.rem_small in E2 by lia.
    exists v2, v0; split; [reflexivity |]; split; [reflexivity |].
    intros Hs; apply (Hcarve 2 v2 v0); [lia | assumption | assumption | assumption].
  - rewrite Z.rem_small in E3 by lia.
    exists v3, v1; split; [reflexivity |]; split; [reflexivity |].
    intros Hs; apply (Hcarve 3 v3 v1); [lia | assumption | assumption | assumption].
Qed.

Lemma patchable_caller_owned (l : layer_object) :
  patchable sdk cfg host session l -> caller_owned l.
Proof.
  destruct l as [proj | hdr]; simpl; [| trivial].
  intros [cells [Hcells _]]; exists cells; exact Hcells.
Qed.

Lemma layer_loop_returns (info : varjo_SubmitInfoLayers) (rest : list layer_object) :
  Forall (patchable sdk cfg host session) rest ->
  forall (before : list layer_object)
    (copies : list (varjo_LayerMultiProj * list varjo_LayerMultiProjView)),
  layers info = before ++ rest ->
  exists st',
    for_each (visit_layer sdk cfg host session info)
      (map Z.of_nat (seq (length before) (length rest))) (locals_after copies)
      = Done st'.
Proof.
  induction rest as [| l rest IH]; intros Hok before copies Hlayers.
  - simpl; eauto.
  - cbn [length seq map for_each].
    inversion Hok as [| l0 rest0 Hl Hok']; subst l0 rest0.
    assert (Hload : load (layers info) (Z.of_nat (length before)) = Done l).
    { apply load_done; split; [lia |].
      rewrite Nat2Z.id, Hlayers, nth_error_app2, Nat.sub_diag by lia.
      reflexivity. }
    assert (Hlayers' : layers info = (before ++ [l]) ++ rest)
      by (rewrite <- app_assoc; exact Hlayers).
    unfold visit_layer at 1; rewrite Hload; cbn [bind].
    replace (S (length before)) with (length (before ++ [l]))
      by (rewrite length_app, Nat.add_1_r; reflexivity).
    unfold layer_body; fold (is_multi_proj sdk l).
    destruct (is_multi_proj sdk l) eqn:Em.
    + destruct l as [proj | hdr].
      * destruct (copy_and_patch_returns proj copies Hl) as [st1 Hstep].
        rewrite Hstep; cbn [bind].
        destruct (patchable_caller_owned _ Hl) as [cells Hcells].
        destruct (copy_and_patch_post proj cells copies st1 Hcells Hstep)
          as [arr' [newFlags [-> _]]].
        apply (IH Hok' _ _ Hlayers').
      * exfalso; apply Hl; apply Z.eqb_eq; exact Em.
    + cbn [bind]; apply (IH Hok' _ _ Hlayers').
Qed.

(** The hook calls the runtime for every submission made of such layers. *)
Lemma hooked_EndFrameWithLayers_returns (submitInfo : varjo_SubmitInfoLayers) :
  layerCount submitInfo = Z.of_nat (length (layers submitInfo)) ->
  Forall (patchable sdk cfg host session) (layers submitInfo) ->
  exists newSubmitInfo,
    hooked_EndFrameWithLayers sdk cfg host session submitInfo = Done newSubmitInfo.
Proof.
  intros Hcount Hok; unfold hooked_EndFrameWithLayers, for_loop.
  destruct (Z.ltb_spec (layerCount submitInfo) 0) as [| _]; [lia |].
  rewrite Hcount, for_range_of_length.
  destruct (layer_loop_returns submitInfo (layers submitInfo) Hok [] [] eq_refl)
    as [st Hloop].
  change (for_each (visit_layer sdk cfg host session submitInfo)
            (map Z.of_nat (seq 0 (length (layers submitInfo))))
            (Build_Locals [] [] []) = Done st) in Hloop.
  rewrite Hloop; cbn [bind].
  assert (Hown : Forall caller_owned (layers submitInfo))
    by (revert Hok; apply Forall_impl; exact patchable_caller_owned).
  destruct (layer_loop_post submitInfo (layers submitInfo) Hown [] [] st
              eq_refl Hloop) as [copies [-> _]].
  cbn [app]; unfold locals_after; cbn [newLayersPtr].
  rewrite (pointees_laid_out _ copies []); cbn [bind]; eauto.
Qed.

(** The forwarded copies, focus view by focus view. *)
Lemma forwarded_focus_views
    (submitInfo newSubmitInfo : varjo_SubmitInfoLayers) :
  well_formed_submission submitInfo ->
  hooked_EndFrameWithLayers sdk cfg host session submitInfo = Done newSubmitInfo ->
  Forall2
    (fun l l' =>
       forall proj cells k,
         l = MultiProjObject proj -> views proj = Cells cells ->
         2 <= k < viewCount proj ->
         exists proj' arr' focusView referenceView,
           l' = MultiProjObject proj' /\ views proj' = Cells arr' /\
           load cells k = Done focusView /\
           load cells (k mod 2) = Done referenceView /\
           if sentinel focusView then
             exists focusView',
               carve_focus_view cfg host session k focusView referenceView
                 = Done focusView' /\
               load arr' k = Done focusView'
           else load arr' k = Done focusView)
    (filter (is_multi_proj sdk) (layers submitInfo)) (layers newSubmitInfo).
Proof.
  intros Hwf Hdone.
  destruct (hooked_EndFrameWithLayers_post _ _ Hwf Hdone) as [_ [_ Hall]].
  revert Hall; apply Forall2_impl.
  intros l l' [proj0 [cells0 [newFlags [arr' [-> [Hc0 [-> Hpatched]]]]]]].
  intros proj cells k [= <-] Hc Hk.
  rewrite Hc0 in Hc; injection Hc as <-.
  destruct (layer_patched_focus _ _ _ k Hpatched Hk) as [fv [rv [Hf [Hr Hres]]]].
  exists (with_views (with_flags proj0 newFlags) (Cells arr')), arr', fv, rv.
  repeat split; assumption.
Qed.

(** C6. The hook forwards every well-formed submission made of layers it
    is written for (two to four views each, placements that fit). In every
    submission that it forwards, a focus view (index 2 or more, below
    [viewCount]) whose submitted viewport is not exactly 1 x 1 reaches the
    runtime as submitted: the copied view equals the submitted view,
    viewport, swapchain, array index and projection included. *)
Theorem placed_focus_view_is_untouched (submitInfo : varjo_SubmitInfoLayers) :
  well_formed_submission submitInfo ->
  (Forall (patchable sdk cfg host session) (layers submitInfo) ->
   exists newSubmitInfo,
     hooked_EndFrameWithLayers sdk cfg host session submitInfo
       = Done newSubmitInfo) /\
  (forall newSubmitInfo,
     hooked_EndFrameWithLayers sdk cfg host session submitInfo
       = Done newSubmitInfo ->
     Forall2
       (fun l l' =>
          forall proj cells k focusView,
            l = MultiProjObject proj -> views proj = Cells cells ->
            2 <= k < viewCount proj ->
            load cells k = Done focusView ->
            ~ (width (viewport focusView) = 1 /\ height (viewport focusView) = 1) ->
            exists proj' arr',
              l' = MultiProjObject proj' /\ views proj' = Cells arr' /\
              load arr' k = Done focusView)
       (filter (is_multi_proj sdk) (layers submitInfo)) (layers newSubmitInfo)).
Proof.
  intros Hwf; split.
  { intros Hok; apply hooked_EndFrameWithLayers_returns; [apply Hwf | exact Hok]. }
  intros newSubmitInfo Hdone.
  generalize (forwarded_focus_views _ _ Hwf Hdone); apply Forall2_impl.
  intros l l' H proj cells k focusView Hl Hc Hk Hload Hplaced.
  destruct (H proj cells k Hl Hc Hk) as [proj' [arr' [fv [rv [-> [Hv [Hf [_ Hres]]]]]]]].
  rewrite Hload in Hf; injection Hf as <-.
  exists proj', arr'; repeat split; try assumption.
  assert (Es : sentinel focusView = false).
  { unfold sentinel; apply andb_false_iff.
    destruct (Z.eqb_spec (width (viewport focusView)) 1) as [Hw | Hw];
      [| left; reflexivity].
    destruct (Z.eqb_spec (height (viewport focusView)) 1) as [Hh | Hh];
      [| right; reflexivity].
    exfalso; apply Hplaced; split; assumption. }
  rewrite Es in Hres; exact Hres.
Qed.

(** The placement of a sentinel focus view, in the submission that the
    runtime receives. *)
Lemma forwarded_sentinel_view
    (submitInfo newSubmitInfo : varjo_SubmitInfoLayers) :
  well_formed_submission submitInfo ->
  hooked_EndFrameWithLayers sdk cfg host session submitInfo = Done newSubmitInfo ->
  Forall2
    (fun l l' =>
       forall proj cells k focusView,
         l = MultiProjObject proj -> views proj = Cells cells ->
         2 <= k < viewCount proj ->
         load cells k = Done focusView ->
         width (viewport focusView) = 1 -> height (viewport focusView) = 1 ->
         exists proj' arr' referenceView focusView',
           l' = MultiProjObject proj' /\ views proj' = Cells arr' /\
           load cells (k mod 2) = Done referenceView /\
           load arr' k = Done focusView' /\
           carve_focus_view cfg host session k focusView referenceView
             = Done focusView')
    (filter (is_multi_proj sdk) (layers submitInfo)) (layers newSubmitInfo).
Proof.
  intros Hwf Hdone.
  generalize (forwarded_focus_views _ _ Hwf Hdone); apply Forall2_impl.
  intros l l' H proj cells k focusView Hl Hc Hk Hload Hw Hh.
  destruct (H proj cells k Hl Hc Hk) as [proj' [arr' [fv [rv [-> [Hv [Hf [Hr Hres]]]]]]]].
  rewrite Hload in Hf; injection Hf as <-.
  assert (Es : sentinel focusView = true)
    by (unfold sentinel; rewrite Hw, Hh; reflexivity).
  rewrite Es in Hres; destruct Hres as [fv' [Hcarve Hl']].
  exists proj', arr', rv, fv'; repeat split; assumption.
Qed.

Lemma aligned_extent_bound (w : Z) :
  0 <= w <= int32_max -> to_int32 (AlignTo 2 (to_uint32 w)) <= w + 1.
Proof.
  unfold int32_max; intros Hw.
  rewrite to_uint32_small by lia.
  pose proof (AlignTo_2_below w ltac:(lia)) as Ha.
  unfold to_int32, uint32_modulus.
  pose proof (Z.mod_le (AlignTo 2 w + 2 ^ 31) (2 ^ 32) ltac:(lia) ltac:(lia)).
  lia.
Qed.

(** The placement of a sentinel focus view, with the arithmetic spelled
    out. *)
Lemma forwarded_sentinel_viewport
    (submitInfo newSubmitInfo : varjo_SubmitInfoLayers) :
  well_formed_submission submitInfo ->
  hooked_EndFrameWithLayers sdk cfg host session submitInfo = Done newSubmitInfo ->
  Forall2
    (fun l l' =>
       forall proj cells k focusView,
         l = MultiProjObject proj -> views proj = Cells cells ->
         2 <= k < viewCount proj ->
         load cells k = Done focusView ->
         width (viewport focusView) = 1 -> height (viewport focusView) = 1 ->
         exists proj' arr' referenceView focusView' dx w dy h,
           l' = MultiProjObject proj' /\ views proj' = Cells arr' /\
           load cells (k mod 2) = Done referenceView /\
           load arr' k = Done focusView' /\
           let full := original_GetAlignedView host (projection referenceView) in
           let focus := GetFovTangents cfg host session k in
           let horizontalFov := (projectionRight full + projectionLeft full)%float in
           let verticalFov := (projectionTop full + projectionBottom full)%float in
           double_to_int32
             ((left focus + projectionLeft full) / horizontalFov *
              int32_to_double (width (viewport referenceView)))%float = Done dx /\
           double_to_int32
             (abs (right focus - left focus) / horizontalFov *
              int32_to_double (width (viewport referenceView)))%float = Done w /\
           double_to_int32
             ((projectionTop full - top focus) / verticalFov *
              int32_to_double (height (viewport referenceView)))%float = Done dy /\
           double_to_int32
             (abs (top focus - bottom focus) / verticalFov *
              int32_to_double (height (viewport referenceView)))%float = Done h /\
           viewport focusView' =
             {| swapChain := swapChain (viewport referenceView);
                x := x (viewport focusView) + dx;
                y := y (viewport focusView) + dy;
                width := to_int32 (AlignTo 2 (to_uint32 w));
                height := to_int32 (AlignTo 2 (to_uint32 h));
                arrayIndex := arrayIndex (viewport referenceView) |} /\
           projection focusView' = varjo_GetProjectionMatrix host focus)
    (filter (is_multi_proj sdk) (layers submitInfo)) (layers newSubmitInfo).
Proof.
  intros Hwf Hdone.
  generalize (forwarded_sentinel_view _ _ Hwf Hdone); apply Forall2_impl.
  intros l l' H proj cells k focusView Hl Hc Hk Hload Hw Hh.
  destruct (H proj cells k focusView Hl Hc Hk Hload Hw Hh)
    as [proj' [arr' [rv [fv' [-> [Hv [Hr [Hl' Hcarve]]]]]]]].
  destruct (carve_focus_view_done _ _ _ _ Hcarve)
    as [dx [w [dy [h [Edx [Ew [Edy [Eh [_ [_ ->]]]]]]]]]].
  exists proj', arr', rv; eexists; exists dx, w, dy, h.
  cbv zeta.
  split; [reflexivity |]; split; [exact Hv |]; split; [exact Hr |].
  split; [exact Hl' |].
  repeat split; assumption.
Qed.

End Patcher.

(** ** The submission-layer patcher: the claims of the specification *)

(** C3, counterexample. Aligned reference tangents all 1.0, reference
    viewport at the origin, one sentinel focus view.
    - Focus tangents -0.75 .. 0.75, reference 1001 x 1001, sentinel at the
      origin: the extent is [0.75 * 1001 = 750.75]; the code converts it to
      750, already even, where the specification's formula rounds to 751 and
      aligns to 752. The offsets, 125.125, agree.
    - Focus tangents -0.5 .. 0.5, reference 1000 x 1000, sentinel submitted
      at (5000, 7000): the code adds the offsets to the sentinel's own x and
      y and gives (5250, 7250), where the formula, which starts from the
      reference's x and y, gives (250, 250). *)
Lemma sentinel_placement_departs_from_the_formula :
  (forwarded_viewport
     (hooked_EndFrameWithLayers scenario_headers shipped_config
        (scenario_host unit_aligned (symmetric_tangents 1) (symmetric_tangents 0.75) (0, 0))
        0 (one_layer_frame (quad_layer 1001 1001)))
     2
   = Some {| swapChain := 7; x := 125; y := 125; width := 750; height := 750;
             arrayIndex := 0 |} /\
   spec_PatchViewport unit_aligned (symmetric_tangents 0.75)
     {| swapChain := 7; x := 0; y := 0; width := 1001; height := 1001;
        arrayIndex := 0 |}
   = Some {| swapChain := 7; x := 125; y := 125; width := 752; height := 752;
             arrayIndex := 0 |}) /\
  (forwarded_viewport
     (hooked_EndFrameWithLayers scenario_headers shipped_config
        (scenario_host unit_aligned (symmetric_tangents 1) (symmetric_tangents 0.5) (0, 0))
        0 (one_layer_frame
             (scenario_layer
                [scenario_view 7 0 0 1000 1000;
                 scenario_view 8 0 0 1000 1000;
                 scenario_view 9 5000 7000 1 1;
                 scenario_view 9 5000 7000 1 1])))
     2
   = Some {| swapChain := 7; x := 5250; y := 7250; width := 500; height := 500;
             arrayIndex := 0 |} /\
   spec_PatchViewport unit_aligned (symmetric_tangents 0.5)
     {| swapChain := 7; x := 0; y := 0; width := 1000; height := 1000;
        arrayIndex := 0 |}
   = Some {| swapChain := 7; x := 250; y := 250; width := 500; height := 500;
             arrayIndex := 0 |}).
Proof. repeat split; vm_compute; reflexivity. Qed.

(** C3, amended. The hook forwards every well-formed submission made of
    layers it is written for. For every multi-projection layer of a
    forwarded submission and every focus view [k] ([2 <= k < viewCount])
    submitted with the 1 x 1 viewport, with [referenceView] the submitted
    view [k mod 2], the forwarded view has the reference view's swapchain
    and array index, and
    - [horizontalFov = refTangents.right + refTangents.left];
    - new width = [AlignTo<2>] of the conversion to [int32_t] (truncation
      toward zero, not rounding) of
      [|focusFov.right - focusFov.left| / horizontalFov * reference.width];
    - for a sentinel submitted at the x of its reference view,
      new x = reference.x + the conversion to [int32_t] of
      [(focusFov.left + refTangents.left) / horizontalFov * reference.width];
    - vertically the same, with
      [topOffset = (refTangents.top - focusFov.top) / verticalFov];
    - the projection is the one the runtime computes for the focus tangents.
    In particular, for aligned tangents all 1.0, focus tangents of 0.5 on
    every side (signed: left -0.5, right 0.5, top 0.5, bottom -0.5) and the
    reference viewport {0, 0, 1000, 1000}, the patched viewport is
    {250, 250, 500, 500}. *)
Theorem sentinel_focus_view_placement :
  (forall (sdk : VarjoHeaders) (cfg : BuildConfig) (host : Host)
     (session : varjo_Session) (submitInfo : varjo_SubmitInfoLayers),
   well_formed_submission submitInfo ->
   (Forall (patchable sdk cfg host session) (layers submitInfo) ->
    exists newSubmitInfo,
      hooked_EndFrameWithLayers sdk cfg host session submitInfo
        = Done newSubmitInfo) /\
   (forall newSubmitInfo,
     hooked_EndFrameWithLayers sdk cfg host session submitInfo
       = Done newSubmitInfo ->
     Forall2
       (fun l l' =>
          forall proj cells k focusView,
            l = MultiProjObject proj -> views proj = Cells cells ->
            2 <= k < viewCount proj ->
            load cells k = Done focusView ->
            width (viewport focusView) = 1 -> height (viewport focusView) = 1 ->
            exists proj' arr' referenceView focusView' dx w dy h,
              l' = MultiProjObject proj' /\ views proj' = Cells arr' /\
              load cells (k mod 2) = Done referenceView /\
              load arr' k = Done focusView' /\
              let full := original_GetAlignedView host (projection referenceView) in
              let focus := GetFovTangents cfg host session k in
              let horizontalFov :=
                (projectionRight full + projectionLeft full)%float in
              let verticalFov :=
                (projectionTop full + projectionBottom full)%float in
              double_to_int32
                ((left focus + projectionLeft full) / horizontalFov *
                 int32_to_double (width (viewport referenceView)))%float = Done dx /\
              double_to_int32
                (abs (right focus - left focus) / horizontalFov *
                 int32_to_double (width (viewport referenceView)))%float = Done w /\
              double_to_int32
                ((projectionTop full - top focus) / verticalFov *
                 int32_to_double (height (viewport referenceView)))%float = Done dy /\
              double_to_int32
                (abs (top focus - bottom focus) / verticalFov *
                 int32_to_double (height (viewport referenceView)))%float = Done h /\
              swapChain (viewport focusView') = swapChain (viewport referenceView) /\
              arrayIndex (viewport focusView') = arrayIndex (viewport referenceView) /\
              width (viewport focusView') = to_int32 (AlignTo 2 (to_uint32 w)) /\
              height (viewport focusView') = to_int32 (AlignTo 2 (to_uint32 h)) /\
              (x (viewport focusView) = x (viewport referenceView) ->
               x (viewport focusView') = x (viewport referenceView) + dx) /\
              (y (viewport focusView) = y (viewport referenceView) ->
               y (viewport focusView') = y (viewport referenceView) + dy) /\
              projection focusView' = varjo_GetProjectionMatrix host focus)
       (filter (is_multi_proj sdk) (layers submitInfo)) (layers newSubmitInfo))) /\
  forwarded_viewport
    (hooked_EndFrameWithLayers scenario_headers shipped_config
       (scenario_host unit_aligned (symmetric_tangents 1) (symmetric_tangents 0.5) (0, 0))
       0 (one_layer_frame (quad_layer 1000 1000)))
    2
  = Some {| swapChain := 7; x := 250; y := 250; width := 500; height := 500;
            arrayIndex := 0 |}.
Proof.
  split; [| vm_compute; reflexivity].
  intros sdk cfg host session submitInfo Hwf; split.
  - intros Hok; apply hooked_EndFrameWithLayers_returns; [apply Hwf | exact Hok].
  - intros newSubmitInfo Hdone.
    generalize (forwarded_sentinel_viewport sdk cfg host session _ _ Hwf Hdone).
    apply Forall2_impl.
    intros l l' H proj cells k focusView Hl Hc Hk Hload Hw Hh.
    destruct (H proj cells k focusView Hl Hc Hk Hload Hw Hh)
      as [proj' [arr' [rv [fv' [dx [w [dy [h
            [E [Hv [Hr [Hl' [Edx [Ew [Edy [Eh [Hvp Hproj]]]]]]]]]]]]]]]]].
    exists proj', arr', rv, fv', dx, w, dy, h.
    cbv zeta.
    split; [exact E |]; split; [exact Hv |]; split; [exact Hr |].
    split; [exact Hl' |].
    split; [exact Edx |]; split; [exact Ew |]; split; [exact Edy |].
    split; [exact Eh |].
    rewrite Hvp; cbn [swapChain arrayIndex width height x y].
    split; [reflexivity |]; split; [reflexivity |].
    split; [reflexivity |]; split; [reflexivity |].
    split; [intros ->; reflexivity |]; split; [intros ->; reflexivity |].
    exact Hproj.
Qed.

(** The scenario frame [half_placed_frame] is well formed, and the patcher
    gets through it. *)
Ltac scenario_well_formed :=
  split; [reflexivity | constructor; [eexists; reflexivity | constructor]].

Ltac scenario_patchable :=
  constructor; [| constructor];
  eexists; split; [reflexivity |]; split; [reflexivity |]; split; [cbn; lia |];
  let k := fresh "k" in
  let Hk := fresh "Hk" in
  let Hf := fresh "Hf" in
  let Hr := fresh "Hr" in
  let Hs := fresh "Hs" in
  intros k ? ? Hk Hf Hr Hs;
  assert (Hcase : k = 2 \/ k = 3) by (cbn in Hk; lia);
  destruct Hcase; subst k;
  [ injection Hf as <-; discriminate Hs
  | injection Hf as <-; injection Hr as <-; eexists; vm_compute; reflexivity ].

(** Likewise for [side_by_side_frame], where both focus views are
    sentinels. *)
Ltac side_by_side_patchable :=
  constructor; [| constructor];
  eexists; split; [reflexivity |]; split; [reflexivity |]; split; [cbn; lia |];
  let k := fresh "k" in
  let Hk := fresh "Hk" in
  let Hf := fresh "Hf" in
  let Hr := fresh "Hr" in
  let Hs := fresh "Hs" in
  intros k ? ? Hk Hf Hr Hs;
  assert (Hcase : k = 2 \/ k = 3) by (cbn in Hk; lia);
  destruct Hcase; subst k;
  injection Hf as <-; injection Hr as <-; eexists; vm_compute; reflexivity.

Lemma sentinel_focus_view_placement_witness :
  exists newSubmitInfo proj' arr' focusView',
    hooked_EndFrameWithLayers scenario_headers shipped_config
      (scenario_host unit_aligned (symmetric_tangents 1) (symmetric_tangents 0.5) (0, 0))
      0 side_by_side_frame = Done newSubmitInfo /\
    layers newSubmitInfo = [MultiProjObject proj'] /\
    views proj' = Cells arr' /\
    load arr' 3 = Done focusView' /\
    viewport focusView' =
      {| swapChain := 7; x := 1250; y := 250; width := 500; height := 500;
         arrayIndex := 0 |}.
Proof.
  destruct sentinel_focus_view_placement as [General _].
  destruct (General scenario_headers shipped_config
              (scenario_host unit_aligned (symmetric_tangents 1)
                 (symmetric_tangents 0.5) (0, 0))
              0 side_by_side_frame ltac:(scenario_well_formed))
    as [Returns Post].
  destruct (Returns ltac:(side_by_side_patchable)) as [newSubmitInfo Run].
  pose proof (Post newSubmitInfo Run) as H.
  inversion H as [| l l' ls ls' Hhead Htail El El']; subst; clear H.
  destruct (Hhead _ _ 3 (scenario_view 9 1000 0 1 1) eq_refl eq_refl
              ltac:(cbn; lia) eq_refl eq_refl eq_refl)
    as [proj' [arr' [rv [fv' [dx [w [dy [h
          [E [Hv [Hr [Hl [Edx [Ew [Edy [Eh
          [Hsc [Hai [Hwd [Hht [Hx [Hy _]]]]]]]]]]]]]]]]]]]]]].
  exists newSubmitInfo, proj', arr', fv'.
  split; [exact Run |].
  split; [inversion Htail; subst; congruence |].
  split; [exact Hv |]; split; [exact Hl |].
  injection Hr as <-.
  vm_compute in Edx, Ew, Edy, Eh.
  injection Edx as <-; injection Ew as <-; injection Edy as <-; injection Eh as <-.
  specialize (Hx eq_refl); specialize (Hy eq_refl).
  destruct fv' as [ext prj vw [sc vx vy vwd vht ai]].
  cbn [viewport swapChain arrayIndex width height x y] in *.
  subst; reflexivity.
Defined.

(** C5, counterexample. Reference viewport 1001 x 1001 at the origin,
    aligned tangents all 1.0 and focus tangents -1.0 .. 1.0 on both axes,
    a range contained in the reference range: the focus width is
    [AlignTo<2>(1001) = 1002], so [newX + newWidth = 1002] exceeds
    [refX + refWidth = 1001]; likewise vertically. *)
Lemma aligned_width_exceeds_reference :
  let host :=
    scenario_host unit_aligned (symmetric_tangents 1) (symmetric_tangents 1)
      (0, 0) in
  let focus := GetFovTangents shipped_config host 0 2 in
  ((- projectionLeft unit_aligned <=? left focus)%float = true /\
   (right focus <=? projectionRight unit_aligned)%float = true /\
   (- projectionBottom unit_aligned <=? bottom focus)%float = true /\
   (top focus <=? projectionTop unit_aligned)%float = true) /\
  exists vp,
    forwarded_viewport
      (hooked_EndFrameWithLayers scenario_headers shipped_config host 0
         (one_layer_frame (quad_layer 1001 1001)))
      2 = Some vp /\
    vp = {| swapChain := 7; x := 0; y := 0; width := 1002; height := 1002;
            arrayIndex := 0 |} /\
    ~ (x vp + width vp <= 0 + 1001) /\
    ~ (y vp + height vp <= 0 + 1001).
Proof.
  cbv zeta; split; [repeat split; reflexivity |].
  eexists; split; [vm_compute; reflexivity |].
  split; [reflexivity |]; cbn; lia.
Qed.

(** C5, amended. The hook forwards every well-formed submission made of
    layers it is written for. For every sentinel focus view of a forwarded
    submission that is submitted at the x of its reference view, whose
    focus tangent range lies within the reference view's aligned range
    ([-ref.left <= focus.left <= focus.right <= ref.right]), with a
    reference width that is a nonnegative [int32_t], the patched viewport
    starts at or after the reference viewport's x and ends at most one pixel
    past the reference viewport's end: [refX <= newX] and
    [newX + newWidth <= refX + refWidth + 1]. The alignment to even sizes
    can add the one pixel; the roundings of the double arithmetic never add
    any. Likewise for y and height, for a sentinel submitted at the y of its
    reference view, with
    [-ref.bottom <= focus.bottom <= focus.top <= ref.top]. *)
Theorem carved_viewport_within_reference
    (sdk : VarjoHeaders) (cfg : BuildConfig) (host : Host)
    (session : varjo_Session) (submitInfo : varjo_SubmitInfoLayers) :
  well_formed_submission submitInfo ->
  (Forall (patchable sdk cfg host session) (layers submitInfo) ->
   exists newSubmitInfo,
     hooked_EndFrameWithLayers sdk cfg host session submitInfo
       = Done newSubmitInfo) /\
  (forall newSubmitInfo,
     hooked_EndFrameWithLayers sdk cfg host session submitInfo
       = Done newSubmitInfo ->
     Forall2
       (fun l l' =>
          forall proj cells k focusView,
            l = MultiProjObject proj -> views proj = Cells cells ->
            2 <= k < viewCount proj ->
            load cells k = Done focusView ->
            width (viewport focusView) = 1 -> height (viewport focusView) = 1 ->
            exists proj' arr' referenceView focusView',
              l' = MultiProjObject proj' /\ views proj' = Cells arr' /\
              load cells (k mod 2) = Done referenceView /\
              load arr' k = Done focusView' /\
              let full := original_GetAlignedView host (projection referenceView) in
              let focus := GetFovTangents cfg host session k in
              (x (viewport focusView) = x (viewport referenceView) ->
               (- projectionLeft full <=? left focus)%float = true ->
               (left focus <=? right focus)%float = true ->
               (right focus <=? projectionRight full)%float = true ->
               0 <= width (viewport referenceView) <= int32_max ->
               x (viewport referenceView) <= x (viewport focusView') /\
               x (viewport focusView') + width (viewport focusView')
                 <= x (viewport referenceView) + width (viewport referenceView) + 1) /\
              (y (viewport focusView) = y (viewport referenceView) ->
               (- projectionBottom full <=? bottom focus)%float = true ->
               (bottom focus <=? top focus)%float = true ->
               (top focus <=? projectionTop full)%float = true ->
               0 <= height (viewport referenceView) <= int32_max ->
               y (viewport referenceView) <= y (viewport focusView') /\
               y (viewport focusView') + height (viewport focusView')
                 <= y (viewport referenceView) + height (viewport referenceView) + 1))
       (filter (is_multi_proj sdk) (layers submitInfo)) (layers newSubmitInfo)).
Proof.
  intros Hwf; split.
  { intros Hok; apply hooked_EndFrameWithLayers_returns; [apply Hwf | exact Hok]. }
  intros newSubmitInfo Hdone.
  generalize (forwarded_sentinel_viewport sdk cfg host session _ _ Hwf Hdone).
  apply Forall2_impl.
  intros l l' H proj cells k focusView Hl Hc Hk Hload Hw Hh.
  destruct (H proj cells k focusView Hl Hc Hk Hload Hw Hh)
    as [proj' [arr' [rv [fv' [dx [w [dy [h
          [E [Hv [Hr [Hl' [Edx [Ew [Edy [Eh [Hvp _]]]]]]]]]]]]]]]]].
  exists proj', arr', rv, fv'.
  cbv zeta.
  split; [exact E |]; split; [exact Hv |]; split; [exact Hr |].
  split; [exact Hl' |].
  pose proof (double_to_int32_range _ _ Ew) as Rw.
  pose proof (double_to_int32_range _ _ Eh) as Rh.
  rewrite Hvp; cbn [x y width height].
  split.
  - intros Hx L1 L2 L3 HW.
    destruct (horizontal_fit _ _ _ _ _ _ _ L1 L2 L3 HW Edx Ew) as [Hdx [H0w Hfit]].
    pose proof (aligned_extent_bound w ltac:(lia)); lia.
  - intros Hy L1 L2 L3 HW.
    destruct (vertical_fit _ _ _ _ _ _ _ L1 L2 L3 HW Edy Eh) as [Hdy [H0h Hfit]].
    pose proof (aligned_extent_bound h ltac:(lia)); lia.
Qed.

Lemma carved_viewport_within_reference_witness :
  exists newSubmitInfo proj' arr' focusView',
    hooked_EndFrameWithLayers scenario_headers shipped_config
      (scenario_host unit_aligned (symmetric_tangents 1) (symmetric_tangents 0.5) (0, 0))
      0 side_by_side_frame = Done newSubmitInfo /\
    layers newSubmitInfo = [MultiProjObject proj'] /\
    views proj' = Cells arr' /\
    load arr' 3 = Done focusView' /\
    1000 <= x (viewport focusView') /\
    x (viewport focusView') + width (viewport focusView') <= 1000 + 1000 + 1.
Proof.
  destruct (carved_viewport_within_reference scenario_headers shipped_config
              (scenario_host unit_aligned (symmetric_tangents 1)
                 (symmetric_tangents 0.5) (0, 0))
              0 side_by_side_frame ltac:(scenario_well_formed))
    as [Returns Post].
  destruct (Returns ltac:(side_by_side_patchable)) as [newSubmitInfo Run].
  pose proof (Post newSubmitInfo Run) as H.
  inversion H as [| l l' ls ls' Hhead Htail El El']; subst; clear H.
  destruct (Hhead _ _ 3 (scenario_view 9 1000 0 1 1) eq_refl eq_refl
              ltac:(cbn; lia) eq_refl eq_refl eq_refl)
    as [proj' [arr' [rv [fv' [E [Hv [Hr [Hl [Hx _]]]]]]]]].
  exists newSubmitInfo, proj', arr', fv'.
  split; [exact Run |].
  split; [inversion Htail; subst; congruence |].
  split; [exact Hv |]; split; [exact Hl |].
  injection Hr as <-.
  apply Hx;
    [reflexivity | reflexivity | reflexivity | reflexivity
     | cbn; unfold int32_max; lia].
Defined.

Lemma placed_focus_view_is_untouched_witness :
  exists newSubmitInfo proj' arr',
    hooked_EndFrameWithLayers scenario_headers shipped_config
      (scenario_host unit_aligned (symmetric_tangents 1) (symmetric_tangents 0.5) (0, 0))
      0 half_placed_frame = Done newSubmitInfo /\
    layers newSubmitInfo = [MultiProjObject proj'] /\
    views proj' = Cells arr' /\
    load arr' 2 = Done (scenario_view 7 10 20 300 200).
Proof.
  destruct (placed_focus_view_is_untouched scenario_headers shipped_config
              (scenario_host unit_aligned (symmetric_tangents 1)
                 (symmetric_tangents 0.5) (0, 0))
              0 half_placed_frame ltac:(scenario_well_formed))
    as [Returns Post].
  destruct (Returns ltac:(scenario_patchable)) as [newSubmitInfo Run].
  pose proof (Post newSubmitInfo Run) as H.
  inversion H as [| l l' ls ls' Hhead Htail El El']; subst; clear H.
  destruct (Hhead _ _ 2 (scenario_view 7 10 20 300 200) eq_refl eq_refl
              ltac:(cbn; lia) eq_refl ltac:(cbn; lia))
    as [proj' [arr' [E [Hv Hl]]]].
  exists newSubmitInfo, proj', arr'.
  split; [exact Run |].
  split; [inversion Htail; subst; congruence |].
  split; [exact Hv | exact Hl].
Defined.

(** The pointer list handed to the runtime has one entry per layer of type
    [varjo_LayerMultiProjType], while the count field is the caller's. *)
Lemma forwarded_pointer_count (sdk : VarjoHeaders) (cfg : BuildConfig)
    (host : Host) (session : varjo_Session)
    (submitInfo newSubmitInfo : varjo_SubmitInfoLayers) :
  well_formed_submission submitInfo ->
  hooked_EndFrameWithLayers sdk cfg host session submitInfo = Done newSubmitInfo ->
  layerCount newSubmitInfo = layerCount submitInfo /\
  length (layers newSubmitInfo)
  = length (filter (is_multi_proj sdk) (layers submitInfo)).
Proof.
  intros Hwf Hdone.
  destruct (hooked_EndFrameWithLayers_post sdk cfg host session _ _ Hwf Hdone)
    as [_ [Hcount Hall]].
  split; [exact Hcount | symmetry; exact (Forall2_length Hall)].
Qed.

(** C1, the failing input. A submission of one layer whose type is not
    [varjo_LayerMultiProjType]: the runtime is handed [layerCount = 1] and a
    pointer list with no element, since only the multi-projection branch
    pushes to [newLayersPtr]. A second submission shows the layer after the
    skipped one moving to the front. *)
Lemma other_layers_are_dropped (cfg : BuildConfig) (host : Host)
    (session : varjo_Session) :
  hooked_EndFrameWithLayers scenario_headers cfg host session
    {| submitFrameNumber := 1; layerCount := 1;
       layers := [OtherObject {| type := 2; flags := 0 |}] |}
  = Done {| submitFrameNumber := 1; layerCount := 1; layers := [] |} /\
  hooked_EndFrameWithLayers scenario_headers cfg host session
    {| submitFrameNumber := 1; layerCount := 2;
       layers := [OtherObject {| type := 2; flags := 0 |};
                  scenario_layer [scenario_view 7 0 0 64 64;
                                  scenario_view 8 0 0 64 64]] |}
  = Done {| submitFrameNumber := 1; layerCount := 2;
            layers :=
              [MultiProjObject
                 {| header := {| type := 1; flags := 0 |};
                    space := 0;
                    viewCount := 2;
                    views := Cells [scenario_view 7 0 0 64 64;
                                    scenario_view 8 0 0 64 64;
                                    scenario_view 7 0 0 64 64;
                                    scenario_view 8 0 0 64 64] |}] |}.
Proof. split; reflexivity. Qed.

(** A frame of one multi-projection layer runs the layer body once. *)
Lemma hooked_one_multi_proj (sdk : VarjoHeaders) (cfg : BuildConfig)
    (host : Host) (session : varjo_Session) (proj : varjo_LayerMultiProj) :
  type (header proj) = varjo_LayerMultiProjType sdk ->
  hooked_EndFrameWithLayers sdk cfg host session
    (one_layer_frame (MultiProjObject proj))
  = (st <- copy_and_patch sdk cfg host session proj (Build_Locals [] [] []) ;;
     ls <- pointees st (newLayersPtr st) ;;
     Done (Build_SubmitInfo 1 1 ls)).
Proof.
  intros Hty; unfold hooked_EndFrameWithLayers, one_layer_frame, for_loop.
  cbn [layerCount layers submitFrameNumber].
  change (1 <? 0) with false; cbv iota.
  change (for_range 0 1) with [0]; cbn [for_each].
  unfold visit_layer; cbn [layers].
  change (load [MultiProjObject proj] 0) with (Done (MultiProjObject proj)).
  cbn [bind]; unfold layer_body; cbn [header_of].
  rewrite Hty, Z.eqb_refl.
  destruct (copy_and_patch sdk cfg host session proj (Build_Locals [] [] []));
    reflexivity.
Qed.

(** C2, the failing inputs. A multi-projection layer with [viewCount = 1]
    and a one-element view array: the copy reads [proj->views[1]], past the
    end. With [viewCount = 0] the copy reads [proj->views[0]] of an empty
    array, and, where the caller's array happens to be longer, evaluates
    [2 % 0]. With [viewCount = 5] the focus loop indexes the four-element
    [std::array] at 4. In none of these cases is the layer forwarded. *)
Lemma malformed_view_counts_are_undefined (sdk : VarjoHeaders)
    (cfg : BuildConfig) (host : Host) (session : varjo_Session)
    (layerFlags layerSpace : Z) (v : varjo_LayerMultiProjView) :
  let layer (count : Z) (cells : list varjo_LayerMultiProjView) :=
    one_layer_frame
      (MultiProjObject
         {| header := {| type := varjo_LayerMultiProjType sdk; flags := layerFlags |};
            space := layerSpace;
            viewCount := count;
            views := Cells cells |}) in
  hooked_EndFrameWithLayers sdk cfg host session (layer 1 [v])
    = Undefined OutOfBounds /\
  hooked_EndFrameWithLayers sdk cfg host session (layer 0 [])
    = Undefined OutOfBounds /\
  hooked_EndFrameWithLayers sdk cfg host session (layer 0 [v; v])
    = Undefined DivisionByZero /\
  hooked_EndFrameWithLayers sdk cfg host session
    (layer 5 [scenario_view 7 0 0 64 64; scenario_view 8 0 0 64 64;
              scenario_view 7 0 0 32 32; scenario_view 8 0 0 32 32;
              scenario_view 7 0 0 16 16])
    = Undefined OutOfBounds.
Proof.
  intros layer; unfold layer.
  rewrite !hooked_one_multi_proj by reflexivity.
  repeat split; reflexivity.
Qed.

(** * Further properties of the hooks *)

(** ** [AlignTo] for every power of two *)

(** The mask [~(alignment - 1)] keeps the bits from [k] up. *)
Lemma mask_power_of_two (k : Z) :
  0 <= k ->
  to_uint32 (Z.lnot (2 ^ k - 1)) = Z.ldiff (Z.ones 32) (Z.ones k).
Proof.
  intros Hk; unfold to_uint32, uint32_modulus.
  rewrite <- Z.land_ones by lia.
  replace (2 ^ k - 1) with (Z.ones k) by (rewrite Z.ones_equiv; lia).
  rewrite Z.land_comm, Z.ldiff_land; reflexivity.
Qed.

Lemma AlignTo_eq (k n : Z) :
  0 <= k ->
  AlignTo (2 ^ k) n = 2 ^ k * (to_uint32 (n + 2 ^ k - 1) / 2 ^ k).
Proof.
  intros Hk; unfold AlignTo; rewrite mask_power_of_two by assumption.
  unfold to_uint32, uint32_modulus.
  set (m := (n + 2 ^ k - 1) mod 2 ^ 32).
  replace (2 ^ k * (m / 2 ^ k)) with (Z.shiftl (Z.shiftr m k) k)
    by (rewrite Z.shiftl_mul_pow2, Z.shiftr_div_pow2 by lia; lia).
  apply Z.bits_inj'; intros i Hi.
  rewrite Z.land_spec, Z.ldiff_spec, Z.shiftl_spec by lia.
  rewrite !Z.testbit_ones_nonneg by lia.
  destruct (Z.ltb_spec i k) as [Hik | Hik].
  - rewrite andb_false_r, andb_false_r.
    symmetry; apply Z.testbit_neg_r; lia.
  - rewrite Z.shiftr_spec by lia.
    replace (i - k + k) with i by lia.
    destruct (Z.ltb_spec i 32) as [Hi32 | Hi32].
    + destruct (Z.leb_spec 0 i); [| lia].
      rewrite andb_true_r; reflexivity.
    + unfold m; rewrite Z.mod_pow2_bits_high by lia; reflexivity.
Qed.

(** [AlignTo] for an alignment [2 ^ k] on [uint32_t]: the least multiple of
    the alignment that is at least [n], as long as [n + alignment - 1] does
    not wrap; 0 when it wraps. *)
Theorem AlignTo_power_of_two (k n : Z) :
  0 <= k < 32 -> 0 <= n < 2 ^ 32 ->
  (n + 2 ^ k - 1 < 2 ^ 32 ->
   AlignTo (2 ^ k) n = 2 ^ k * ((n + 2 ^ k - 1) / 2 ^ k) /\
   AlignTo (2 ^ k) n mod 2 ^ k = 0 /\
   n <= AlignTo (2 ^ k) n < n + 2 ^ k /\
   (forall m, m mod 2 ^ k = 0 -> n <= m -> AlignTo (2 ^ k) n <= m)) /\
  (2 ^ 32 <= n + 2 ^ k - 1 -> AlignTo (2 ^ k) n = 0) /\
  AlignTo (2 ^ k) (AlignTo (2 ^ k) n) = AlignTo (2 ^ k) n.
Proof.
  intros Hk Hn.
  assert (Ha : 0 < 2 ^ k) by (apply Z.pow_pos_nonneg; lia).
  assert (Ha32 : 2 ^ k < 2 ^ 32) by (apply Z.pow_lt_mono_r; lia).
  assert (Hdiv : exists c, 2 ^ 32 = c * 2 ^ k).
  { exists (2 ^ (32 - k)); rewrite <- Z.pow_add_r by lia. f_equal; lia. }
  assert (NoWrap : forall x, 0 <= x -> x + 2 ^ k - 1 < 2 ^ 32 ->
            AlignTo (2 ^ k) x = 2 ^ k * ((x + 2 ^ k - 1) / 2 ^ k)).
  { intros x Hx Hs; rewrite AlignTo_eq, to_uint32_small by lia; reflexivity. }
  assert (Wrap : 2 ^ 32 <= n + 2 ^ k - 1 -> AlignTo (2 ^ k) n = 0).
  { intros Hw; rewrite AlignTo_eq by lia.
    unfold to_uint32, uint32_modulus.
    replace ((n + 2 ^ k - 1) mod 2 ^ 32) with (n + 2 ^ k - 1 - 2 ^ 32)
      by (apply Z.mod_unique with 1; lia).
    rewrite Z.div_small by lia; lia. }
  assert (Bounds : forall x, 0 <= x ->
            (x + 2 ^ k - 1) / 2 ^ k * 2 ^ k <= x + 2 ^ k - 1 /\
            x <= (x + 2 ^ k - 1) / 2 ^ k * 2 ^ k).
  { intros x Hx.
    pose proof (Z.div_mod (x + 2 ^ k - 1) (2 ^ k) ltac:(lia)) as E.
    pose proof (Z.mod_pos_bound (x + 2 ^ k - 1) (2 ^ k) Ha) as B.
    lia. }
  split; [| split; [exact Wrap |]].
  - intros Hs; rewrite (NoWrap n) by lia.
    pose proof (Bounds n ltac:(lia)) as [B1 B2].
    split; [reflexivity |]; split; [| split; [lia |]].
    + rewrite Z.mul_comm; apply Z.mod_mul; lia.
    + intros m Hm Hnm.
      apply Z.mod_divide in Hm; [| lia]; destruct Hm as [q ->].
      rewrite (Z.mul_comm q).
      apply Z.mul_le_mono_nonneg_l; [lia |].
      apply Z.lt_succ_r, Z.div_lt_upper_bound; [lia |].
      replace (2 ^ k * Z.succ q) with (q * 2 ^ k + 2 ^ k) by ring.
      lia.
  - destruct (Z_lt_le_dec (n + 2 ^ k - 1) (2 ^ 32)) as [Hs | Hw].
    + rewrite (NoWrap n) by lia.
      pose proof (Bounds n ltac:(lia)) as [B1 B2].
      set (q := (n + 2 ^ k - 1) / 2 ^ k) in *.
      destruct Hdiv as [c Hc].
      assert (q < c) by nia.
      rewrite NoWrap by nia.
      f_equal.
      replace (2 ^ k * q + 2 ^ k - 1) with ((2 ^ k - 1) + q * 2 ^ k) by lia.
      rewrite Z.div_add, Z.div_small by lia; lia.
    + rewrite (Wrap Hw), (NoWrap 0) by lia.
      rewrite Z.div_small by lia; lia.
Qed.

Lemma AlignTo_power_of_two_witness :
  AlignTo (2 ^ 4) 33 = 48 /\ AlignTo (2 ^ 4) 4294967290 = 0.
Proof.
  destruct (AlignTo_power_of_two 4 33 ltac:(lia) ltac:(lia)) as [NoWrap _].
  destruct (AlignTo_power_of_two 4 4294967290 ltac:(lia) ltac:(lia)) as [_ [Wrap _]].
  split.
  - rewrite (proj1 (NoWrap ltac:(lia))); reflexivity.
  - apply Wrap; lia.
Defined.

(** The assertion of the template accepts the powers of two, and 0; for the
    alignment 0 every result is 0. *)
Theorem AlignTo_static_assert_accepts (alignment : Z) :
  0 <= alignment < 2 ^ 32 ->
  (AlignTo_static_assert alignment = true <->
   alignment = 0 \/ exists k, 0 <= k < 32 /\ alignment = 2 ^ k) /\
  (forall n, AlignTo 0 n = 0).
Proof.
  intros Ha; split.
  - unfold AlignTo_static_assert; rewrite Z.eqb_eq; split.
    + intros H.
      destruct (Z.eq_dec alignment 0) as [E0 | N0]; [left; exact E0 | right].
      rewrite to_uint32_small in H by lia.
      exists (Z.log2 alignment).
      pose proof (Z.log2_spec alignment ltac:(lia)) as [L1 L2].
      pose proof (Z.log2_nonneg alignment) as L0.
      assert (L32 : Z.log2 alignment < 32).
      { apply Z.log2_lt_pow2; lia. }
      split; [lia |].
      destruct (Z.eq_dec alignment (2 ^ Z.log2 alignment)) as [E | N]; [exact E |].
      exfalso.
      assert (B : Z.testbit (Z.land alignment (alignment - 1)) (Z.log2 alignment) = true).
      { assert (E : Z.log2 (alignment - 1) = Z.log2 alignment).
        { apply Z.log2_unique; lia. }
        rewrite Z.land_spec, Z.bit_log2 by lia.
        rewrite <- E, Z.bit_log2 by lia; reflexivity. }
      rewrite H, Z.bits_0 in B; discriminate.
    + intros [-> | [k [Hk ->]]]; [reflexivity |].
      assert (0 < 2 ^ k) by (apply Z.pow_pos_nonneg; lia).
      assert (2 ^ k < 2 ^ 32) by (apply Z.pow_lt_mono_r; lia).
      rewrite to_uint32_small by lia.
      replace (2 ^ k - 1) with (Z.ones k) by (rewrite Z.ones_equiv; lia).
      rewrite Z.land_ones by lia.
      apply Z.mod_same; lia.
  - intros n; unfold AlignTo.
    change (to_uint32 (Z.lnot (0 - 1))) with 0.
    apply Z.land_0_r.
Qed.

Lemma AlignTo_static_assert_accepts_witness :
  AlignTo_static_assert 0 = true /\ AlignTo_static_assert 8 = true /\
  AlignTo 0 7 = 0.
Proof.
  destruct (AlignTo_static_assert_accepts 0 ltac:(lia)) as [Zero Result].
  destruct (AlignTo_static_assert_accepts 8 ltac:(lia)) as [Eight _].
  split; [apply Zero; left; reflexivity |].
  split; [| apply Result].
  apply Eight; right; exists 3; split; [lia | reflexivity].
Defined.

(** ** Sizes that went through [AlignTo<2>] *)

(** [int32_t] to [uint32_t], [AlignTo<2>], and back to [int32_t]: the next
    even number, except at the largest [int32_t], which wraps to the
    smallest. *)
Lemma aligned_int32 (w : Z) :
  in_int32 w = true ->
  to_int32 (AlignTo 2 (to_uint32 w))
  = if w =? int32_max then int32_min else w + w mod 2.
Proof.
  unfold in_int32, int32_min, int32_max; intros H.
  apply andb_prop in H; destruct H as [Hlo Hhi].
  apply Z.leb_le in Hlo; apply Z.leb_le in Hhi.
  rewrite AlignTo_2_eq.
  unfold to_uint32, to_int32, uint32_modulus.
  rewrite Zplus_mod_idemp_l.
  pose proof (Z.div_mod w 2 ltac:(lia)) as Ew.
  pose proof (Z.mod_pos_bound w 2 ltac:(lia)) as Bw.
  destruct (Z.eqb_spec w (2 ^ 31 - 1)) as [-> | Hne]; [reflexivity |].
  destruct (Z_lt_le_dec w (-1)) as [Hneg | Hpos].
  - replace ((w + 1) mod 2 ^ 32) with (w + 1 + 2 ^ 32)
      by (apply Z.mod_unique with (-1); lia).
    pose proof (Z.div_mod (w + 1 + 2 ^ 32) 2 ltac:(lia)) as E.
    pose proof (Z.mod_pos_bound (w + 1 + 2 ^ 32) 2 ltac:(lia)) as B.
    assert (M : (w + 1 + 2 ^ 32) mod 2 = 1 - w mod 2).
    { replace (w + 1 + 2 ^ 32) with (w + 1 + 2 ^ 31 * 2) by lia.
      rewrite Z.mod_add by lia.
      replace (w + 1) with (w mod 2 + 1 + (w / 2) * 2) by lia.
      rewrite Z.mod_add by lia.
      assert (C : w mod 2 = 0 \/ w mod 2 = 1) by lia.
      destruct C as [-> | ->]; reflexivity. }
    replace ((2 * ((w + 1 + 2 ^ 32) / 2) + 2 ^ 31) mod 2 ^ 32)
      with (2 * ((w + 1 + 2 ^ 32) / 2) + 2 ^ 31 - 2 ^ 32)
      by (apply Z.mod_unique with 1; lia).
    lia.
  - destruct (Z.eq_dec w (-1)) as [-> | Hm1]; [reflexivity |].
    replace ((w + 1) mod 2 ^ 32) with (w + 1)
      by (symmetry; apply Z.mod_small; lia).
    pose proof (Z.div_mod (w + 1) 2 ltac:(lia)) as E.
    pose proof (Z.mod_pos_bound (w + 1) 2 ltac:(lia)) as B.
    assert (M : (w + 1) mod 2 = 1 - w mod 2).
    { replace (w + 1) with (w mod 2 + 1 + (w / 2) * 2) by lia.
      rewrite Z.mod_add by lia.
      assert (C : w mod 2 = 0 \/ w mod 2 = 1) by lia.
      destruct C as [-> | ->]; reflexivity. }
    replace ((2 * ((w + 1) / 2) + 2 ^ 31) mod 2 ^ 32)
      with (2 * ((w + 1) / 2) + 2 ^ 31)
      by (symmetry; apply Z.mod_small; lia).
    lia.
Qed.

Lemma aligned_int32_even (w : Z) :
  Z.even (to_int32 (AlignTo 2 (to_uint32 w))) = true.
Proof.
  pose proof (AlignTo_2_even (to_uint32 w)) as He.
  unfold to_int32, uint32_modulus.
  set (a := AlignTo 2 (to_uint32 w)) in *.
  pose proof (Z.div_mod (a + 2 ^ 31) (2 ^ 32) ltac:(lia)) as E.
  replace ((a + 2 ^ 31) mod 2 ^ 32 - 2 ^ 31)
    with (a + 2 * (- 2 ^ 31 * ((a + 2 ^ 31) / 2 ^ 32))) by lia.
  rewrite Z.even_add_mul_2; exact He.
Qed.

Section TextureSizeMore.

Variable sdk : VarjoHeaders.
Variable cfg : BuildConfig.
Variable host : Host.

(** Every size that a stereo query returns is even: per axis it is the
    truncated product of the base dimension and the multiplier, moved up to
    the next even number; a product of [INT32_MAX] comes back as
    [INT32_MIN]. *)
Theorem hooked_GetTextureSize_stereo_is_even (session : varjo_Session)
    (viewIndex : Z) (out : Z * Z) (w1 h1 : Z) :
  hooked_GetTextureSize sdk cfg host session
    (varjo_TextureSize_Type_Stereo sdk) viewIndex out = Done (w1, h1) ->
  let base :=
    original_GetTextureSize host session
      (if USE_FOVEATED_TANGENTS cfg
       then varjo_TextureSize_Type_DynamicFoveation sdk
       else varjo_TextureSize_Type_Quad sdk)
      (2 + viewIndex) out in
  let full := GetFovTangents cfg host session viewIndex in
  let focus := GetFovTangents cfg host session (2 + viewIndex) in
  Z.even w1 = true /\ Z.even h1 = true /\
  exists w h : Z,
    double_to_int32
      (int32_to_double (fst base) *
       (abs (right full - left full) / abs (right focus - left focus)))%float
      = Done w /\
    double_to_int32
      (int32_to_double (snd base) *
       (abs (top full - bottom full) / abs (top focus - bottom focus)))%float
      = Done h /\
    w1 = (if w =? int32_max then int32_min else w + w mod 2) /\
    h1 = (if h =? int32_max then int32_min else h + h mod 2).
Proof.
  intros H base full focus; subst base full focus.
  unfold hooked_GetTextureSize in H; rewrite Z.eqb_refl in H.
  unfold add_int32 in H.
  destruct (in_int32 (2 + viewIndex)); [| discriminate]; cbn [bind] in H.
  destruct (original_GetTextureSize host session _ (2 + viewIndex) out) as [w0 h0].
  cbv beta iota zeta in H; cbn [fst snd].
  apply bind_done_inv in H; destruct H as [w [Ew H]].
  apply bind_done_inv in H; destruct H as [h [Eh H]].
  injection H as <- <-.
  split; [apply aligned_int32_even |]; split; [apply aligned_int32_even |].
  exists w, h; split; [exact Ew |]; split; [exact Eh |].
  pose proof (double_to_int32_range _ _ Ew) as Rw.
  pose proof (double_to_int32_range _ _ Eh) as Rh.
  split; apply aligned_int32; unfold in_int32;
    apply andb_true_intro; split; apply Z.leb_le; lia.
Qed.

(** The sizes of a stereo query do not depend on what [*width] and
    [*height] hold on entry, for a runtime that only writes them. *)
Lemma hooked_GetTextureSize_stereo_out (session : varjo_Session)
    (viewIndex : Z) (out out' : Z * Z) :
  (forall ty i o o',
     original_GetTextureSize host session ty i o
     = original_GetTextureSize host session ty i o') ->
  hooked_GetTextureSize sdk cfg host session
    (varjo_TextureSize_Type_Stereo sdk) viewIndex out
  = hooked_GetTextureSize sdk cfg host session
      (varjo_TextureSize_Type_Stereo sdk) viewIndex out'.
Proof.
  intros Hout; unfold hooked_GetTextureSize; rewrite Z.eqb_refl.
  destruct (add_int32 2 viewIndex) as [focusIndex | f]; [| reflexivity].
  cbn [bind]; rewrite (Hout _ focusIndex out out'); reflexivity.
Qed.

Variable original_GetViewDescription : varjo_Session -> Z -> ViewDescription.t.

(** For the views 0 and 1, the size in the view description is the size
    that a stereo texture-size query gives, whatever size the runtime's own
    description holds (the runtime only writes the out-parameters of its
    texture-size entry point); the display and the eye are the runtime's.
    The call is undefined exactly when the stereo query is. For every other
    view index the runtime's description is returned as it is. *)
Theorem hooked_GetViewDescription_matches_texture_size
    (session : varjo_Session) (viewIndex : Z) :
  (forall ty i o o',
     original_GetTextureSize host session ty i o
     = original_GetTextureSize host session ty i o') ->
  (viewIndex = 0 \/ viewIndex = 1 ->
   forall out : Z * Z,
     hooked_GetViewDescription sdk cfg host original_GetViewDescription
       session viewIndex
     = match hooked_GetTextureSize sdk cfg host session
               (varjo_TextureSize_Type_Stereo sdk) viewIndex out with
       | Done (w, h) =>
           Done {| ViewDescription.width := w;
                   ViewDescription.height := h;
                   ViewDescription.display :=
                     ViewDescription.display
                       (original_GetViewDescription session viewIndex);
                   ViewDescription.eye :=
                     ViewDescription.eye
                       (original_GetViewDescription session viewIndex) |}
       | Undefined f => Undefined f
       end) /\
  (viewIndex <> 0 -> viewIndex <> 1 ->
   hooked_GetViewDescription sdk cfg host original_GetViewDescription
     session viewIndex
   = Done (original_GetViewDescription session viewIndex)).
Proof.
  intros Hout; split.
  - intros Hview out; unfold hooked_GetViewDescription; cbv zeta.
    replace ((viewIndex =? 0) || (viewIndex =? 1)) with true
      by (destruct Hview as [-> | ->]; reflexivity).
    rewrite (hooked_GetTextureSize_stereo_out session viewIndex _ out Hout).
    destruct (hooked_GetTextureSize sdk cfg host session
                (varjo_TextureSize_Type_Stereo sdk) viewIndex out)
      as [[w h] | f]; reflexivity.
  - intros H0 H1; unfold hooked_GetViewDescription; cbv zeta.
    destruct (Z.eqb_spec viewIndex 0) as [| _]; [contradiction |].
    destruct (Z.eqb_spec viewIndex 1) as [| _]; [contradiction |].
    reflexivity.
Qed.

End TextureSizeMore.

Lemma hooked_GetTextureSize_stereo_is_even_witness :
  hooked_GetTextureSize scenario_headers shipped_config
    (scenario_host unit_aligned (symmetric_tangents 1.75)
       (symmetric_tangents 1) (573, 571))
    0 (varjo_TextureSize_Type_Stereo scenario_headers) 0 (0, 0)
  = Done (1002, 1000) /\
  Z.even 1002 = true /\ Z.even 1000 = true.
Proof.
  assert (Run : hooked_GetTextureSize scenario_headers shipped_config
                  (scenario_host unit_aligned (symmetric_tangents 1.75)
                     (symmetric_tangents 1) (573, 571))
                  0 (varjo_TextureSize_Type_Stereo scenario_headers) 0 (0, 0)
                = Done (1002, 1000)) by (vm_compute; reflexivity).
  split; [exact Run |].
  destruct (hooked_GetTextureSize_stereo_is_even _ _ _ _ _ _ _ _ Run)
    as [Hw [Hh _]].
  split; assumption.
Defined.

Lemma hooked_GetViewDescription_matches_texture_size_witness :
  hooked_GetViewDescription scenario_headers shipped_config
    (scenario_host unit_aligned (symmetric_tangents 1.75)
       (symmetric_tangents 1) (573, 571))
    (fun _ i => {| ViewDescription.width := 100; ViewDescription.height := 50;
                   ViewDescription.display := 4; ViewDescription.eye := i |})
    0 1
  = Done {| ViewDescription.width := 1002; ViewDescription.height := 1000;
            ViewDescription.display := 4; ViewDescription.eye := 1 |}.
Proof.
  destruct (hooked_GetViewDescription_matches_texture_size
              scenario_headers shipped_config
              (scenario_host unit_aligned (symmetric_tangents 1.75)
                 (symmetric_tangents 1) (573, 571))
              (fun _ i => {| ViewDescription.width := 100;
                             ViewDescription.height := 50;
                             ViewDescription.display := 4;
                             ViewDescription.eye := i |})
              0 1 ltac:(reflexivity)) as [Stereo _].
  rewrite (Stereo (or_intror eq_refl) (0, 0)).
  vm_compute; reflexivity.
Defined.

(** ** The submission-layer patcher: flags, view counts and whole layers *)

Lemma load_length {A : Type} (cells : list A) (i : Z) (a : A) :
  load cells i = Done a -> 0 <= i < Z.of_nat (length cells).
Proof.
  intros H; apply load_done in H; destruct H as [Hi Hn].
  assert ((Z.to_nat i < length cells)%nat) by (apply nth_error_Some; congruence).
  lia.
Qed.

Lemma with_flags_with_flags (p : varjo_LayerMultiProj) (f g : Z) :
  with_flags (with_flags p f) g = with_flags p g.
Proof. reflexivity. Qed.

Section PatcherMore.

Variable sdk : VarjoHeaders.
Variable cfg : BuildConfig.
Variable host : Host.
Variable session : varjo_Session.

Lemma patched_flags_twice (f : Z) (b1 b2 : bool) :
  patched_flags sdk cfg (patched_flags sdk cfg f b1) b2
  = patched_flags sdk cfg f (b1 || b2).
Proof.
  unfold patched_flags; destruct (USE_FOVEATED_TANGENTS cfg); [| reflexivity].
  destruct b1, b2; cbn [andb orb]; try reflexivity.
  rewrite <- Z.lor_assoc, Z.lor_diag; reflexivity.
Qed.

Lemma has_sentinel_ext (arr arr' : list varjo_LayerMultiProjView) (ks : list Z) :
  (forall k, In k ks -> load arr' k = load arr k) ->
  has_sentinel arr' ks = has_sentinel arr ks.
Proof.
  intros H; unfold has_sentinel.
  induction ks as [| k ks IH]; [reflexivity |].
  cbn [existsb]; rewrite (H k (or_introl eq_refl)).
  rewrite IH by (intros j Hj; apply H; right; exact Hj); reflexivity.
Qed.

(** The tracing loop gets past the indices it can read. *)
Lemma tracing_loop_done (st : frame_locals) (ptr : views_ptr) (ks : list Z) (u : unit) :
  for_each (fun j (u : unit) => view_at st ptr j ;;; Done u) ks tt = Done u ->
  forall j, In j ks -> exists v, view_at st ptr j = Done v.
Proof.
  induction ks as [| k ks IH]; intros H j Hj; [destruct Hj |].
  cbn [for_each] in H.
  apply bind_done_inv in H; destruct H as [[] [Hk H]].
  apply bind_done_inv in Hk; destruct Hk as [v [Hv _]].
  destruct Hj as [<- | Hj]; [exists v; exact Hv | exact (IH H j Hj)].
Qed.

(** One iteration of the focus loop: the views and the flags. *)
Lemma patch_focus_view_flags (k : Z) (nl : list nat)
    (pa : list varjo_LayerMultiProj) (p : varjo_LayerMultiProj)
    (va : list (list varjo_LayerMultiProjView))
    (arr : list varjo_LayerMultiProjView) (st' : frame_locals) :
  patch_focus_view sdk cfg host session k
    (Build_Locals nl (pa ++ [p]) (va ++ [arr])) = Done st' ->
  exists arr',
    st' = Build_Locals nl
            (pa ++ [with_flags p
                      (patched_flags sdk cfg (flags (header p))
                         (has_sentinel arr [k]))])
            (va ++ [arr']) /\
    focus_views_patched cfg host session [k] arr arr'.
Proof.
  unfold patch_focus_view; cbn [viewsAllocator projAllocator newLayersPtr].
  rewrite back_snoc; cbn [bind].
  unfold has_sentinel; cbn [existsb].
  destruct (load arr k) as [focusView | f] eqn:Ek; [| discriminate]; cbn [bind].
  rewrite rem_int32_two; cbn [bind].
  destruct (load arr (Z.rem k 2)) as [referenceView | f] eqn:Er;
    [| discriminate]; cbn [bind].
  fold (sentinel focusView); rewrite orb_false_r.
  unfold patched_flags.
  destruct (sentinel focusView) eqn:Es.
  - destruct (carve_focus_view cfg host session k focusView referenceView)
      as [focusView' | f] eqn:Ec; [| discriminate]; cbn [bind].
    destruct (store arr k focusView') as [arr' | f] eqn:Est; [| discriminate].
    cbn [bind]; rewrite set_back_snoc; cbn [bind].
    destruct (store_done _ _ _ _ Est) as [Hlen [Hget Hother]].
    assert (P : focus_views_patched cfg host session [k] arr arr').
    { split; [exact Hlen |]; split.
      - intros j Hj; apply Hother; intros ->; apply Hj; left; reflexivity.
      - intros k' [<- | []]; exists focusView, referenceView.
        rewrite Es; repeat split; try assumption.
        exists focusView'; split; assumption. }
    destruct (USE_FOVEATED_TANGENTS cfg); cbn [andb].
    + rewrite back_snoc; cbn [bind]; rewrite set_back_snoc; cbn [bind].
      intros [= <-]; exists arr'; split; [reflexivity | exact P].
    + cbn [bind]; intros [= <-].
      exists arr'; rewrite with_flags_same; split; [reflexivity | exact P].
  - rewrite andb_false_r; intros [= <-]; exists arr.
    rewrite with_flags_same; split; [reflexivity |].
    split; [reflexivity |]; split; [reflexivity |].
    intros k' [<- | []]; exists focusView, referenceView.
    rewrite Es; repeat split; assumption.
Qed.

Lemma has_sentinel_cons (arr : list varjo_LayerMultiProjView) (k : Z) (ks : list Z) :
  has_sentinel arr (k :: ks) = has_sentinel arr [k] || has_sentinel arr ks.
Proof. unfold has_sentinel; cbn [existsb]; rewrite orb_false_r; reflexivity. Qed.

Lemma patch_focus_views_flag (ks : list Z) :
  NoDup ks -> (forall k, In k ks -> 2 <= k) ->
  forall (nl : list nat) (pa : list varjo_LayerMultiProj)
    (p : varjo_LayerMultiProj) (va : list (list varjo_LayerMultiProjView))
    (arr : list varjo_LayerMultiProjView) (st' : frame_locals),
  for_each (patch_focus_view sdk cfg host session) ks
    (Build_Locals nl (pa ++ [p]) (va ++ [arr])) = Done st' ->
  projAllocator st'
  = pa ++ [with_flags p
             (patched_flags sdk cfg (flags (header p)) (has_sentinel arr ks))].
Proof.
  induction ks as [| k ks IH]; intros Hnd Hge nl pa p va arr st' H.
  - cbn [for_each] in H; injection H as <-; cbn [projAllocator].
    unfold has_sentinel, patched_flags; cbn [existsb].
    rewrite andb_false_r, with_flags_same; reflexivity.
  - cbn [for_each] in H.
    apply bind_done_inv in H; destruct H as [st1 [Hstep Hrest]].
    apply patch_focus_view_flags in Hstep.
    destruct Hstep as [arr1 [-> [_ [Hout1 _]]]].
    inversion Hnd as [| k0 ks0 Hnotin Hnd']; subst k0 ks0.
    assert (Hge' : forall j, In j ks -> 2 <= j)
      by (intros; apply Hge; right; assumption).
    rewrite (IH Hnd' Hge' _ _ _ _ _ _ Hrest).
    rewrite with_flags_with_flags.
    unfold with_flags at 2; cbn [header flags].
    rewrite patched_flags_twice, (has_sentinel_cons arr k ks).
    rewrite (has_sentinel_ext arr arr1 ks)
      by (intros j Hj; apply Hout1; intros [<- | []]; contradiction).
    reflexivity.
Qed.

(** The focus loop over distinct indices, all at least 2: the flag is set
    when one of the views met is a sentinel. *)
Lemma patch_focus_views_flags (ks : list Z) :
  NoDup ks -> (forall k, In k ks -> 2 <= k) ->
  forall (nl : list nat) (pa : list varjo_LayerMultiProj)
    (p : varjo_LayerMultiProj) (va : list (list varjo_LayerMultiProjView))
    (arr : list varjo_LayerMultiProjView) (st' : frame_locals),
  for_each (patch_focus_view sdk cfg host session) ks
    (Build_Locals nl (pa ++ [p]) (va ++ [arr])) = Done st' ->
  exists arr',
    st' = Build_Locals nl
            (pa ++ [with_flags p
                      (patched_flags sdk cfg (flags (header p))
                         (has_sentinel arr ks))])
            (va ++ [arr']) /\
    focus_views_patched cfg host session ks arr arr'.
Proof.
  intros Hnd Hge nl pa p va arr st' H.
  destruct (patch_focus_views_snoc sdk cfg host session ks Hnd Hge _ _ _ _ _ _ H)
    as [arr' [newFlags [E P]]].
  pose proof (patch_focus_views_flag ks Hnd Hge _ _ _ _ _ _ H) as F.
  exists arr'; split; [| exact P].
  rewrite E in F |- *; cbn [projAllocator] in F; rewrite F; reflexivity.
Qed.

(** The body of the layer loop for a multi-projection layer, in full. *)
Lemma copy_and_patch_forwards (proj : varjo_LayerMultiProj)
    (cells : list varjo_LayerMultiProjView)
    (copies : list (varjo_LayerMultiProj * list varjo_LayerMultiProjView))
    (st' : frame_locals) :
  views proj = Cells cells ->
  copy_and_patch sdk cfg host session proj (locals_after copies) = Done st' ->
  exists arr',
    st' = locals_after
            (copies ++
             [(with_flags proj
                 (patched_flags sdk cfg (flags (header proj))
                    (has_sentinel cells (for_range 2 (viewCount proj)))),
               arr')]) /\
    viewCount proj <> 0 /\
    viewCount proj <= 4 /\
    viewCount proj <= Z.of_nat (length cells) /\
    2 <= Z.of_nat (length cells) /\
    layer_patched cfg host session proj cells arr'.
Proof.
  intros Hcells; unfold copy_and_patch; rewrite Hcells; cbn [view_at].
  intros H.
  apply bind_done_inv in H; destruct H as [[] [Htrace H]].
  apply bind_done_inv in H; destruct H as [v0 [E0 H]].
  apply bind_done_inv in H; destruct H as [v1 [E1 H]].
  apply bind_done_inv in H; destruct H as [i2 [Ei2 H]].
  apply bind_done_inv in H; destruct H as [v2 [E2 H]].
  apply bind_done_inv in H; destruct H as [i3 [Ei3 H]].
  apply bind_done_inv in H; destruct H as [v3 [E3 H]].
  rewrite back_snoc in H; cbn [bind] in H.
  rewrite set_back_snoc in H; cbn [bind] in H.
  unfold for_loop in H, Htrace.
  replace (length (projAllocator (locals_after copies) ++
                   [with_views proj (InViewsAllocator
                      (length (viewsAllocator (locals_after copies) ++
                               [[v0; v1; v2; v3]]) - 1))]) - 1)%nat
    with (length (projAllocator (locals_after copies))) in H
    by (rewrite length_app, Nat.add_1_r; simpl; lia).
  replace (length (viewsAllocator (locals_after copies) ++ [[v0; v1; v2; v3]]) - 1)%nat
    with (length (viewsAllocator (locals_after copies))) in H
    by (rewrite length_app, Nat.add_1_r; simpl; lia).
  apply patch_focus_views_flags in H;
    [| apply for_range_NoDup | intros k Hk; apply for_range_In in Hk; lia].
  destruct H as [arr' [-> P]].
  unfold rem_int32 in Ei2, Ei3.
  destruct (Z.eqb_spec (viewCount proj) 0) as [| Hnz]; [discriminate |].
  injection Ei2 as <-; injection Ei3 as <-.
  pose proof P as [Hlen [Hout Hin]].
  assert (Hle4 : viewCount proj <= 4).
  { destruct (Z_le_gt_dec (viewCount proj) 4) as [| Hgt]; [assumption | exfalso].
    destruct (Hin 4) as [fv [_ [Hf _]]]; [apply for_range_In; lia |].
    discriminate Hf. }
  assert (Hcount : viewCount proj <= Z.of_nat (length cells)).
  { destruct (Z_le_gt_dec (viewCount proj) (Z.of_nat (length cells)))
      as [| Hgt]; [assumption | exfalso].
    destruct (tracing_loop_done (locals_after copies) (Cells cells) _ _ Htrace
                (Z.of_nat (length cells)))
      as [v Hv]; [apply for_range_In; lia |].
    cbn [view_at] in Hv; apply load_length in Hv; lia. }
  assert (Htwo : 2 <= Z.of_nat (length cells))
    by (apply load_length in E1; lia).
  assert (Hs : has_sentinel [v0; v1; v2; v3] (for_range 2 (viewCount proj))
               = has_sentinel cells (for_range 2 (viewCount proj))).
  { apply has_sentinel_ext.
    intros k Hk; apply for_range_In in Hk.
    assert (Hcase : k = 2 \/ k = 3) by lia.
    destruct Hcase as [-> | ->].
    - rewrite Z.rem_small in E2 by lia. rewrite E2; reflexivity.
    - rewrite Z.rem_small in E3 by lia. rewrite E3; reflexivity. }
  exists arr'; split; [| repeat split; try assumption].
  - rewrite <- locals_after_snoc.
    cbn [with_views header flags]; rewrite Hs; reflexivity.
  - exists v0, v1, v2, v3.
    exact (conj E0 (conj E1 (conj E2 (conj E3 P)))).
Qed.

(** The layer loop, started after [before] has been visited. *)
Lemma layer_loop_forwards (info : varjo_SubmitInfoLayers) (rest : list layer_object) :
  Forall caller_owned rest ->
  forall (before : list layer_object)
    (copies : list (varjo_LayerMultiProj * list varjo_LayerMultiProjView))
    (st' : frame_locals),
  layers info = before ++ rest ->
  for_each (visit_layer sdk cfg host session info)
    (map Z.of_nat (seq (length before) (length rest))) (locals_after copies)
    = Done st' ->
  exists copies',
    st' = locals_after (copies ++ copies') /\
    Forall2 (forwarded_layer sdk cfg host session)
      (filter (is_multi_proj sdk) rest) (map resolved copies').
Proof.
  induction rest as [| l rest IH]; intros Hown before copies st' Hlayers.
  - simpl; intros [= <-]; exists []; rewrite app_nil_r; split;
      [reflexivity | constructor].
  - cbn [length seq map for_each]; intros H.
    apply bind_done_inv in H; destruct H as [st1 [Hvisit Hrest]].
    unfold visit_layer in Hvisit.
    assert (Hload : load (layers info) (Z.of_nat (length before)) = Done l).
    { apply load_done; split; [lia |].
      rewrite Nat2Z.id, Hlayers, nth_error_app2, Nat.sub_diag by lia.
      reflexivity. }
    rewrite Hload in Hvisit; cbn [bind] in Hvisit.
    inversion Hown as [| l0 rest0 Hl Hown']; subst l0 rest0.
    assert (Hlayers' : layers info = (before ++ [l]) ++ rest)
      by (rewrite <- app_assoc; exact Hlayers).
    replace (S (length before)) with (length (before ++ [l])) in Hrest
      by (rewrite length_app, Nat.add_1_r; reflexivity).
    unfold layer_body in Hvisit; cbn [filter]; fold (is_multi_proj sdk l) in *.
    destruct (is_multi_proj sdk l) eqn:Em.
    + destruct l as [proj | hdr]; [| discriminate].
      destruct Hl as [cells Hcells].
      destruct (copy_and_patch_forwards proj cells copies st1 Hcells Hvisit)
        as [arr' [-> [Hnz [Hle4 [Hcount [Htwo Hpatched]]]]]].
      destruct (IH Hown' _ _ _ Hlayers' Hrest) as [copies' [-> Hall]].
      eexists (_ :: copies'); split.
      * rewrite <- app_assoc; reflexivity.
      * cbn [map]; constructor; [| exact Hall].
        exists proj, cells, arr'.
        split; [reflexivity |]; split; [exact Hcells |].
        split; [exact Hnz |]; split; [exact Hle4 |].
        split; [exact Hcount |]; split; [exact Htwo |].
        split; [reflexivity | exact Hpatched].
    + injection Hvisit as <-.
      exact (IH Hown' _ _ _ Hlayers' Hrest).
Qed.

(** What the runtime is called with, in full. *)
Lemma hooked_EndFrameWithLayers_forwards
    (submitInfo newSubmitInfo : varjo_SubmitInfoLayers) :
  well_formed_submission submitInfo ->
  hooked_EndFrameWithLayers sdk cfg host session submitInfo = Done newSubmitInfo ->
  submitFrameNumber newSubmitInfo = submitFrameNumber submitInfo /\
  layerCount newSubmitInfo = layerCount submitInfo /\
  Forall2 (forwarded_layer sdk cfg host session)
    (filter (is_multi_proj sdk) (layers submitInfo)) (layers newSubmitInfo).
Proof.
  intros [Hcount Hown]; unfold hooked_EndFrameWithLayers.
  destruct (layerCount submitInfo <? 0); [discriminate |].
  intros H; apply bind_done_inv in H; destruct H as [st [Hloop H]].
  apply bind_done_inv in H; destruct H as [ls [Hls H]].
  injection H as <-; cbn [submitFrameNumber layerCount layers].
  split; [reflexivity |]; split; [reflexivity |].
  unfold for_loop in Hloop; rewrite Hcount, for_range_of_length in Hloop.
  destruct (layer_loop_forwards submitInfo (layers submitInfo) Hown [] [] st
              eq_refl Hloop) as [copies [-> Hall]].
  cbn [app locals_after newLayersPtr] in Hls.
  unfold locals_after in Hls.
  rewrite (pointees_laid_out _ copies []) in Hls.
  injection Hls as <-; exact Hall.
Qed.

End PatcherMore.

(** ** The submission-layer patcher: further properties *)

Lemma load_ext {A : Type} (a b : list A) :
  length a = length b -> (forall j, load a j = load b j) -> a = b.
Proof.
  intros Hlen H; apply nth_error_ext; intros n.
  specialize (H (Z.of_nat n)); unfold load in H.
  destruct (Z.ltb_spec (Z.of_nat n) 0) as [| _]; [lia |].
  rewrite Nat2Z.id in H.
  destruct (nth_error a n) as [x |] eqn:Ea, (nth_error b n) as [y |] eqn:Eb;
    try congruence.
Qed.

Lemma filter_all {A : Type} (f : A -> bool) (l : list A) :
  length (filter f l) = length l <-> Forall (fun a => f a = true) l.
Proof.
  induction l as [| a l IH]; cbn [filter length].
  - split; [constructor | reflexivity].
  - pose proof (filter_length_le f l) as Hle.
    destruct (f a) eqn:E; cbn [length]; split.
    + intros H; constructor; [exact E | apply IH; lia].
    + intros H; inversion H; subst. f_equal; apply IH; assumption.
    + intros H; lia.
    + intros H; inversion H; congruence.
Qed.

Lemma Forall2_map_eq {A B : Type} (f : A -> B) (l : list A) (l' : list B) :
  Forall2 (fun a b => b = f a) l l' -> l' = map f l.
Proof.
  induction 1 as [| a b l l' Hab _ IH]; [reflexivity |].
  cbn [map]; rewrite Hab, IH; reflexivity.
Qed.

Lemma Forall2_left {A B : Type} (P : A -> Prop) (l : list A) (l' : list B) :
  Forall2 (fun a _ => P a) l l' -> Forall P l.
Proof. induction 1; constructor; assumption. Qed.

Lemma Forall_filter {A : Type} (f : A -> bool) (P : A -> Prop) (l : list A) :
  Forall P (filter f l) -> Forall (fun a => f a = true -> P a) l.
Proof.
  induction l as [| a l IH]; cbn [filter]; [constructor |].
  destruct (f a) eqn:E; intros H.
  - inversion H; subst; constructor; [intros _; assumption | apply IH; assumption].
  - constructor; [intros; congruence | apply IH; assumption].
Qed.

Lemma has_sentinel_true (cells : list varjo_LayerMultiProjView) (lo hi : Z) :
  has_sentinel cells (for_range lo hi) = true <->
  exists k v, lo <= k < hi /\ load cells k = Done v /\ sentinel v = true.
Proof.
  unfold has_sentinel; rewrite existsb_exists; split.
  - intros [k [Hk Hs]]; apply for_range_In in Hk.
    destruct (load cells k) as [v | f] eqn:E; [| discriminate].
    exists k, v; auto.
  - intros [k [v [Hk [Hv Hs]]]]; exists k; split; [apply for_range_In; exact Hk |].
    rewrite Hv; exact Hs.
Qed.

Section PatcherProperties.

Variable sdk : VarjoHeaders.
Variable cfg : BuildConfig.
Variable host : Host.
Variable session : varjo_Session.

(** A carved view has an even width: it is not a sentinel. *)
Lemma carved_view_is_placed (k : Z)
    (focusView referenceView focusView' : varjo_LayerMultiProjView) :
  carve_focus_view cfg host session k focusView referenceView = Done focusView' ->
  sentinel focusView' = false.
Proof.
  intros H.
  destruct (carve_focus_view_done cfg host session _ _ _ _ H)
    as [dx [w [dy [h [_ [_ [_ [_ [_ [_ ->]]]]]]]]]].
  unfold sentinel; cbn [viewport width height].
  pose proof (aligned_int32_even w) as He.
  destruct (Z.eqb_spec (to_int32 (AlignTo 2 (to_uint32 w))) 1) as [E | _];
    [| reflexivity].
  rewrite E in He; discriminate He.
Qed.

(** The runtime is handed the caller's frame number and layer count, and a
    pointer list that holds the layers of type [varjo_LayerMultiProjType],
    in the order of the submission, each with the type, the space and the
    view count it was submitted with. The count agrees with the list exactly
    when every submitted layer is of that type. *)
Theorem forwarded_layers_are_the_multi_proj_layers
    (submitInfo newSubmitInfo : varjo_SubmitInfoLayers) :
  well_formed_submission submitInfo ->
  hooked_EndFrameWithLayers sdk cfg host session submitInfo = Done newSubmitInfo ->
  submitFrameNumber newSubmitInfo = submitFrameNumber submitInfo /\
  layerCount newSubmitInfo = layerCount submitInfo /\
  Forall2
    (fun l l' =>
       exists proj proj',
         l = MultiProjObject proj /\ l' = MultiProjObject proj' /\
         type (header proj') = type (header proj) /\
         space proj' = space proj /\
         viewCount proj' = viewCount proj)
    (filter (is_multi_proj sdk) (layers submitInfo)) (layers newSubmitInfo) /\
  (layerCount newSubmitInfo = Z.of_nat (length (layers newSubmitInfo)) <->
   Forall (fun l => is_multi_proj sdk l = true) (layers submitInfo)).
Proof.
  intros Hwf Hdone.
  destruct (hooked_EndFrameWithLayers_forwards sdk cfg host session _ _ Hwf Hdone)
    as [Hframe [Hcount Hall]].
  split; [exact Hframe |]; split; [exact Hcount |]; split.
  - revert Hall; apply Forall2_impl.
    intros l l' [proj [cells [arr' [-> [_ [_ [_ [_ [_ [-> _]]]]]]]]]].
    eexists; eexists; split; [reflexivity |]; split; [reflexivity |].
    repeat split; reflexivity.
  - rewrite <- (Forall2_length Hall), Hcount, (proj1 Hwf), <- filter_all.
    split; intros H; [apply Nat2Z.inj in H; congruence | rewrite H; reflexivity].
Qed.

(** The view array of a forwarded layer always holds four views. The views
    0 and 1 are the submitted ones; a slot at or past [viewCount] repeats the
    submitted view [k % viewCount]; a focus view below [viewCount] keeps its
    extension pointer and its view matrix, patched or not. *)
Theorem forwarded_views_are_copies
    (submitInfo newSubmitInfo : varjo_SubmitInfoLayers) :
  well_formed_submission submitInfo ->
  hooked_EndFrameWithLayers sdk cfg host session submitInfo = Done newSubmitInfo ->
  Forall2
    (fun l l' =>
       exists proj cells proj' arr',
         l = MultiProjObject proj /\ views proj = Cells cells /\
         l' = MultiProjObject proj' /\ views proj' = Cells arr' /\
         length arr' = 4%nat /\
         load arr' 0 = load cells 0 /\
         load arr' 1 = load cells 1 /\
         (forall k, 2 <= k < 4 -> viewCount proj <= k ->
            load arr' k = load cells (Z.rem k (viewCount proj))) /\
         (forall k, 2 <= k < viewCount proj ->
            exists v v',
              load cells k = Done v /\ load arr' k = Done v' /\
              extension v' = extension v /\ view v' = view v))
    (filter (is_multi_proj sdk) (layers submitInfo)) (layers newSubmitInfo).
Proof.
  intros Hwf Hdone.
  destruct (hooked_EndFrameWithLayers_forwards sdk cfg host session _ _ Hwf Hdone)
    as [_ [_ Hall]].
  revert Hall; apply Forall2_impl.
  intros l l' [proj [cells [arr' [-> [Hc [Hnz [Hle4 [Hcount [Htwo [-> Hp]]]]]]]]]].
  exists proj, cells; eexists; exists arr'.
  split; [reflexivity |]; split; [exact Hc |].
  split; [reflexivity |]; split; [reflexivity |].
  pose proof Hp as [v0 [v1 [v2 [v3 [E0 [E1 [E2 [E3 [Hlen [Hout Hin]]]]]]]]]].
  split; [exact Hlen |].
  split; [rewrite Hout by (rewrite for_range_In; lia); rewrite E0; reflexivity |].
  split; [rewrite Hout by (rewrite for_range_In; lia); rewrite E1; reflexivity |].
  split.
  - intros k Hk Hpast.
    rewrite Hout by (rewrite for_range_In; lia).
    assert (Hcase : k = 2 \/ k = 3) by lia.
    destruct Hcase as [-> | ->]; [rewrite E2 | rewrite E3]; reflexivity.
  - intros k Hk.
    destruct (layer_patched_focus cfg host session _ _ _ k Hp Hk)
      as [fv [rv [Hf [_ Hres]]]].
    exists fv.
    destruct (sentinel fv).
    + destruct Hres as [fv' [Hcarve Hl]]; exists fv'.
      destruct (carve_focus_view_done cfg host session _ _ _ _ Hcarve)
        as [dx [w [dy [h [_ [_ [_ [_ [_ [_ E]]]]]]]]]].
      rewrite E at 2 3; repeat split; assumption.
    + exists fv; repeat split; assumption.
Qed.

(** The flags of a forwarded layer: [varjo_LayerFlag_Foveated] is or-ed in
    when [USE_FOVEATED_TANGENTS] is set and one of the submitted focus views
    is a sentinel; otherwise the flags are the submitted ones. *)
Theorem forwarded_flags
    (submitInfo newSubmitInfo : varjo_SubmitInfoLayers) :
  well_formed_submission submitInfo ->
  hooked_EndFrameWithLayers sdk cfg host session submitInfo = Done newSubmitInfo ->
  Forall2
    (fun l l' =>
       exists proj cells proj',
         l = MultiProjObject proj /\ views proj = Cells cells /\
         l' = MultiProjObject proj' /\
         (USE_FOVEATED_TANGENTS cfg = true ->
          (exists k v, 2 <= k < viewCount proj /\
                       load cells k = Done v /\ sentinel v = true) ->
          flags (header proj')
          = Z.lor (flags (header proj)) (varjo_LayerFlag_Foveated sdk)) /\
         (USE_FOVEATED_TANGENTS cfg = false \/
          (forall k v, 2 <= k < viewCount proj ->
                       load cells k = Done v -> sentinel v = false) ->
          flags (header proj') = flags (header proj)))
    (filter (is_multi_proj sdk) (layers submitInfo)) (layers newSubmitInfo).
Proof.
  intros Hwf Hdone.
  destruct (hooked_EndFrameWithLayers_forwards sdk cfg host session _ _ Hwf Hdone)
    as [_ [_ Hall]].
  revert Hall; apply Forall2_impl.
  intros l l' [proj [cells [arr' [-> [Hc [_ [_ [_ [_ [-> _]]]]]]]]]].
  exists proj, cells; eexists.
  split; [reflexivity |]; split; [exact Hc |]; split; [reflexivity |].
  cbn [with_views with_flags header flags]; unfold patched_flags; split.
  - intros -> Hex; apply has_sentinel_true in Hex; rewrite Hex; reflexivity.
  - intros [-> | Hnone]; [reflexivity |].
    destruct (has_sentinel cells (for_range 2 (viewCount proj))) eqn:E;
      [| rewrite andb_false_r; reflexivity].
    apply has_sentinel_true in E; destruct E as [k [v [Hk [Hv Hs]]]].
    rewrite (Hnone k v Hk Hv) in Hs; discriminate.
Qed.

(** No focus view reaches the runtime with the 1 x 1 viewport: a sentinel
    is replaced by a view of even width, and the other focus views are not
    sentinels to begin with. *)
Theorem forwarded_focus_views_are_placed
    (submitInfo newSubmitInfo : varjo_SubmitInfoLayers) :
  well_formed_submission submitInfo ->
  hooked_EndFrameWithLayers sdk cfg host session submitInfo = Done newSubmitInfo ->
  Forall2
    (fun l l' =>
       exists proj proj' arr',
         l = MultiProjObject proj /\
         l' = MultiProjObject proj' /\ views proj' = Cells arr' /\
         viewCount proj' = viewCount proj /\
         forall k, 2 <= k < viewCount proj' ->
           exists v', load arr' k = Done v' /\ sentinel v' = false)
    (filter (is_multi_proj sdk) (layers submitInfo)) (layers newSubmitInfo).
Proof.
  intros Hwf Hdone.
  destruct (hooked_EndFrameWithLayers_forwards sdk cfg host session _ _ Hwf Hdone)
    as [_ [_ Hall]].
  revert Hall; apply Forall2_impl.
  intros l l' [proj [cells [arr' [-> [Hc [_ [_ [_ [_ [-> Hp]]]]]]]]]].
  exists proj; eexists; exists arr'.
  split; [reflexivity |]; split; [reflexivity |]; split; [reflexivity |].
  split; [reflexivity |].
  cbn [with_views with_flags viewCount]; intros k Hk.
  destruct (layer_patched_focus cfg host session _ _ _ k Hp Hk)
    as [fv [rv [Hf [_ Hres]]]].
  destruct (sentinel fv) eqn:Es.
  - destruct Hres as [fv' [Hcarve Hl]]; exists fv'; split; [exact Hl |].
    exact (carved_view_is_placed _ _ _ _ Hcarve).
  - exists fv; split; assumption.
Qed.

(** The hook gets through a submission only if the count is not negative
    and every object whose header has the type [varjo_LayerMultiProjType] is
    a multi-projection layer with a view count that is not 0 and at most 4
    (the size of the copy), and a view array of at least two views and at
    least [viewCount] views. *)
Theorem forwarded_only_if_the_views_fit
    (submitInfo newSubmitInfo : varjo_SubmitInfoLayers) :
  well_formed_submission submitInfo ->
  hooked_EndFrameWithLayers sdk cfg host session submitInfo = Done newSubmitInfo ->
  0 <= layerCount submitInfo /\
  Forall
    (fun l =>
       is_multi_proj sdk l = true ->
       exists proj cells,
         l = MultiProjObject proj /\ views proj = Cells cells /\
         viewCount proj <> 0 /\ viewCount proj <= 4 /\
         viewCount proj <= Z.of_nat (length cells) /\
         2 <= Z.of_nat (length cells))
    (layers submitInfo).
Proof.
  intros Hwf Hdone.
  destruct (hooked_EndFrameWithLayers_forwards sdk cfg host session _ _ Hwf Hdone)
    as [_ [_ Hall]].
  split; [rewrite (proj1 Hwf); lia |].
  apply Forall_filter.
  apply (Forall2_left _ _ (layers newSubmitInfo)).
  revert Hall; apply Forall2_impl.
  intros l l' [proj [cells [arr' [-> [Hc [Hnz [Hle4 [Hcount [Htwo _]]]]]]]]].
  exists proj, cells; repeat split; assumption.
Qed.

End PatcherProperties.

Lemma filter_true {A : Type} (f : A -> bool) (l : list A) :
  Forall (fun a => f a = true) l -> filter f l = l.
Proof.
  induction 1 as [| a l Ha _ IH]; [reflexivity |].
  cbn [filter]; rewrite Ha, IH; reflexivity.
Qed.

Lemma Forall2_with_left {A B : Type} (P : A -> Prop) (R : A -> B -> Prop)
    (l : list A) (l' : list B) :
  Forall P l -> Forall2 R l l' -> Forall2 (fun a b => P a /\ R a b) l l'.
Proof.
  intros HP HR; induction HR as [| a b l l' Hab _ IH]; [constructor |].
  inversion HP; subst; constructor; [split; assumption | apply IH; assumption].
Qed.

Lemma for_each_ext {S : Type} (body body' : Z -> S -> result S) (ks : list Z) (s : S) :
  (forall k s, body k s = body' k s) ->
  for_each body ks s = for_each body' ks s.
Proof.
  intros H; revert s; induction ks as [| k ks IH]; intros s; [reflexivity |].
  cbn [for_each]; rewrite H.
  destruct (body' k s) as [s' | f]; [cbn [bind]; apply IH | reflexivity].
Qed.

Section PassThrough.

Variable sdk : VarjoHeaders.
Variable cfg : BuildConfig.
Variable host : Host.
Variable session : varjo_Session.

(** A submission of layers with two views each, the two full views, is
    forwarded whatever the runtime answers: nothing is asked of it. Every
    layer reaches the runtime with its header, flags included, and with the
    view array [v0; v1; v0; v1]. *)
Theorem two_view_layers_pass_through (submitInfo : varjo_SubmitInfoLayers) :
  layerCount submitInfo = Z.of_nat (length (layers submitInfo)) ->
  Forall
    (fun l =>
       exists proj v0 v1,
         l = MultiProjObject proj /\
         type (header proj) = varjo_LayerMultiProjType sdk /\
         viewCount proj = 2 /\ views proj = Cells [v0; v1])
    (layers submitInfo) ->
  exists forwarded,
    hooked_EndFrameWithLayers sdk cfg host session submitInfo
    = Done {| submitFrameNumber := submitFrameNumber submitInfo;
              layerCount := layerCount submitInfo;
              layers := forwarded |} /\
    Forall2
      (fun l l' =>
         exists proj v0 v1,
           l = MultiProjObject proj /\ views proj = Cells [v0; v1] /\
           l' = MultiProjObject (with_views proj (Cells [v0; v1; v0; v1])))
      (layers submitInfo) forwarded.
Proof.
  intros Hcount Hall.
  assert (Hok : Forall (patchable sdk cfg host session) (layers submitInfo)).
  { revert Hall; apply Forall_impl.
    intros l [proj [v0 [v1 [-> [_ [Hvc Hv]]]]]].
    exists [v0; v1]; split; [exact Hv |]; rewrite Hvc.
    split; [reflexivity |]; split; [lia |]; intros; lia. }
  assert (Hwf : well_formed_submission submitInfo).
  { split; [exact Hcount |]. revert Hok; apply Forall_impl.
    apply patchable_caller_owned. }
  destruct (hooked_EndFrameWithLayers_returns sdk cfg host session _ Hcount Hok)
    as [[frame count forwarded] Hrun].
  destruct (hooked_EndFrameWithLayers_forwards sdk cfg host session _ _ Hwf Hrun)
    as [Hframe [Hcnt Hfw]].
  cbn [submitFrameNumber layerCount layers] in Hframe, Hcnt, Hfw; subst frame count.
  exists forwarded; split; [exact Hrun |].
  rewrite filter_true in Hfw.
  2:{ revert Hall; apply Forall_impl.
      intros l [proj [v0 [v1 [-> [Hty _]]]]].
      unfold is_multi_proj; cbn [header_of]; apply Z.eqb_eq; exact Hty. }
  generalize (Forall2_with_left _ _ _ _ Hall Hfw); apply Forall2_impl.
  intros l l' [[proj [v0 [v1 [-> [_ [Hvc Hv]]]]]] Hl].
  destruct Hl as [proj0 [cells [arr' [[= <-] [Hc [_ [_ [_ [_ [-> Hp]]]]]]]]]].
  rewrite Hv in Hc; injection Hc as <-.
  exists proj, v0, v1; split; [reflexivity |]; split; [exact Hv |].
  destruct Hp as [w0 [w1 [w2 [w3 [E0 [E1 [E2 [E3 [Hlen [Hout _]]]]]]]]]].
  rewrite Hvc in *.
  change (Z.rem 2 2) with 0 in E2; change (Z.rem 3 2) with 1 in E3.
  change (for_range 2 2) with (@nil Z) in *.
  injection E0 as <-; injection E1 as <-; injection E2 as <-; injection E3 as <-.
  unfold has_sentinel, patched_flags; cbn [existsb].
  rewrite andb_false_r, with_flags_same.
  assert (Earr : arr' = [v0; v1; v0; v1])
    by (apply load_ext; [exact Hlen | intros j; apply Hout; intros []]).
  rewrite Earr; reflexivity.
Qed.

End PassThrough.

(** ** What the shipped configuration never asks the runtime *)

Section Independence.

Variable sdk : VarjoHeaders.
Variable cfg : BuildConfig.
Variables host host' : Host.
Variable session : varjo_Session.

Hypothesis tangents_on : USE_FOVEATED_TANGENTS cfg = true.
Hypothesis gaze_off : USE_FOVEATED_GAZE cfg = false.
Hypothesis same_aligned :
  original_GetAlignedView host = original_GetAlignedView host'.
Hypothesis same_foveated :
  original_GetFoveatedFovTangents host = original_GetFoveatedFovTangents host'.
Hypothesis same_projection :
  varjo_GetProjectionMatrix host = varjo_GetProjectionMatrix host'.
Hypothesis same_size :
  original_GetTextureSize host = original_GetTextureSize host'.

Lemma GetFovTangents_same (viewIndex : Z) :
  GetFovTangents cfg host session viewIndex
  = GetFovTangents cfg host' session viewIndex.
Proof.
  unfold GetFovTangents, GetRenderingGaze.
  rewrite tangents_on, gaze_off, same_foveated; reflexivity.
Qed.

Lemma carve_focus_view_same (k : Z)
    (focusView referenceView : varjo_LayerMultiProjView) :
  carve_focus_view cfg host session k focusView referenceView
  = carve_focus_view cfg host' session k focusView referenceView.
Proof.
  unfold carve_focus_view.
  rewrite GetFovTangents_same, same_aligned, same_projection; reflexivity.
Qed.

Lemma patch_focus_view_same (k : Z) (st : frame_locals) :
  patch_focus_view sdk cfg host session k st
  = patch_focus_view sdk cfg host' session k st.
Proof.
  unfold patch_focus_view.
  destruct (back (viewsAllocator st)) as [arr | f]; cbn [bind]; [| reflexivity].
  destruct (load arr k) as [fv | f]; cbn [bind]; [| reflexivity].
  destruct (rem_int32 k 2) as [r | f]; cbn [bind]; [| reflexivity].
  destruct (load arr r) as [rv | f]; cbn [bind]; [| reflexivity].
  rewrite carve_focus_view_same; reflexivity.
Qed.

Lemma copy_and_patch_same (proj : varjo_LayerMultiProj) (st : frame_locals) :
  copy_and_patch sdk cfg host session proj st
  = copy_and_patch sdk cfg host' session proj st.
Proof.
  unfold copy_and_patch, for_loop.
  destruct (for_each _ (for_range 0 (viewCount proj)) tt) as [u | f]; cbn [bind];
    [| reflexivity].
  destruct (view_at st (views proj) 0) as [v0 | f]; cbn [bind]; [| reflexivity].
  destruct (view_at st (views proj) 1) as [v1 | f]; cbn [bind]; [| reflexivity].
  destruct (rem_int32 2 (viewCount proj)) as [i2 | f]; cbn [bind]; [| reflexivity].
  destruct (view_at st (views proj) i2) as [v2 | f]; cbn [bind]; [| reflexivity].
  destruct (rem_int32 3 (viewCount proj)) as [i3 | f]; cbn [bind]; [| reflexivity].
  destruct (view_at st (views proj) i3) as [v3 | f]; cbn [bind]; [| reflexivity].
  destruct (back _) as [p | f]; cbn [bind]; [| reflexivity].
  destruct (set_back _ _) as [pa | f]; cbn [bind]; [| reflexivity].
  apply for_each_ext; exact patch_focus_view_same.
Qed.

(** With [USE_FOVEATED_TANGENTS] set and [USE_FOVEATED_GAZE] not set, as the
    repository is built, none of the hooks asks the runtime for the
    rendering gaze or for the static tangents: two runtimes that differ only
    in [varjo_GetRenderingGaze] and [varjo_GetFovTangents] give the same
    tangents, the same texture sizes and the same forwarded submissions. *)
Theorem hooks_ignore_gaze_and_static_tangents :
  (forall viewIndex,
     GetFovTangents cfg host session viewIndex
     = GetFovTangents cfg host' session viewIndex) /\
  (forall ty viewIndex out,
     hooked_GetTextureSize sdk cfg host session ty viewIndex out
     = hooked_GetTextureSize sdk cfg host' session ty viewIndex out) /\
  (forall submitInfo,
     hooked_EndFrameWithLayers sdk cfg host session submitInfo
     = hooked_EndFrameWithLayers sdk cfg host' session submitInfo).
Proof.
  split; [exact GetFovTangents_same |]; split.
  - intros ty viewIndex out; unfold hooked_GetTextureSize.
    rewrite same_size.
    destruct (ty =? varjo_TextureSize_Type_Stereo sdk); [| reflexivity].
    destruct (add_int32 2 viewIndex) as [focusIndex | f]; cbn [bind];
      [| reflexivity].
    rewrite !GetFovTangents_same; reflexivity.
  - intros submitInfo; unfold hooked_EndFrameWithLayers, for_loop.
    destruct (layerCount submitInfo <? 0); [reflexivity |].
    rewrite (for_each_ext (visit_layer sdk cfg host session submitInfo)
               (visit_layer sdk cfg host' session submitInfo)); [reflexivity |].
    intros i st; unfold visit_layer.
    destruct (load (layers submitInfo) i) as [l | f]; cbn [bind];
      [| reflexivity].
    unfold layer_body.
    destruct (type (header_of l) =? varjo_LayerMultiProjType sdk); [| reflexivity].
    destruct l as [proj | hdr]; [apply copy_and_patch_same | reflexivity].
Qed.

End Independence.

(** ** The further properties, on concrete submissions *)

Lemma forwarded_layers_are_the_multi_proj_layers_witness :
  exists newSubmitInfo,
    hooked_EndFrameWithLayers scenario_headers shipped_config
      (scenario_host unit_aligned (symmetric_tangents 1) (symmetric_tangents 0.5) (0, 0))
      0 mixed_frame = Done newSubmitInfo /\
    layerCount newSubmitInfo = 2 /\
    length (layers newSubmitInfo) = 1%nat.
Proof.
  destruct (hooked_EndFrameWithLayers scenario_headers shipped_config
              (scenario_host unit_aligned (symmetric_tangents 1)
                 (symmetric_tangents 0.5) (0, 0)) 0 mixed_frame)
    as [newSubmitInfo | f] eqn:Run; [| vm_compute in Run; discriminate].
  exists newSubmitInfo; split; [reflexivity |].
  assert (Hwf : well_formed_submission mixed_frame)
    by (split; [reflexivity
               | constructor; [exact I | constructor; [eexists; reflexivity | constructor]]]).
  destruct (forwarded_layers_are_the_multi_proj_layers _ _ _ _ _ _ Hwf Run)
    as [_ [Hcount [Hall _]]].
  split; [exact Hcount |].
  symmetry; exact (Forall2_length Hall).
Defined.

Lemma forwarded_views_are_copies_witness :
  exists newSubmitInfo proj' arr',
    hooked_EndFrameWithLayers scenario_headers shipped_config
      (scenario_host unit_aligned (symmetric_tangents 1) (symmetric_tangents 0.5) (0, 0))
      0 half_placed_frame = Done newSubmitInfo /\
    layers newSubmitInfo = [MultiProjObject proj'] /\
    views proj' = Cells arr' /\
    length arr' = 4%nat /\
    load arr' 0 = Done (scenario_view 7 0 0 1000 1000) /\
    load arr' 1 = Done (scenario_view 8 0 0 1000 1000).
Proof.
  destruct (hooked_EndFrameWithLayers scenario_headers shipped_config
              (scenario_host unit_aligned (symmetric_tangents 1)
                 (symmetric_tangents 0.5) (0, 0)) 0 half_placed_frame)
    as [newSubmitInfo | f] eqn:Run; [| vm_compute in Run; discriminate].
  assert (Hwf : well_formed_submission half_placed_frame)
    by scenario_well_formed.
  pose proof (forwarded_views_are_copies _ _ _ _ _ _ Hwf Run) as H.
  inversion H as [| l l' ls ls' Hhead Htail El El']; subst; clear H.
  destruct Hhead as [proj [cells [proj' [arr' [Hl [Hc [-> [Hv [Hlen [H0 [H1 _]]]]]]]]]]].
  injection Hl as <-; injection Hc as <-.
  exists newSubmitInfo, proj', arr'.
  split; [reflexivity |].
  split; [inversion Htail; subst; congruence |].
  split; [exact Hv |]; split; [exact Hlen |]; split; assumption.
Defined.

Lemma forwarded_flags_witness :
  exists newSubmitInfo proj',
    hooked_EndFrameWithLayers scenario_headers shipped_config
      (scenario_host unit_aligned (symmetric_tangents 1) (symmetric_tangents 0.5) (0, 0))
      0 half_placed_frame = Done newSubmitInfo /\
    layers newSubmitInfo = [MultiProjObject proj'] /\
    flags (header proj') = 32.
Proof.
  destruct (hooked_EndFrameWithLayers scenario_headers shipped_config
              (scenario_host unit_aligned (symmetric_tangents 1)
                 (symmetric_tangents 0.5) (0, 0)) 0 half_placed_frame)
    as [newSubmitInfo | f] eqn:Run; [| vm_compute in Run; discriminate].
  assert (Hwf : well_formed_submission half_placed_frame)
    by scenario_well_formed.
  pose proof (forwarded_flags _ _ _ _ _ _ Hwf Run) as H.
  inversion H as [| l l' ls ls' Hhead Htail El El']; subst; clear H.
  destruct Hhead as [proj [cells [proj' [Hl [Hc [-> [Hset _]]]]]]].
  injection Hl as <-; injection Hc as <-.
  exists newSubmitInfo, proj'.
  split; [reflexivity |].
  split; [inversion Htail; subst; congruence |].
  apply (Hset eq_refl).
  exists 3, (scenario_view 9 0 0 1 1); split; [cbn; lia |]; split; reflexivity.
Defined.

Lemma forwarded_focus_views_are_placed_witness :
  exists newSubmitInfo proj' arr' v2 v3,
    hooked_EndFrameWithLayers scenario_headers shipped_config
      (scenario_host unit_aligned (symmetric_tangents 1) (symmetric_tangents 0.5) (0, 0))
      0 side_by_side_frame = Done newSubmitInfo /\
    layers newSubmitInfo = [MultiProjObject proj'] /\
    views proj' = Cells arr' /\
    load arr' 2 = Done v2 /\ sentinel v2 = false /\
    load arr' 3 = Done v3 /\ sentinel v3 = false.
Proof.
  destruct (hooked_EndFrameWithLayers scenario_headers shipped_config
              (scenario_host unit_aligned (symmetric_tangents 1)
                 (symmetric_tangents 0.5) (0, 0)) 0 side_by_side_frame)
    as [newSubmitInfo | f] eqn:Run; [| vm_compute in Run; discriminate].
  assert (Hwf : well_formed_submission side_by_side_frame)
    by scenario_well_formed.
  pose proof (forwarded_focus_views_are_placed _ _ _ _ _ _ Hwf Run) as H.
  inversion H as [| l l' ls ls' Hhead Htail El El']; subst; clear H.
  destruct Hhead as [proj [proj' [arr' [Hl [-> [Hv [Hvc Hplaced]]]]]]].
  injection Hl as <-.
  destruct (Hplaced 2 ltac:(rewrite Hvc; cbn; lia)) as [v2 [L2 S2]].
  destruct (Hplaced 3 ltac:(rewrite Hvc; cbn; lia)) as [v3 [L3 S3]].
  exists newSubmitInfo, proj', arr', v2, v3.
  split; [reflexivity |].
  split; [inversion Htail; subst; congruence |].
  repeat split; assumption.
Defined.

Lemma forwarded_only_if_the_views_fit_witness :
  0 <= layerCount half_placed_frame /\
  Forall
    (fun l =>
       is_multi_proj scenario_headers l = true ->
       exists proj cells,
         l = MultiProjObject proj /\ views proj = Cells cells /\
         viewCount proj <> 0 /\ viewCount proj <= 4 /\
         viewCount proj <= Z.of_nat (length cells) /\
         2 <= Z.of_nat (length cells))
    (layers half_placed_frame).
Proof.
  destruct (hooked_EndFrameWithLayers scenario_headers shipped_config
              (scenario_host unit_aligned (symmetric_tangents 1)
                 (symmetric_tangents 0.5) (0, 0)) 0 half_placed_frame)
    as [newSubmitInfo | f] eqn:Run; [| vm_compute in Run; discriminate].
  assert (Hwf : well_formed_submission half_placed_frame)
    by scenario_well_formed.
  exact (forwarded_only_if_the_views_fit _ _ _ _ _ _ Hwf Run).
Defined.

Lemma two_view_layers_pass_through_witness :
  exists forwarded,
    hooked_EndFrameWithLayers scenario_headers shipped_config
      (scenario_host unit_aligned (symmetric_tangents 1) (symmetric_tangents 0.5) (0, 0))
      0 two_view_frame
    = Done {| submitFrameNumber := 1; layerCount := 1; layers := forwarded |} /\
    Forall2
      (fun l l' =>
         exists proj v0 v1,
           l = MultiProjObject proj /\ views proj = Cells [v0; v1] /\
           l' = MultiProjObject (with_views proj (Cells [v0; v1; v0; v1])))
      (layers two_view_frame) forwarded.
Proof.
  apply (two_view_layers_pass_through scenario_headers shipped_config
           (scenario_host unit_aligned (symmetric_tangents 1)
              (symmetric_tangents 0.5) (0, 0)) 0 two_view_frame);
    [reflexivity |].
  constructor; [| constructor].
  eexists; eexists; eexists.
  split; [reflexivity |]; split; [reflexivity |]; split; reflexivity.
Defined.

Lemma hooks_ignore_gaze_and_static_tangents_witness :
  hooked_EndFrameWithLayers scenario_headers shipped_config
    (scenario_host unit_aligned (symmetric_tangents 1) (symmetric_tangents 0.5) (0, 0))
    0 half_placed_frame
  = hooked_EndFrameWithLayers scenario_headers shipped_config
      (tracking_host unit_aligned (symmetric_tangents 1) (symmetric_tangents 0.5) (0, 0))
      0 half_placed_frame.
Proof.
  destruct (hooks_ignore_gaze_and_static_tangents scenario_headers shipped_config
              (scenario_host unit_aligned (symmetric_tangents 1)
                 (symmetric_tangents 0.5) (0, 0))
              (tracking_host unit_aligned (symmetric_tangents 1)
                 (symmetric_tangents 0.5) (0, 0))
              0 eq_refl eq_refl eq_refl eq_refl eq_refl eq_refl)
    as [_ [_ Frames]].
  apply Frames.
Defined.

(** ** A focus range that is the whole reference range *)









Section WholeReference.

Variable cfg : BuildConfig.
Variable host : Host.
Variable session : varjo_Session.


End WholeReference.

